(** * Tiny BASIC interpreter (tiny_basic.py): a shallow embedding

    The interpreter class [TinyBasicInterpreter] keeps a program store
    (a dict from line numbers to statement text), a table of scalar
    variables, a table of arrays and a [running] flag.  Statements are
    kept as text and are re-read every time they are executed; the
    expression evaluator hands the text to the host language's [eval].

    The embedding follows the source function by function.  Strings are
    [string]s over ASCII text, Python integers are [Z], dicts are [gmap]s,
    printed lines are collected in the state, and exceptions are explicit
    outcomes.  The loops that need not terminate ([RUN] over a program with
    a backward [GOTO], a program that calls [RUN]) take a fuel argument.

    Three things of the host are modelled rather than embedded: the
    expression language that [eval] accepts (module [PyExpr], a fragment
    with everything outside it marked [Unmodelled]), the regular
    expressions (module [Re], one matcher per pattern of the source), and
    the files of SAVE and LOAD (a map from names to their text, read
    back in lines the way the host's text mode splits it, together with
    the names that cannot be opened for writing).  A file is read whole
    when it is opened. *)

From Stdlib Require Import ZArith String Ascii List Lia Bool.
From stdpp Require Import base option list gmap strings sorting.

#[local] Open Scope string_scope.
#[local] Open Scope Z_scope.

(** ** Characters and strings, as the host's [str] methods treat them *)

Module Str.

Definition code (c : ascii) : N := N_of_ascii c.

(** [str.isspace] on ASCII: TAB..CR, FS..US and the blank. *)
Definition is_space (c : ascii) : bool :=
  ((9 <=? code c) && (code c <=? 13) || (28 <=? code c) && (code c <=? 32))%N.

Definition is_digit (c : ascii) : bool :=
  ((48 <=? code c) && (code c <=? 57))%N.

Definition is_upper (c : ascii) : bool :=
  ((65 <=? code c) && (code c <=? 90))%N.

Definition is_lower (c : ascii) : bool :=
  ((97 <=? code c) && (code c <=? 122))%N.

Definition is_newline (c : ascii) : bool := (code c =? 10)%N.

Definition upper_char (c : ascii) : ascii :=
  if is_lower c then ascii_of_N (code c - 32) else c.

(** [s.upper()] *)
Fixpoint upper (s : string) : string :=
  match s with
  | EmptyString => EmptyString
  | String c r => String (upper_char c) (upper r)
  end.

Fixpoint lstrip (s : string) : string :=
  match s with
  | EmptyString => EmptyString
  | String c r => if is_space c then lstrip r else s
  end.

Fixpoint rstrip (s : string) : string :=
  match s with
  | EmptyString => EmptyString
  | String c r =>
      match rstrip r with
      | EmptyString => if is_space c then EmptyString else String c EmptyString
      | r' => String c r'
      end
  end.

(** [s.strip()] *)
Definition strip (s : string) : string := rstrip (lstrip s).

Definition is_empty (s : string) : bool :=
  match s with EmptyString => true | _ => false end.

(** The longest prefix whose characters satisfy [p], and what follows. *)
Fixpoint span (p : ascii -> bool) (s : string) : string * string :=
  match s with
  | EmptyString => (EmptyString, EmptyString)
  | String c r =>
      if p c then let '(a, b) := span p r in (String c a, b)
      else (EmptyString, s)
  end.

Definition take_while (p : ascii -> bool) (s : string) : string := fst (span p s).
Definition drop_while (p : ascii -> bool) (s : string) : string := snd (span p s).

Definition not_newline (c : ascii) : bool := negb (is_newline c).

Definition is_return (c : ascii) : bool := (code c =? 13)%N.

Definition not_return (c : ascii) : bool := negb (is_return c).

(** [s.split(maxsplit=1)]: no separator given, so runs of white space
    separate, leading white space is dropped, and what follows the first
    word keeps its own trailing white space. *)
Definition split_maxsplit1 (s : string) : list string :=
  match lstrip s with
  | EmptyString => []
  | s1 =>
      let '(w, r) := span (fun c => negb (is_space c)) s1 in
      match lstrip r with
      | EmptyString => [w]
      | r' => [w; r']
      end
  end.

Fixpoint starts_with (p s : string) : bool :=
  match p, s with
  | EmptyString, _ => true
  | String a p', String b s' => Ascii.eqb a b && starts_with p' s'
  | String _ _, EmptyString => false
  end.

Fixpoint drop (n : nat) (s : string) : string :=
  match n, s with
  | O, _ => s
  | S m, String _ r => drop m r
  | S _, EmptyString => EmptyString
  end.

(** [sep in s] and [s.split(sep, 1)] in one: the text before and after the
    first occurrence of [sep], or [None] when [sep] does not occur.
    [sep] is never empty in the callers. *)
Fixpoint split_first (sep s : string) : option (string * string) :=
  if starts_with sep s then Some (EmptyString, drop (String.length sep) s)
  else
    match s with
    | EmptyString => None
    | String c r =>
        match split_first sep r with
        | Some (a, b) => Some (String c a, b)
        | None => None
        end
    end.

Definition contains (sep s : string) : bool :=
  match split_first sep s with Some _ => true | None => false end.

(** [s.replace('/', '//')] *)
Fixpoint replace_slash (s : string) : string :=
  match s with
  | EmptyString => EmptyString
  | String c r =>
      if Ascii.eqb c "/"%char then String "/"%char (String "/"%char (replace_slash r))
      else String c (replace_slash r)
  end.

Definition digit_value (c : ascii) : Z := Z.of_N (code c) - 48.

(** [int(s)] on a string of decimal digits. *)
Definition int_of_digits (s : string) : Z :=
  fold_left (fun acc c => 10 * acc + digit_value c) (list_ascii_of_string s) 0.

Definition digit_char (d : Z) : ascii := ascii_of_N (Z.to_N (48 + d)).

Fixpoint digits_of (fuel : nat) (n : Z) : string :=
  match fuel with
  | O => EmptyString
  | S f =>
      if n <? 10 then String (digit_char n) EmptyString
      else digits_of f (n / 10) +:+ String (digit_char (n mod 10)) EmptyString
  end.

(** [str(n)] for an integer: decimal digits, with a minus sign when
    negative. *)
Definition of_Z (n : Z) : string :=
  if n <? 0 then String "-"%char (digits_of (S (Z.to_nat (Z.log2 (- n)))) (- n))
  else digits_of (S (Z.to_nat (Z.log2 n))) n.

(** A text that is not empty and starts with a character that is not
    white space. *)
Definition head_nonspace (s : string) : bool :=
  match s with
  | EmptyString => false
  | String c _ => negb (is_space c)
  end.

(** What a sequence of [f.write] calls leaves in a file. *)
Definition written (chunks : list string) : string :=
  fold_right String.append EmptyString chunks.

(** The lines that iterating over a file opened for reading in text mode
    gives: a line ends at a newline, at a carriage return, or at a carriage
    return followed by a newline, and each of them is handed over as one
    newline; text after the last of them is a line without one. *)
Fixpoint universal_lines (s : string) : list string :=
  match s with
  | EmptyString => []
  | String c r =>
      if is_newline c then String "010"%char EmptyString :: universal_lines r
      else if is_return c then
        match r with
        | String "010"%char r' => String "010"%char EmptyString :: universal_lines r'
        | _ => String "010"%char EmptyString :: universal_lines r
        end
      else
        match universal_lines r with
        | [] => [String c EmptyString]
        | l :: ls => String c l :: ls
        end
  end.

End Str.

(** ** Results and exceptions *)

Inductive result (E A : Type) : Type :=
| Ok (a : A)
| Err (e : E).
Arguments Ok {E A} a.
Arguments Err {E A} e.

Definition bind {E A B} (r : result E A) (k : A -> result E B) : result E B :=
  match r with
  | Ok a => k a
  | Err e => Err e
  end.

Notation "'do' x <- r ; k" := (bind r (fun x => k))
  (at level 10, x name, r at level 100, k at level 200).

(** What the host's [eval] can raise on the expressions modelled here.
    [IndexOutOfBoundsFor n] is the [RuntimeError] that [array_accessor]
    raises inside [eval], [MissingArray n] the [KeyError] of
    [self.arrays[n]].  [Unmodelled] marks text that leaves the modelled
    expression language (see [PyExpr]); nothing is claimed about it. *)
Inductive py_error : Type :=
| SyntaxError
| MissingArray (n : ascii)
| TypeError
| ZeroDivisionError
| IndexOutOfBoundsFor (n : ascii)
| Unmodelled.

(** The text of each [RuntimeError] the interpreter raises, by the place
    that raises it. *)
Inductive message : Type :=
| GotoOutsideProgram
| IfOutsideProgram
| ArrayIndexOutOfBounds (name : ascii) (idx : Z)
| ArrayNotDefined (name : ascii)
| InvalidVariableName (var_name : string)
| DimSyntax
| InvalidConditionSyntax
| ExpressionError (expr_str : string) (cause : py_error).

Inductive exn : Type :=
| RuntimeError (m : message)
| KeyError (k : Z)
| IndexError
| FileNotFoundError (filename : string)
| OSError (filename : string).

(** ** The host's expression language

    [eval_expression] upper-cases the text, doubles every slash and gives
    it to [eval] with the letters A..Z bound.  The part of the host's
    expression language that is modelled: decimal integer literals, names,
    calls with one argument or none, the empty tuple, unary [+] and [-],
    binary [+ - * // %], parentheses, blanks and tabs between tokens.  Any other character,
    a literal followed by a letter, an underscore or a dot, and [**] are
    [Unmodelled]. *)

Module PyExpr.

Inductive token : Type :=
| TNum (n : Z)
| TName (x : string)
| TPlus | TMinus | TStar | TFloorDiv | TPercent
| TLParen | TRParen.

Inductive binop : Type := Add | Sub | Mul | FloorDiv | Mod.

Inductive expr : Type :=
| ENum (n : Z)
| EName (x : string)
| ENeg (e : expr)
| EPos (e : expr)
| EBin (op : binop) (l r : expr)
| ECall (f : expr) (a : expr)
| ECallNone (f : expr)
| ETuple.

(** *** Tokens *)

Inductive pending : Type :=
| PNone
| PNum (digits : string)
| PName (chars : string).

Definition is_ident_start (c : ascii) : bool :=
  Str.is_upper c || Str.is_lower c || Ascii.eqb c "_"%char.

Definition is_blank (c : ascii) : bool :=
  Ascii.eqb c " "%char || Ascii.eqb c "009"%char.

(** A decimal literal with a leading zero is accepted only when it is all
    zeros. *)
Definition number_token (digits : string) : result py_error token :=
  match digits with
  | String "0"%char (String _ _) =>
      if Str.int_of_digits digits =? 0 then Ok (TNum 0) else Err SyntaxError
  | _ => Ok (TNum (Str.int_of_digits digits))
  end.

Definition flush (p : pending) : result py_error (list token) :=
  match p with
  | PNone => Ok []
  | PNum ds => do t <- number_token ds; Ok [t]
  | PName x => Ok [TName x]
  end.

Definition snoc (s : string) (c : ascii) : string := s +:+ String c EmptyString.

Fixpoint lex_go (p : pending) (s : string) : result py_error (list token) :=
  match s with
  | EmptyString => flush p
  | String c r =>
      if Str.is_digit c then
        match p with
        | PNone => lex_go (PNum (String c EmptyString)) r
        | PNum ds => lex_go (PNum (snoc ds c)) r
        | PName x => lex_go (PName (snoc x c)) r
        end
      else if is_ident_start c then
        match p with
        | PNone => lex_go (PName (String c EmptyString)) r
        | PNum _ => Err Unmodelled
        | PName x => lex_go (PName (snoc x c)) r
        end
      else
        do done <- flush p;
        if is_blank c then
          do rest <- lex_go PNone r; Ok (done ++ rest)%list
        else
          match c, r with
          | "+"%char, _ => do rest <- lex_go PNone r; Ok (done ++ TPlus :: rest)%list
          | "-"%char, _ => do rest <- lex_go PNone r; Ok (done ++ TMinus :: rest)%list
          | "*"%char, String "*"%char _ => Err Unmodelled
          | "*"%char, _ => do rest <- lex_go PNone r; Ok (done ++ TStar :: rest)%list
          | "%"%char, _ => do rest <- lex_go PNone r; Ok (done ++ TPercent :: rest)%list
          | "/"%char, String "/"%char r' =>
              do rest <- lex_go PNone r'; Ok (done ++ TFloorDiv :: rest)%list
          | "("%char, _ => do rest <- lex_go PNone r; Ok (done ++ TLParen :: rest)%list
          | ")"%char, _ => do rest <- lex_go PNone r; Ok (done ++ TRParen :: rest)%list
          | _, _ => Err Unmodelled
          end
  end.

Definition lex (s : string) : result py_error (list token) := lex_go PNone s.

(** *** Grammar

    sum     : sum [+ -] term | term
    term    : term [times, //, %] factor | factor
    factor  : [+ -] factor | primary
    primary : primary "(" sum ")" | primary "(" ")" | atom
    atom    : NUMBER | NAME | "(" sum ")" | "(" ")"

    [rec] parses a sum inside a pair of parentheses; it is only called
    after an opening parenthesis has been consumed.  The repetitions are
    bounded by the number of tokens left. *)

Definition parsed : Type := option (expr * list token).

Section Grammar.
Variable rec : list token -> parsed.

Definition parse_atom (ts : list token) : parsed :=
  match ts with
  | TNum n :: r => Some (ENum n, r)
  | TName x :: r => Some (EName x, r)
  | TLParen :: TRParen :: r => Some (ETuple, r)
  | TLParen :: r =>
      match rec r with
      | Some (e, TRParen :: r') => Some (e, r')
      | _ => None
      end
  | _ => None
  end.

Fixpoint parse_trailers (n : nat) (f : expr) (ts : list token) : parsed :=
  match ts with
  | TLParen :: TRParen :: r =>
      match n with
      | O => None
      | S m => parse_trailers m (ECallNone f) r
      end
  | TLParen :: r =>
      match n with
      | O => None
      | S m =>
          match rec r with
          | Some (a, TRParen :: r') => parse_trailers m (ECall f a) r'
          | _ => None
          end
      end
  | _ => Some (f, ts)
  end.

Definition parse_primary (ts : list token) : parsed :=
  match parse_atom ts with
  | Some (e, r) => parse_trailers (length r) e r
  | None => None
  end.

Fixpoint parse_factor (n : nat) (ts : list token) : parsed :=
  match ts with
  | TMinus :: r =>
      match n with
      | O => None
      | S m =>
          match parse_factor m r with
          | Some (e, r') => Some (ENeg e, r')
          | None => None
          end
      end
  | TPlus :: r =>
      match n with
      | O => None
      | S m =>
          match parse_factor m r with
          | Some (e, r') => Some (EPos e, r')
          | None => None
          end
      end
  | _ => parse_primary ts
  end.

Definition term_op (t : token) : option binop :=
  match t with
  | TStar => Some Mul
  | TFloorDiv => Some FloorDiv
  | TPercent => Some Mod
  | _ => None
  end.

Definition sum_op (t : token) : option binop :=
  match t with
  | TPlus => Some Add
  | TMinus => Some Sub
  | _ => None
  end.

Fixpoint term_rest (n : nat) (lhs : expr) (ts : list token) : parsed :=
  match ts with
  | t :: r =>
      match term_op t, n with
      | Some op, S m =>
          match parse_factor (length r) r with
          | Some (rhs, r') => term_rest m (EBin op lhs rhs) r'
          | None => None
          end
      | Some _, O => None
      | None, _ => Some (lhs, ts)
      end
  | [] => Some (lhs, ts)
  end.

Definition parse_term (ts : list token) : parsed :=
  match parse_factor (length ts) ts with
  | Some (e, r) => term_rest (length r) e r
  | None => None
  end.

Fixpoint sum_rest (n : nat) (lhs : expr) (ts : list token) : parsed :=
  match ts with
  | t :: r =>
      match sum_op t, n with
      | Some op, S m =>
          match parse_term r with
          | Some (rhs, r') => sum_rest m (EBin op lhs rhs) r'
          | None => None
          end
      | Some _, O => None
      | None, _ => Some (lhs, ts)
      end
  | [] => Some (lhs, ts)
  end.

Definition parse_sum (ts : list token) : parsed :=
  match parse_term ts with
  | Some (e, r) => sum_rest (length r) e r
  | None => None
  end.
End Grammar.

Fixpoint parse_nested (depth : nat) (ts : list token) : parsed :=
  match depth with
  | O => None
  | S d => parse_sum (parse_nested d) ts
  end.

(** The whole text must be one expression. *)
Definition parse (ts : list token) : result py_error expr :=
  match parse_nested (S (length ts)) ts with
  | Some (e, []) => Ok e
  | _ => Err SyntaxError
  end.

End PyExpr.

(** ** The regular expressions of the source, as matchers *)

Module Re.

(** The pattern of [process_input], matched at the head of [line]: one
    or more digits (group 1), any white space, then the rest of the text
    up to the first newline (group 2). *)
Definition match_numbered (line : string) : option (string * string) :=
  let '(digits, r) := Str.span Str.is_digit line in
  if Str.is_empty digits then None
  else Some (digits, Str.take_while Str.not_newline (Str.lstrip r)).

Fixpoint all_chars (p : ascii -> bool) (s : string) : bool :=
  match s with
  | EmptyString => true
  | String c r => p c && all_chars p r
  end.

(** The text without its last character, and that character. *)
Fixpoint split_last (s : string) : option (string * ascii) :=
  match s with
  | EmptyString => None
  | String c r =>
      match split_last r with
      | None => Some (EmptyString, c)
      | Some (init, l) => Some (String c init, l)
      end
  end.

(** The pattern of [cmd_let] and [cmd_dim] for an array form, on a
    stripped [s]: a capital letter (group 1), an opening parenthesis, at
    least one character other than a newline (group 2), and a closing
    parenthesis that ends the text. *)
Definition match_array_form (s : string) : option (ascii * string) :=
  match s with
  | String c (String "("%char r) =>
      if Str.is_upper c then
        match split_last r with
        | Some (inner, ")"%char) =>
            if negb (Str.is_empty inner) && all_chars Str.not_newline inner
            then Some (c, inner) else None
        | _ => None
        end
      else None
  | _ => None
  end.

(** The pattern of [cmd_let] for a scalar, on a stripped [s]: one capital
    letter and nothing else. *)
Definition match_letter (s : string) : option ascii :=
  match s with
  | String c EmptyString => if Str.is_upper c then Some c else None
  | _ => None
  end.

(** The target group when the white space after THEN runs to the end of
    the text: the engine gives white space back to the group, as little as
    it can. *)
Fixpoint give_back (ws : string) : option string :=
  match ws with
  | EmptyString => None
  | String c r =>
      match give_back r with
      | Some g => Some g
      | None =>
          if Str.not_newline c then Some (Str.take_while Str.not_newline ws)
          else None
      end
  end.

(** White space, THEN in any case, white space and a non-empty target
    (the rest of the line), at the head of [s]. *)
Definition match_then (s : string) : option string :=
  let '(ws1, r1) := Str.span Str.is_space s in
  if Str.is_empty ws1 then None
  else if negb (Str.starts_with "THEN" (Str.upper r1)) then None
  else
    let '(ws2, r3) := Str.span Str.is_space (Str.drop 4 r1) in
    match ws2, r3 with
    | EmptyString, _ => None
    | String _ _, String _ _ => Some (Str.take_while Str.not_newline r3)
    | String _ ws2', EmptyString => give_back ws2'
    end.

Fixpoint match_if_go (pre s : string) : option (string * string) :=
  match match_then s with
  | Some target => Some (pre, target)
  | None =>
      match s with
      | EmptyString => None
      | String c r =>
          if Str.is_newline c then None
          else match_if_go (pre +:+ String c EmptyString) r
      end
  end.

(** The pattern of the IF statement: the shortest non-empty condition
    text (group 1) that is followed by white space, THEN, white space and
    a target (group 2). *)
Definition match_if (arg : string) : option (string * string) :=
  match arg with
  | EmptyString => None
  | String c r =>
      if Str.is_newline c then None
      else match_if_go (String c EmptyString) r
  end.

End Re.

(** ** Interpreter state *)

(** What [print] writes.  The lines whose text the source fixes are
    [Line]s; the lines that show an exception keep the exception. *)
Inductive out_line : Type :=
| Line (text : string)
| ErrorOnLine (line_num : Z) (e : exn)
| ErrorLoading (e : exn)
| ErrorSaving (e : exn)
| ErrorTop (e : exn).

(** The fields of [TinyBasicInterpreter], the lines printed so far, the
    files that SAVE and LOAD see (the text of each), and the names that
    [open] refuses to open for writing. *)
Record state : Type := mkState {
  program : gmap Z string;
  variables : gmap ascii Z;
  arrays : gmap ascii (list Z);
  running : bool;
  output : list out_line;
  files : gmap string string;
  readonly : gset string
}.

Definition set_program (p : gmap Z string) (st : state) : state :=
  mkState p (variables st) (arrays st) (running st) (output st) (files st)
          (readonly st).
Definition set_variables (v : gmap ascii Z) (st : state) : state :=
  mkState (program st) v (arrays st) (running st) (output st) (files st)
          (readonly st).
Definition set_arrays (a : gmap ascii (list Z)) (st : state) : state :=
  mkState (program st) (variables st) a (running st) (output st) (files st)
          (readonly st).
Definition set_running (b : bool) (st : state) : state :=
  mkState (program st) (variables st) (arrays st) b (output st) (files st)
          (readonly st).
Definition set_files (f : gmap string string) (st : state) : state :=
  mkState (program st) (variables st) (arrays st) (running st) (output st) f
          (readonly st).
Definition set_readonly (ro : gset string) (st : state) : state :=
  mkState (program st) (variables st) (arrays st) (running st) (output st)
          (files st) ro.
Definition print (l : out_line) (st : state) : state :=
  mkState (program st) (variables st) (arrays st) (running st)
          (output st ++ [l]) (files st) (readonly st).

Definition letters : list ascii :=
  map (fun n => ascii_of_nat n) (seq 65 26).

(** [{chr(i): 0 for i in range(ord('A'), ord('Z') + 1)}] *)
Definition fresh_variables : gmap ascii Z :=
  list_to_map (map (fun c => (c, 0)) letters).

(** [__init__], with nothing printed, the given files, and every name
    open to writing. *)
Definition init (fs : gmap string string) : state :=
  mkState ∅ fresh_variables ∅ true [] fs ∅.

Inductive status : Type :=
| Done
| Raised (e : exn)
| OutOfFuel.

Definition outcome : Type := status * state.

(** ** The evaluator *)

Inductive value : Type :=
| VInt (z : Z)
| VFun (n : ascii)
| VTuple.

(** [l[i]] on a list: a negative index counts from the end. *)
Definition py_index (l : list Z) (i : Z) : option Z :=
  if (0 <=? i) && (i <? Z.of_nat (length l)) then l !! Z.to_nat i
  else if (- Z.of_nat (length l) <=? i) && (i <? 0)
       then l !! Z.to_nat (Z.of_nat (length l) + i)
       else None.

(** [local_vars[name]]: a letter bound in [arrays] is its accessor
    function, any other letter is its scalar value (every letter is bound
    in [variables] from [__init__] on).  Any other name is looked up in
    the builtins, which are [None]: a type error. *)
Definition local_var (st : state) (x : string) : result py_error value :=
  match x with
  | String c EmptyString =>
      if Str.is_upper c then
        match arrays st !! c with
        | Some _ => Ok (VFun c)
        | None => Ok (VInt (default 0 (variables st !! c)))
        end
      else Err TypeError
  | _ => Err TypeError
  end.

(** [array_accessor(idx, n)]: [self.arrays[n][int(idx)]], an [IndexError]
    becoming the "Index out of bounds" error. *)
Definition array_accessor (st : state) (n : ascii) (idx : value) : result py_error value :=
  match idx with
  | VFun _ | VTuple => Err TypeError
  | VInt i =>
      match arrays st !! n with
      | None => Err (MissingArray n)
      | Some l =>
          match py_index l i with
          | Some v => Ok (VInt v)
          | None => Err (IndexOutOfBoundsFor n)
          end
      end
  end.

Definition apply_binop (op : PyExpr.binop) (a b : Z) : result py_error Z :=
  match op with
  | PyExpr.Add => Ok (a + b)
  | PyExpr.Sub => Ok (a - b)
  | PyExpr.Mul => Ok (a * b)
  | PyExpr.FloorDiv => if b =? 0 then Err ZeroDivisionError else Ok (a / b)
  | PyExpr.Mod => if b =? 0 then Err ZeroDivisionError else Ok (a mod b)
  end.

Definition as_int (v : value) : result py_error Z :=
  match v with
  | VInt z => Ok z
  | VFun _ | VTuple => Err TypeError
  end.

(** The operators that the empty tuple supports: the sum of two tuples
    and the product of a tuple and an integer, each the empty tuple. *)
Definition tuple_binop (op : PyExpr.binop) (a b : value) : option value :=
  match op, a, b with
  | PyExpr.Add, VTuple, VTuple => Some VTuple
  | PyExpr.Mul, VTuple, VInt _ => Some VTuple
  | PyExpr.Mul, VInt _, VTuple => Some VTuple
  | _, _, _ => None
  end.

Fixpoint eval_ast (st : state) (e : PyExpr.expr) : result py_error value :=
  match e with
  | PyExpr.ENum n => Ok (VInt n)
  | PyExpr.EName x => local_var st x
  | PyExpr.ENeg a =>
      do v <- eval_ast st a; do z <- as_int v; Ok (VInt (- z))
  | PyExpr.EPos a =>
      do v <- eval_ast st a; do z <- as_int v; Ok (VInt z)
  | PyExpr.EBin op l r =>
      do a <- eval_ast st l;
      do b <- eval_ast st r;
      match tuple_binop op a b with
      | Some t => Ok t
      | None =>
          do x <- as_int a;
          do y <- as_int b;
          do z <- apply_binop op x y;
          Ok (VInt z)
      end
  | PyExpr.ECall f a =>
      do fv <- eval_ast st f;
      do av <- eval_ast st a;
      match fv with
      | VFun n => array_accessor st n av
      | VInt _ | VTuple => Err TypeError
      end
  | PyExpr.ECallNone f =>
      do fv <- eval_ast st f; Err TypeError
  | PyExpr.ETuple => Ok VTuple
  end.

(** [int(eval(text, ..., local_vars))] *)
Definition host_eval (st : state) (text : string) : result py_error Z :=
  do ts <- PyExpr.lex text;
  do e <- PyExpr.parse ts;
  do v <- eval_ast st e;
  as_int v.

Definition eval_expression (expr_str : string) (st : state) : result exn Z :=
  let expr_str := Str.upper (Str.strip expr_str) in
  if Str.is_empty expr_str then Ok 0
  else
    let expr_str := Str.replace_slash expr_str in
    match host_eval st expr_str with
    | Ok z => Ok z
    | Err e => Err (RuntimeError (ExpressionError expr_str e))
    end.

Definition relation (op : string) (l r : Z) : bool :=
  if String.eqb op ">=" then r <=? l
  else if String.eqb op "<=" then l <=? r
  else if String.eqb op "<>" then negb (l =? r)
  else if String.eqb op ">" then r <? l
  else if String.eqb op "<" then l <? r
  else l =? r.

Definition ops : list string := [">="; "<="; "<>"; ">"; "<"; "="]%string.

Fixpoint eval_condition_go (ops : list string) (condition_str : string) (st : state)
  : result exn bool :=
  match ops with
  | [] => Err (RuntimeError InvalidConditionSyntax)
  | op :: rest =>
      match Str.split_first op condition_str with
      | Some (lhs, rhs) =>
          do lval <- eval_expression lhs st;
          do rval <- eval_expression rhs st;
          Ok (relation op lval rval)
      | None => eval_condition_go rest condition_str st
      end
  end.

Definition eval_condition (condition_str : string) (st : state) : result exn bool :=
  eval_condition_go ops condition_str st.

(** ** Commands *)

Definition raise (e : exn) (st : state) : outcome := (Raised e, st).
Definition ret (st : state) : outcome := (Done, st).

Definition cmd_print (arg : string) (st : state) : outcome :=
  match eval_expression arg st with
  | Ok val => ret (print (Line (Str.of_Z val)) st)
  | Err e => raise e st
  end.

Definition cmd_let (arg : string) (st : state) : outcome :=
  match Str.split_first "=" arg with
  | None => ret (print (Line "Syntax error: LET var = expression") st)
  | Some (var_part, expr_part) =>
      let var_name := Str.upper (Str.strip var_part) in
      match eval_expression expr_part st with
      | Err e => raise e st
      | Ok val =>
          match Re.match_array_form var_name with
          | Some (name, idx_expr) =>
              match eval_expression idx_expr st with
              | Err e => raise e st
              | Ok idx =>
                  match arrays st !! name with
                  | Some l =>
                      if (0 <=? idx) && (idx <? Z.of_nat (length l))
                      then ret (set_arrays
                                  (<[name := <[Z.to_nat idx := val]> l]> (arrays st)) st)
                      else raise (RuntimeError (ArrayIndexOutOfBounds name idx)) st
                  | None => raise (RuntimeError (ArrayNotDefined name)) st
                  end
              end
          | None =>
              match Re.match_letter var_name with
              | Some c => ret (set_variables (<[c := val]> (variables st)) st)
              | None => raise (RuntimeError (InvalidVariableName var_name)) st
              end
          end
      end
  end.

Definition cmd_dim (arg : string) (st : state) : outcome :=
  match Re.match_array_form (Str.upper (Str.strip arg)) with
  | Some (name, size_expr) =>
      match eval_expression size_expr st with
      | Err e => raise e st
      | Ok size =>
          ret (set_arrays (<[name := replicate (Z.to_nat (size + 1)) 0]> (arrays st)) st)
      end
  | None => raise (RuntimeError DimSyntax) st
  end.

Definition cmd_new (st : state) : outcome :=
  ret (set_arrays ∅ (set_variables fresh_variables (set_program ∅ st))).

(** [sorted(self.program.keys())] *)
Definition sorted_lines (p : gmap Z string) : list Z :=
  merge_sort Z.le (map fst (map_to_list p)).

(** The text of one stored line as LIST prints it and SAVE writes it. *)
Definition listing_line (p : gmap Z string) (line_num : Z) : string :=
  Str.of_Z line_num +:+ " " +:+ default "" (p !! line_num).

Definition cmd_list (st : state) : outcome :=
  ret (fold_left (fun s n => print (Line (listing_line (program st) n)) s)
                 (sorted_lines (program st)) st).

(** The texts SAVE writes, one [f.write] per stored line, each with its
    newline. *)
Definition serialize_program (p : gmap Z string) : list string :=
  map (fun n => listing_line p n +:+ String "010"%char EmptyString) (sorted_lines p).

(** When [open] fails nothing is written and the error is printed; the
    writes themselves are taken to succeed, and a newline is written as
    it is. *)
Definition cmd_save (filename : string) (st : state) : outcome :=
  if Str.is_empty filename then ret (print (Line "Usage: SAVE filename") st)
  else if decide (filename ∈ readonly st)
  then ret (print (ErrorSaving (OSError filename)) st)
  else
    ret (print (Line ("Saved to " +:+ filename))
               (set_files (<[filename := Str.written (serialize_program (program st))]>
                             (files st)) st)).

(** [lines.index(x)] *)
Fixpoint index_of (x : Z) (lines : list Z) : option nat :=
  match lines with
  | [] => None
  | y :: r => if x =? y then Some O else option_map S (index_of x r)
  end.

Definition not_found_in_program (target_line : Z) : out_line :=
  Line ("Line " +:+ Str.of_Z target_line +:+ " not found in program.").

(** [parts = stmt.strip().split(maxsplit=1)], then
    [command = parts[0].upper()] and [arg = parts[1]], or the empty text
    when there is no second part.  [None] when there is no first part. *)
Definition split_command (stmt : string) : option (string * string) :=
  match Str.split_maxsplit1 (Str.strip stmt) with
  | [] => None
  | [word] => Some (Str.upper word, EmptyString)
  | word :: arg :: _ => Some (Str.upper word, arg)
  end.

(** ** Dispatch and the program runner

    [execute_statement], [execute_program], [process_input] and [cmd_load]
    call each other.  The functions of this section take the statement
    dispatcher as [exec]; [execute_statement] below closes the knot. *)

Section Runner.
Variable exec : string -> state -> outcome.

(** The jump of GOTO and of a true IF: [lines.index(target_line)], then
    the loop continues at [k idx], or the miss is printed and the loop
    ends. *)
Definition jump (k : nat -> state -> outcome) (lines : list Z)
           (target_expr : string) (line_num : Z) (st : state) : outcome :=
  match eval_expression target_expr st with
  | Err e => ret (print (ErrorOnLine line_num e) st)
  | Ok target_line =>
      match index_of target_line lines with
      | Some idx => k idx st
      | None => ret (print (not_found_in_program target_line) st)
      end
  end.

(** The [while] loop of [execute_program]; [iters] bounds the number of
    iterations. *)
Fixpoint run_loop (iters : nat) (lines : list Z) (pc_idx : nat) (st : state)
  : outcome :=
  match iters with
  | O => (OutOfFuel, st)
  | S m =>
      match lines !! pc_idx with
      | None => ret st
      | Some line_num =>
          match program st !! line_num with
          | None => raise (KeyError line_num) st
          | Some stmt =>
              match split_command stmt with
              | None => raise IndexError st
              | Some (command, arg) =>
                  if String.eqb command "GOTO" then
                    jump (run_loop m lines) lines arg line_num st
                  else if String.eqb command "IF" then
                    match Re.match_if arg with
                    | Some (condition_str, target_str) =>
                        match eval_condition condition_str st with
                        | Err e => ret (print (ErrorOnLine line_num e) st)
                        | Ok true => jump (run_loop m lines) lines target_str line_num st
                        | Ok false => run_loop m lines (S pc_idx) st
                        end
                    | None =>
                        ret (print (Line ("Syntax error in IF on line "
                                          +:+ Str.of_Z line_num)) st)
                    end
                  else if String.eqb command "END" then ret st
                  else
                    match exec stmt st with
                    | (Done, st') => run_loop m lines (S pc_idx) st'
                    | (Raised e, st') => ret (print (ErrorOnLine line_num e) st')
                    | (OutOfFuel, st') => (OutOfFuel, st')
                    end
              end
          end
      end
  end.

Definition execute_program_with (iters : nat) (start_line : option Z) (st : state)
  : outcome :=
  if decide (program st = ∅) then ret st
  else
    let lines := sorted_lines (program st) in
    match start_line with
    | None => run_loop iters lines 0 st
    | Some n =>
        match index_of n lines with
        | Some pc_idx => run_loop iters lines pc_idx st
        | None => ret (print (Line ("Line " +:+ Str.of_Z n +:+ " not found.")) st)
        end
    end.

Definition process_input_with (line : string) (st : state) : outcome :=
  let line := Str.strip line in
  if Str.is_empty line then ret st
  else
    match Re.match_numbered line with
    | Some (digits, rest) =>
        let line_num := Str.int_of_digits digits in
        let code := Str.strip rest in
        if negb (Str.is_empty code)
        then ret (set_program (<[line_num := code]> (program st)) st)
        else ret (set_program (delete line_num (program st)) st)
    | None => exec line st
    end.

(** The body of the [for line in f] loop of [cmd_load]. *)
Fixpoint load_lines (lines : list string) (st : state) : outcome :=
  match lines with
  | [] => ret st
  | line :: rest =>
      match process_input_with line st with
      | (Done, st') => load_lines rest st'
      | other => other
      end
  end.

(** A file that cannot be opened is a file that is not there.  The lines
    are those of the text the file holds when it is opened: a SAVE to the
    same name while it is being loaded does not change them. *)
Definition cmd_load_with (filename : string) (st : state) : outcome :=
  if Str.is_empty filename then ret (print (Line "Usage: LOAD filename") st)
  else
    match files st !! filename with
    | None => ret (print (ErrorLoading (FileNotFoundError filename)) st)
    | Some text =>
        match load_lines (Str.universal_lines text) (set_program ∅ st) with
        | (Done, st') => ret (print (Line ("Loaded " +:+ filename)) st')
        | (Raised e, st') => ret (print (ErrorLoading e) st')
        | (OutOfFuel, st') => (OutOfFuel, st')
        end
    end.
End Runner.

Definition dispatch (exec : string -> state -> outcome) (iters : nat)
           (stmt : string) (st : state) : outcome :=
  match split_command stmt with
  | None => ret st
  | Some (command, arg) =>
      if String.eqb command "PRINT" then cmd_print arg st
      else if String.eqb command "LET" then cmd_let arg st
      else if String.eqb command "GOTO" then raise (RuntimeError GotoOutsideProgram) st
      else if String.eqb command "IF" then raise (RuntimeError IfOutsideProgram) st
      else if String.eqb command "DIM" then cmd_dim arg st
      else if String.eqb command "END" then ret st
      else if String.eqb command "RUN" then execute_program_with exec iters None st
      else if String.eqb command "LIST" then cmd_list st
      else if String.eqb command "NEW" then cmd_new st
      else if String.eqb command "LOAD" then cmd_load_with exec arg st
      else if String.eqb command "SAVE" then cmd_save arg st
      else if String.eqb command "QUIT" then ret (set_running false st)
      else ret (print (Line ("Unknown command: " +:+ command)) st)
  end.

(** [fuel] bounds the depth of the calls through RUN and LOAD and, in each
    run, the number of loop iterations.  The host's own recursion limit is
    not modelled: a program that calls RUN without end runs out of fuel. *)
Fixpoint execute_statement (fuel : nat) (stmt : string) (st : state) : outcome :=
  match fuel with
  | O => (OutOfFuel, st)
  | S f => dispatch (execute_statement f) f stmt st
  end.

Definition execute_program (fuel : nat) (start_line : option Z) (st : state) : outcome :=
  execute_program_with (execute_statement fuel) fuel start_line st.

Definition cmd_run (fuel : nat) (st : state) : outcome :=
  execute_program fuel None st.

Definition process_input (fuel : nat) (line : string) (st : state) : outcome :=
  process_input_with (execute_statement fuel) line st.

Definition cmd_load (fuel : nat) (filename : string) (st : state) : outcome :=
  cmd_load_with (execute_statement fuel) filename st.

(** [load_program]: what LOAD does with the lines of a file. *)
Definition load_program (fuel : nat) (lines : list string) (st : state) : outcome :=
  load_lines (execute_statement fuel) lines (set_program ∅ st).

(** One turn of [run_interactive] on an input line: an exception that
    leaves [process_input] is printed. *)
Definition interactive_line (fuel : nat) (line : string) (st : state) : outcome :=
  match process_input fuel line st with
  | (Raised e, st') => ret (print (ErrorTop e) st')
  | other => other
  end.

(** Feeding a list of input lines to the interpreter. *)
Fixpoint session (fuel : nat) (lines : list string) (st : state) : outcome :=
  match lines with
  | [] => ret st
  | line :: rest =>
      if running st then
        match interactive_line fuel line st with
        | (Done, st') => session fuel rest st'
        | other => other
        end
      else ret st
  end.

(** ** Vocabulary of the properties *)

(** The command word of a statement, as the dispatcher reads it. *)
Definition command_of (stmt : string) : string :=
  match split_command stmt with
  | Some (command, _) => command
  | None => EmptyString
  end.

(** The interpreter after the given lines were typed into a fresh one. *)
Definition typed (lines : list string) : state := snd (session 9 lines (init ∅)).

(** The control-flow example of the specification. *)
Definition control_flow_example : list string :=
  ["10 LET A = 1"; "20 IF A = 1 THEN 40"; "30 LET A = 99"; "40 PRINT A"].

(** The same program with a GOTO on line 20. *)
Definition goto_example : list string :=
  ["10 LET A = 1"; "20 GOTO 40"; "30 LET A = 99"; "40 PRINT A"].

(** The same program with a condition that is false on line 20. *)
Definition false_condition_example : list string :=
  ["10 LET A = 2"; "20 IF A = 1 THEN 40"; "30 LET A = 99"; "40 PRINT A"].

(** What [process_input] stores: a stripped, non-empty text without a
    newline. *)
Definition stored_code (code : string) : Prop :=
  Str.head_nonspace code = true
  /\ Str.rstrip code = code
  /\ Re.all_chars Str.not_newline code = true.

(** Every line number is a natural number and every statement is a
    [stored_code]. *)
Definition wf_program (p : gmap Z string) : Prop :=
  forall n code, p !! n = Some code -> 0 <= n /\ stored_code code.

(** Storing line [n] of [p] again, as loading its listing does. *)
Definition reinsert (p acc : gmap Z string) (n : Z) : gmap Z string :=
  <[n := default "" (p !! n)]> acc.

(** A statement that is neither a NEW nor a LOAD. *)
Definition leaves_store (stmt : string) : bool :=
  negb (String.eqb (command_of stmt) "NEW")
  && negb (String.eqb (command_of stmt) "LOAD").

(** No stored statement is a NEW or a LOAD. *)
Definition store_safe (p : gmap Z string) : Prop :=
  forall n code, p !! n = Some code -> leaves_store code = true.

(** No stored statement holds a carriage return. *)
Definition no_returns (p : gmap Z string) : Prop :=
  forall n code, p !! n = Some code -> Re.all_chars Str.not_return code = true.

(** The letter that LET with the argument [arg] assigns to, when the
    argument has the shape of an assignment: the letter of the array form,
    or the single letter. *)
Definition let_target (arg : string) : option ascii :=
  match Str.split_first "=" arg with
  | None => None
  | Some (var_part, _) =>
      let var_name := Str.upper (Str.strip var_part) in
      match Re.match_array_form var_name with
      | Some (name, _) => Some name
      | None => Re.match_letter var_name
      end
  end.

(** The letter that DIM with the argument [arg] declares. *)
Definition dim_target (arg : string) : option ascii :=
  match Re.match_array_form (Str.upper (Str.strip arg)) with
  | Some (name, _) => Some name
  | None => None
  end.

(** A statement that is not a NEW, a LET on the letter [L] or a DIM of
    the letter [L].  LET and DIM on other letters, RUN and LOAD are such
    statements. *)
Definition spares (L : ascii) (stmt : string) : bool :=
  match split_command stmt with
  | None => true
  | Some (command, arg) =>
      if String.eqb command "NEW" then false
      else if String.eqb command "LET"
           then match let_target arg with
                | Some c => negb (Ascii.eqb c L)
                | None => true
                end
           else if String.eqb command "DIM"
                then match dim_target arg with
                     | Some c => negb (Ascii.eqb c L)
                     | None => true
                     end
                else true
  end.

(** A line of input that neither is nor stores a statement on [L]. *)
Definition spares_line (L : ascii) (line : string) : bool :=
  match Re.match_numbered (Str.strip line) with
  | Some (_, rest) => spares L (Str.strip rest)
  | None => spares L (Str.strip line)
  end.

(** No statement on [L] can be reached: none in the program store, none
    in a line of a file that LOAD can read.  The store is well formed and
    without carriage returns. *)
Definition sparing (L : ascii) (st : state) : Prop :=
  wf_program (program st)
  /\ no_returns (program st)
  /\ (forall n code, program st !! n = Some code -> spares L code = true)
  /\ (forall f text, files st !! f = Some text ->
         Forall (fun l => spares_line L l = true) (Str.universal_lines text)).

(** [st'] has the scalar and the array of [st] on the letter [L]. *)
Definition unchanged (L : ascii) (st st' : state) : Prop :=
  variables st' !! L = variables st !! L /\ arrays st' !! L = arrays st !! L.

(** A property of the two tables, of the state that holds them. *)
Definition env_holds (P : gmap ascii Z -> gmap ascii (list Z) -> Prop)
           (st : state) : Prop :=
  P (variables st) (arrays st).

(** The command words whose own code writes variables or arrays, or
    executes other statements. *)
Definition writes_or_executes (command : string) : bool :=
  existsb (String.eqb command) ["LET"; "DIM"; "NEW"; "RUN"; "LOAD"]%string.

(** A character that [strip], [upper] and the doubling of slashes leave
    alone. *)
Definition plain (c : ascii) : bool :=
  negb (Str.is_space c) && negb (Str.is_lower c) && negb (Ascii.eqb c "/"%char).

(** The tokens of the decimal numeral of [n]. *)
Definition literal_tokens (n : Z) : list PyExpr.token :=
  if n <? 0 then [PyExpr.TMinus; PyExpr.TNum (- n)] else [PyExpr.TNum n].

(** The expression the host reads in the numeral of [n]. *)
Definition literal (n : Z) : PyExpr.expr :=
  if n <? 0 then PyExpr.ENeg (PyExpr.ENum (- n)) else PyExpr.ENum n.

(** The text [a / b] of two integers. *)
Definition quotient_text (a b : Z) : string := Str.of_Z a +:+ " / " +:+ Str.of_Z b.

(** A state in which [L] is spared and has the scalar [v] and the array
    [a]. *)
Definition kept_letter (L : ascii) (v : option Z) (a : option (list Z))
           (st : state) : Prop :=
  sparing L st /\ variables st !! L = v /\ arrays st !! L = a.

(** The variable table binds the capital letters and nothing else, and
    only capital letters name arrays. *)
Definition env_wf (st : state) : Prop :=
  (forall c, is_Some (variables st !! c) <-> Str.is_upper c = true)
  /\ (forall c l, arrays st !! c = Some l -> Str.is_upper c = true).

(** The command words the dispatcher knows. *)
Definition known_command (command : string) : bool :=
  existsb (String.eqb command)
          ["PRINT"; "LET"; "GOTO"; "IF"; "DIM"; "END"; "RUN"; "LIST"; "NEW";
           "LOAD"; "SAVE"; "QUIT"]%string.

(** The text [L(i)] of an array cell. *)
Definition cell_text (L : ascii) (i : Z) : string :=
  String L ("(" +:+ Str.of_Z i +:+ ")").

(** A character other than the equals sign and the angle brackets. *)
Definition no_relation (c : ascii) : bool :=
  negb (Ascii.eqb c "="%char) && negb (Ascii.eqb c "<"%char)
  && negb (Ascii.eqb c ">"%char).

(** The text of a comparison of two integers. *)
Definition relation_text (a : Z) (op : string) (b : Z) : string :=
  Str.of_Z a +:+ " " +:+ op +:+ " " +:+ Str.of_Z b.

(** A character that [upper] and the doubling of slashes leave alone. *)
Definition steady (c : ascii) : bool :=
  negb (Str.is_lower c) && negb (Ascii.eqb c "/"%char).

(** The texts [a + b * c], [a - b - c], [(a + b) * c] and [a % b] of
    integers. *)
Definition sum_product_text (a b c : Z) : string :=
  Str.of_Z a +:+ " + " +:+ Str.of_Z b +:+ " * " +:+ Str.of_Z c.

Definition difference_text (a b c : Z) : string :=
  Str.of_Z a +:+ " - " +:+ Str.of_Z b +:+ " - " +:+ Str.of_Z c.

Definition grouped_text (a b c : Z) : string :=
  "(" +:+ Str.of_Z a +:+ " + " +:+ Str.of_Z b +:+ ") * " +:+ Str.of_Z c.

Definition remainder_text (a b : Z) : string :=
  Str.of_Z a +:+ " % " +:+ Str.of_Z b.

(** A statement that is not a GOTO, an IF, a RUN, a NEW or a LOAD. *)
Definition straight (stmt : string) : bool :=
  negb (String.eqb (command_of stmt) "GOTO")
  && negb (String.eqb (command_of stmt) "IF")
  && negb (String.eqb (command_of stmt) "RUN")
  && negb (String.eqb (command_of stmt) "NEW")
  && negb (String.eqb (command_of stmt) "LOAD").

(** No stored statement jumps, runs, or replaces the program. *)
Definition straight_program (p : gmap Z string) : Prop :=
  forall n code, p !! n = Some code -> straight code = true.

(** The statement [IF a op b THEN n] on integers. *)
Definition if_text (a : Z) (op : string) (b n : Z) : string :=
  "IF " +:+ relation_text a op b +:+ " THEN " +:+ Str.of_Z n.

(** No suffix of [a] that is followed by [s] starts with white space,
    THEN, white space and a target, and [a] has no newline. *)
Fixpoint quiet_then (a s : string) : Prop :=
  match a with
  | EmptyString => True
  | String c r =>
      Re.match_then (String c (r +:+ s)) = None /\ Str.is_newline c = false
      /\ quiet_then r s
  end.

(** * Properties *)

(** ** Stored lines and their order *)

Lemma elem_of_sorted_lines (p : gmap Z string) (n : Z) :
  n ∈ sorted_lines p <-> is_Some (p !! n).
Proof.
  unfold sorted_lines. rewrite merge_sort_Permutation.
  rewrite list_elem_of_fmap. split.
  - intros [[k v] [-> Hin]]. apply elem_of_map_to_list in Hin. simpl. eauto.
  - intros [v Hv]. exists (n, v). split; [done|]. by apply elem_of_map_to_list.
Qed.

Lemma index_of_Some (x : Z) (lines : list Z) (i : nat) :
  index_of x lines = Some i -> lines !! i = Some x.
Proof.
  revert i. induction lines as [|y r IH]; intros i; simpl; [done|].
  destruct (Z.eqb_spec x y) as [->|Hne].
  - intros [= <-]. done.
  - destruct (index_of x r) as [j|]; [|done]. intros [= <-]. simpl. by apply IH.
Qed.

Lemma index_of_None (x : Z) (lines : list Z) :
  index_of x lines = None <-> x ∉ lines.
Proof.
  induction lines as [|y r IH]; simpl.
  - split; [intros _; apply not_elem_of_nil | done].
  - destruct (Z.eqb_spec x y) as [->|Hne].
    + split; [done|]. intros H. exfalso. apply H. left.
    + rewrite not_elem_of_cons. destruct (index_of x r); simpl.
      * split; [done|]. intros [_ H]. by apply IH in H.
      * split; [|done]. intros _. split; [done|]. by apply IH.
Qed.

Lemma index_of_stored (p : gmap Z string) (n : Z) (code : string) :
  p !! n = Some code ->
  exists pc_idx, index_of n (sorted_lines p) = Some pc_idx
                 /\ sorted_lines p !! pc_idx = Some n.
Proof.
  intros Hn. destruct (index_of n (sorted_lines p)) as [i|] eqn:Hi.
  - exists i. split; [done|]. by apply index_of_Some.
  - apply index_of_None in Hi. exfalso. apply Hi.
    apply elem_of_sorted_lines. eauto.
Qed.

Lemma index_of_not_stored (p : gmap Z string) (n : Z) :
  p !! n = None -> index_of n (sorted_lines p) = None.
Proof.
  intros Hn. apply index_of_None. rewrite elem_of_sorted_lines, Hn.
  by intros [? ?].
Qed.

(** ** Case analysis on the capital letters *)

Lemma upper_cases (P : ascii -> Prop) :
  P "A"%char -> P "B"%char -> P "C"%char -> P "D"%char -> P "E"%char ->
  P "F"%char -> P "G"%char -> P "H"%char -> P "I"%char -> P "J"%char ->
  P "K"%char -> P "L"%char -> P "M"%char -> P "N"%char -> P "O"%char ->
  P "P"%char -> P "Q"%char -> P "R"%char -> P "S"%char -> P "T"%char ->
  P "U"%char -> P "V"%char -> P "W"%char -> P "X"%char -> P "Y"%char ->
  P "Z"%char -> forall c, Str.is_upper c = true -> P c.
Proof.
  intros. destruct c as [[] [] [] [] [] [] [] []]; try discriminate; assumption.
Qed.

Ltac by_letter L H := pattern L; revert L H; apply upper_cases; reflexivity.

(** ** Scalars and arrays on one letter *)

Lemma eval_expression_letter (st : state) (L : ascii) :
  Str.is_upper L = true ->
  eval_expression (String L "") st =
  match local_var st (String L "") with
  | Ok (VInt z) => Ok z
  | Ok (VFun _) | Ok VTuple =>
      Err (RuntimeError (ExpressionError (String L "") TypeError))
  | Err e => Err (RuntimeError (ExpressionError (String L "") e))
  end.
Proof.
  intros Hup.
  transitivity
    (match (do v <- local_var st (String L ""); as_int v) with
     | Ok z => Ok z
     | Err e => Err (RuntimeError (ExpressionError (String L "") e))
     end : result exn Z).
  - by_letter L Hup.
  - destruct (local_var st (String L "")) as [[z|n|]|e]; reflexivity.
Qed.

(** Reading a bare letter that is bound as an array fails: the host
    refuses to turn the accessor function into an integer. *)
Lemma read_bare_array_letter (st : state) (L : ascii) (l : list Z) :
  Str.is_upper L = true ->
  arrays st !! L = Some l ->
  eval_expression (String L "") st =
  Err (RuntimeError (ExpressionError (String L "") TypeError)).
Proof.
  intros Hup Harr. rewrite eval_expression_letter by done.
  unfold local_var. by rewrite Hup, Harr.
Qed.

(** Reading a bare letter that is not bound as an array gives its scalar
    value. *)
Lemma read_scalar_letter (st : state) (L : ascii) :
  Str.is_upper L = true ->
  arrays st !! L = None ->
  eval_expression (String L "") st = Ok (default 0 (variables st !! L)).
Proof.
  intros Hup Harr. rewrite eval_expression_letter by done.
  unfold local_var. by rewrite Hup, Harr.
Qed.

(** C1, what the code does: when the letter [L] is bound as an array,
    reading bare [L] fails with the host's type error, but [LET L = 5] does
    not fail: it returns normally, stores 5 in the scalar table under [L]
    and leaves the array in place, so that [L] is bound in both tables. *)
Theorem let_scalar_on_array_letter (L : ascii) (st : state) (l : list Z) (fuel : nat) :
  Str.is_upper L = true ->
  arrays st !! L = Some l ->
  eval_expression (String L "") st
    = Err (RuntimeError (ExpressionError (String L "") TypeError))
  /\ execute_statement (S fuel) ("LET " +:+ String L " = 5") st
     = (Done, set_variables (<[L := 5]> (variables st)) st)
  /\ arrays (snd (execute_statement (S fuel) ("LET " +:+ String L " = 5") st)) !! L
     = Some l
  /\ variables (snd (execute_statement (S fuel) ("LET " +:+ String L " = 5") st)) !! L
     = Some 5.
Proof.
  intros Hup Harr.
  assert (execute_statement (S fuel) ("LET " +:+ String L " = 5") st
          = (Done, set_variables (<[L := 5]> (variables st)) st)) as Hlet.
  { clear Harr. by_letter L Hup. }
  split; [by eapply read_bare_array_letter|].
  split; [done|]. rewrite Hlet. simpl. split; [done|].
  apply lookup_insert_eq.
Qed.

Lemma let_scalar_on_array_letter_witness :
  let st := typed ["DIM A(3)"] in
  Str.is_upper "A" = true /\ arrays st !! "A"%char = Some [0; 0; 0; 0]
  /\ execute_statement 1 "LET A = 5" st
     = (Done, set_variables (<["A"%char := 5]> (variables st)) st).
Proof.
  intros st.
  split; [reflexivity|]. split; [reflexivity|].
  exact (proj1 (proj2 (let_scalar_on_array_letter "A" st [0; 0; 0; 0] 0
                         eq_refl eq_refl))).
Defined.

(** ** Array reads *)

Lemma py_index_in_range (l : list Z) (i : Z) :
  0 <= i < Z.of_nat (length l) -> py_index l i = l !! Z.to_nat i.
Proof.
  intros [H0 H1]. unfold py_index.
  destruct (Z.leb_spec 0 i); [|lia]. destruct (Z.ltb_spec i (Z.of_nat (length l))); [|lia].
  reflexivity.
Qed.

Lemma py_index_negative (l : list Z) (i : Z) :
  - Z.of_nat (length l) <= i < 0 ->
  py_index l i = l !! Z.to_nat (Z.of_nat (length l) + i).
Proof.
  intros [H0 H1]. unfold py_index.
  destruct (Z.leb_spec 0 i); [lia|]. simpl.
  destruct (Z.leb_spec (- Z.of_nat (length l)) i); [|lia].
  destruct (Z.ltb_spec i 0); [|lia]. reflexivity.
Qed.

Lemma py_index_outside (l : list Z) (i : Z) :
  i < - Z.of_nat (length l) \/ Z.of_nat (length l) <= i -> py_index l i = None.
Proof.
  intros H. unfold py_index.
  destruct (Z.leb_spec 0 i); destruct (Z.ltb_spec i (Z.of_nat (length l)));
    destruct (Z.leb_spec (- Z.of_nat (length l)) i); destruct (Z.ltb_spec i 0);
    simpl; try reflexivity; lia.
Qed.

(** A negative index that is not below minus the length reads from the end
    of the array instead of failing. *)
Lemma array_read_negative (st : state) (n : ascii) (l : list Z) (i : Z) :
  arrays st !! n = Some l ->
  - Z.of_nat (length l) <= i < 0 ->
  exists v, array_accessor st n (VInt i) = Ok (VInt v)
            /\ l !! Z.to_nat (Z.of_nat (length l) + i) = Some v.
Proof.
  intros Harr Hi. unfold array_accessor. rewrite Harr.
  rewrite py_index_negative by done.
  destruct (lookup_lt_is_Some_2 l (Z.to_nat (Z.of_nat (length l) + i))) as [v Hv];
    [lia|].
  exists v. by rewrite Hv.
Qed.

(** C3, what the code does at the failing input: after [DIM B(2)] and
    [LET B(2) = 9], [PRINT B(-1)] does not fail: it prints 9, the last
    element; [B(-3)] reads element 0, and only [B(-4)] and [B(3)] fail. *)
Theorem negative_index_reads_from_end (fuel : nat) :
  let st := typed ["DIM B(2)"; "LET B(2) = 9"] in
  arrays st !! "B"%char = Some [0; 0; 9]
  /\ execute_statement (S fuel) "PRINT B(-1)" st = (Done, print (Line "9") st)
  /\ execute_statement (S fuel) "PRINT B(-3)" st = (Done, print (Line "0") st)
  /\ execute_statement (S fuel) "PRINT B(2)" st = (Done, print (Line "9") st)
  /\ execute_statement (S fuel) "PRINT B(-4)" st
     = (Raised (RuntimeError (ExpressionError "B(-4)" (IndexOutOfBoundsFor "B"))), st)
  /\ execute_statement (S fuel) "PRINT B(3)" st
     = (Raised (RuntimeError (ExpressionError "B(3)" (IndexOutOfBoundsFor "B"))), st).
Proof. vm_compute. repeat split. Qed.

(** ** Division *)

Lemma floor_div_bounds (a b : Z) :
  b <> 0 ->
  (0 < b -> b * (a / b) <= a < b * (a / b) + b)
  /\ (b < 0 -> b * (a / b) + b < a <= b * (a / b)).
Proof.
  intros Hb. split; intros Hs.
  - pose proof (Z.div_mod a b Hb). pose proof (Z.mod_pos_bound a b Hs). lia.
  - pose proof (Z.div_mod a b Hb). pose proof (Z.mod_neg_bound a b Hs). lia.
Qed.

(** The quotient of two operands that evaluate to [a] and [b], [b] not
    zero, is the floor of a/b, whatever the operand expressions are. *)
Lemma quotient_of_operands (st : state) (l r : PyExpr.expr) (a b : Z) :
  b <> 0 ->
  eval_ast st l = Ok (VInt a) ->
  eval_ast st r = Ok (VInt b) ->
  eval_ast st (PyExpr.EBin PyExpr.FloorDiv l r) = Ok (VInt (a / b)).
Proof.
  intros Hb Hl Hr. simpl. rewrite Hl, Hr. simpl.
  by destruct (Z.eqb_spec b 0).
Qed.

(** ** Empty expressions *)

(** C9: the empty expression evaluates to 0 in every state, so [PRINT]
    with no argument prints 0 and [LET A =] with nothing after the equals
    sign stores 0 in A. *)
Theorem empty_expression_is_zero (st : state) (fuel : nat) :
  eval_expression "" st = Ok 0
  /\ eval_expression "   " st = Ok 0
  /\ execute_statement (S fuel) "PRINT" st = (Done, print (Line "0") st)
  /\ execute_statement (S fuel) "LET A =" st
     = (Done, set_variables (<["A"%char := 0]> (variables st)) st)
  /\ variables (snd (execute_statement (S fuel) "LET A =" st)) !! "A"%char = Some 0.
Proof.
  repeat split. apply lookup_insert_eq.
Qed.

(** ** The control-flow example *)

(** C6: run from line 10, the example prints exactly 1 and leaves A at 1:
    line 30 is skipped, as with a GOTO 40 on line 20 (same output, same
    variables); with a false condition line 30 runs and 99 is printed. *)
Theorem if_then_example (fuel : nat) :
  let r := execute_program (5 + fuel) (Some 10) (typed control_flow_example) in
  let g := execute_program (5 + fuel) (Some 10) (typed goto_example) in
  let f := execute_program (5 + fuel) (Some 10) (typed false_condition_example) in
  fst r = Done /\ output (snd r) = [Line "1"]
  /\ variables (snd r) !! "A"%char = Some 1
  /\ fst g = Done /\ output (snd g) = output (snd r)
  /\ variables (snd g) = variables (snd r)
  /\ fst f = Done /\ output (snd f) = [Line "99"].
Proof. vm_compute. repeat split. Qed.

(** ** Starting a run *)

Lemma run_empty_program (fuel : nat) (start_line : option Z) (st : state) :
  program st = ∅ -> execute_program fuel start_line st = (Done, st).
Proof.
  intros Hp. unfold execute_program, execute_program_with.
  destruct (decide (program st = ∅)); done.
Qed.

(** The RUN statement never passes a start line, whatever follows it. *)
Lemma run_statement_ignores_argument (fuel : nat) (st : state) :
  execute_statement (S fuel) "RUN" st = execute_program fuel None st
  /\ execute_statement (S fuel) "RUN 40" st = execute_program fuel None st.
Proof. split; reflexivity. Qed.

(** C2 as stated fails on the empty program store: a start line that is
    not stored is not reported, the run returns without printing. *)
Lemma run_missing_line_empty_program :
  program (init ∅) !! 10 = None
  /\ execute_program 5 (Some 10) (init ∅) = (Done, init ∅)
  /\ output (snd (execute_program 5 (Some 10) (init ∅))) = [].
Proof. repeat split. Qed.

(** C2, amended: on a program store that is not empty, a run without a
    start line starts the loop at index 0, a run from a stored line [s]
    starts it at the index of [s] in the ascending line numbers, and a run
    from a line that is not stored prints "Line s not found." and ends with
    nothing else changed, no statement being executed. *)
Theorem run_start_line (fuel : nat) (st : state) (s : Z) :
  program st <> ∅ ->
  execute_program fuel None st
    = run_loop (execute_statement fuel) fuel (sorted_lines (program st)) 0 st
  /\ (forall code, program st !! s = Some code ->
        exists pc_idx,
          sorted_lines (program st) !! pc_idx = Some s
          /\ execute_program fuel (Some s) st
             = run_loop (execute_statement fuel) fuel
                        (sorted_lines (program st)) pc_idx st)
  /\ (program st !! s = None ->
        execute_program fuel (Some s) st
        = (Done, print (Line ("Line " +:+ Str.of_Z s +:+ " not found.")) st)).
Proof.
  intros Hne. unfold execute_program, execute_program_with.
  destruct (decide (program st = ∅)) as [|_]; [done|].
  split; [done|]. split.
  - intros code Hs. destruct (index_of_stored _ _ _ Hs) as (i & Hi & Hl).
    exists i. by rewrite Hi.
  - intros Hs. by rewrite (index_of_not_stored _ _ Hs).
Qed.

Lemma run_start_line_witness :
  let st := typed ["10 PRINT 1"; "20 PRINT 2"] in
  program st <> ∅
  /\ output (snd (execute_program 5 (Some 30) st)) = [Line "Line 30 not found."]
  /\ output (snd (execute_program 5 (Some 20) st)) = [Line "2"].
Proof.
  intros st.
  assert (program st <> ∅) as Hne.
  { intros H. apply (f_equal (fun p => p !! 10)) in H. discriminate H. }
  split; [exact Hne|].
  destruct (run_start_line 5 st 30 Hne) as (_ & _ & Hmiss).
  split.
  - rewrite Hmiss; reflexivity.
  - reflexivity.
Defined.

(** ** Jumps *)

Lemma run_loop_step (exec : string -> state -> outcome) (m : nat) (lines : list Z)
      (pc_idx : nat) (st : state) (line_num : Z) (stmt command arg : string) :
  lines !! pc_idx = Some line_num ->
  program st !! line_num = Some stmt ->
  split_command stmt = Some (command, arg) ->
  run_loop exec (S m) lines pc_idx st =
  if String.eqb command "GOTO" then
    jump (run_loop exec m lines) lines arg line_num st
  else if String.eqb command "IF" then
    match Re.match_if arg with
    | Some (condition_str, target_str) =>
        match eval_condition condition_str st with
        | Err e => ret (print (ErrorOnLine line_num e) st)
        | Ok true => jump (run_loop exec m lines) lines target_str line_num st
        | Ok false => run_loop exec m lines (S pc_idx) st
        end
    | None => ret (print (Line ("Syntax error in IF on line " +:+ Str.of_Z line_num)) st)
    end
  else if String.eqb command "END" then ret st
  else
    match exec stmt st with
    | (Done, st') => run_loop exec m lines (S pc_idx) st'
    | (Raised e, st') => ret (print (ErrorOnLine line_num e) st')
    | (OutOfFuel, st') => (OutOfFuel, st')
    end.
Proof. intros Hl Hp Hc. simpl. by rewrite Hl, Hp, Hc. Qed.

(** A true IF does what a GOTO to the same target does. *)
Lemma if_true_is_goto (exec : string -> state -> outcome) (m : nat) (lines : list Z)
      (pc_idx : nat) (st : state) (line_num : Z) (stmt arg cond target : string) :
  lines !! pc_idx = Some line_num ->
  program st !! line_num = Some stmt ->
  split_command stmt = Some ("IF", arg) ->
  Re.match_if arg = Some (cond, target) ->
  eval_condition cond st = Ok true ->
  run_loop exec (S m) lines pc_idx st
  = jump (run_loop exec m lines) lines target line_num st.
Proof.
  intros Hl Hp Hc Hm He. rewrite (run_loop_step _ _ _ _ _ _ _ _ _ Hl Hp Hc).
  simpl. by rewrite Hm, He.
Qed.

(** A false IF goes on with the next line. *)
Lemma if_false_is_next (exec : string -> state -> outcome) (m : nat) (lines : list Z)
      (pc_idx : nat) (st : state) (line_num : Z) (stmt arg cond target : string) :
  lines !! pc_idx = Some line_num ->
  program st !! line_num = Some stmt ->
  split_command stmt = Some ("IF", arg) ->
  Re.match_if arg = Some (cond, target) ->
  eval_condition cond st = Ok false ->
  run_loop exec (S m) lines pc_idx st = run_loop exec m lines (S pc_idx) st.
Proof.
  intros Hl Hp Hc Hm He. rewrite (run_loop_step _ _ _ _ _ _ _ _ _ Hl Hp Hc).
  simpl. by rewrite Hm, He.
Qed.

Lemma goto_is_jump (exec : string -> state -> outcome) (m : nat) (lines : list Z)
      (pc_idx : nat) (st : state) (line_num : Z) (stmt arg : string) :
  lines !! pc_idx = Some line_num ->
  program st !! line_num = Some stmt ->
  split_command stmt = Some ("GOTO", arg) ->
  run_loop exec (S m) lines pc_idx st
  = jump (run_loop exec m lines) lines arg line_num st.
Proof.
  intros Hl Hp Hc. by rewrite (run_loop_step _ _ _ _ _ _ _ _ _ Hl Hp Hc).
Qed.

(** C4 as stated fails: the report of a GOTO to a missing line is built
    from the target, 50, and does not name the executing line, 10. *)
Lemma goto_report_omits_current_line :
  let st := typed ["10 GOTO 50"] in
  execute_program 2 None st = (Done, print (Line "Line 50 not found in program.") st)
  /\ Str.contains (Str.of_Z 10) "Line 50 not found in program." = false.
Proof. split; reflexivity. Qed.

(** C4, amended: in a run, a GOTO whose argument evaluates to a line number
    that is not stored ends the run at once (nothing else is executed or
    changed) and prints "Line T not found in program.", where T is the
    target. *)
Theorem goto_missing_line (fuel m : nat) (st : state) (pc_idx : nat)
        (line_num target : Z) (stmt arg : string) :
  sorted_lines (program st) !! pc_idx = Some line_num ->
  program st !! line_num = Some stmt ->
  split_command stmt = Some ("GOTO", arg) ->
  eval_expression arg st = Ok target ->
  program st !! target = None ->
  run_loop (execute_statement fuel) (S m) (sorted_lines (program st)) pc_idx st
  = (Done, print (Line ("Line " +:+ Str.of_Z target +:+ " not found in program.")) st).
Proof.
  intros Hl Hp Hc He Ht.
  rewrite (goto_is_jump _ _ _ _ _ _ _ _ Hl Hp Hc).
  unfold jump. rewrite He. by rewrite (index_of_not_stored _ _ Ht).
Qed.

Lemma goto_missing_line_witness :
  let st := typed ["10 PRINT 1"; "20 GOTO 2 * 25"; "30 PRINT 3"] in
  run_loop (execute_statement 1) 1 (sorted_lines (program st)) 1 st
  = (Done, print (Line "Line 50 not found in program.") st).
Proof.
  intros st.
  exact (goto_missing_line 1 0 st 1 20 50 "GOTO 2 * 25" "2 * 25"
           eq_refl eq_refl eq_refl eq_refl eq_refl).
Defined.

(** ** Facts about the string functions *)

Module StrFacts.
Import Str.

Lemma append_nil_l (s : string) : "" +:+ s = s.
Proof. reflexivity. Qed.

Lemma append_cons (c : ascii) (a b : string) :
  String c a +:+ b = String c (a +:+ b).
Proof. reflexivity. Qed.

Lemma append_nil_r (s : string) : s +:+ "" = s.
Proof. induction s as [|c s IH]; [done|]. by rewrite append_cons, IH. Qed.

Lemma append_assoc (a b c : string) : (a +:+ b) +:+ c = a +:+ (b +:+ c).
Proof. induction a as [|x a IH]; [done|]. by rewrite !append_cons, IH. Qed.

Lemma append_eq_nil (a b : string) : a +:+ b = "" -> a = "" /\ b = "".
Proof. destruct a; [done|]. rewrite append_cons. discriminate. Qed.

Lemma lstrip_head_nonspace (s : string) : head_nonspace s = true -> lstrip s = s.
Proof. destruct s as [|c r]; [done|]. simpl. by destruct (is_space c). Qed.

Lemma lstrip_cases (s : string) : lstrip s = "" \/ head_nonspace (lstrip s) = true.
Proof.
  induction s as [|c r IH]; [by left|]. simpl.
  destruct (is_space c) eqn:Hc; [done|]. right. simpl. by rewrite Hc.
Qed.

Lemma rstrip_head_nonspace (s : string) :
  head_nonspace s = true -> head_nonspace (rstrip s) = true.
Proof.
  destruct s as [|c r]; [done|]. simpl.
  destruct (is_space c) eqn:Hc; [done|]. intros _.
  destruct (rstrip r); simpl; by rewrite Hc.
Qed.

Lemma rstrip_idem (s : string) : rstrip (rstrip s) = rstrip s.
Proof.
  induction s as [|c r IH]; [done|]. simpl.
  destruct (rstrip r) as [|d r'] eqn:Hr.
  - destruct (is_space c) eqn:Hc; [done|]. simpl. by rewrite Hc.
  - simpl in *. by rewrite IH.
Qed.

Lemma rstrip_app_nonempty (a b : string) :
  rstrip b <> "" -> rstrip (a +:+ b) = a +:+ rstrip b.
Proof.
  intros Hb. induction a as [|c a IH]; [done|].
  rewrite !append_cons. simpl. rewrite IH.
  destruct (a +:+ rstrip b) eqn:Hab; [|done].
  apply append_eq_nil in Hab as [_ ?]. done.
Qed.

Lemma rstrip_snoc_space (s : string) (c : ascii) :
  is_space c = true -> rstrip (s +:+ String c "") = rstrip s.
Proof.
  intros Hc. induction s as [|a s IH].
  - simpl. by rewrite Hc.
  - rewrite append_cons. simpl. by rewrite IH.
Qed.

Lemma rstrip_nonempty (s : string) : rstrip s = s -> s <> "" -> rstrip s <> "".
Proof. by intros ->. Qed.

Lemma strip_stripped (s : string) :
  head_nonspace s = true -> rstrip s = s -> strip s = s.
Proof. intros Hh Hr. unfold strip. by rewrite lstrip_head_nonspace. Qed.

Lemma is_empty_true (s : string) : is_empty s = true <-> s = "".
Proof. by destruct s. Qed.

Lemma is_empty_false (s : string) : is_empty s = false <-> s <> "".
Proof. by destruct s. Qed.

(** *** Characters of a text *)

Abbreviation all_chars := Re.all_chars.

Lemma all_chars_app (p : ascii -> bool) (a b : string) :
  all_chars p (a +:+ b) = all_chars p a && all_chars p b.
Proof.
  induction a as [|c a IH]; [done|]. rewrite append_cons. simpl.
  by rewrite IH, andb_assoc.
Qed.

Lemma all_chars_lstrip (p : ascii -> bool) (s : string) :
  all_chars p s = true -> all_chars p (lstrip s) = true.
Proof.
  induction s as [|c r IH]; [done|]. simpl.
  intros [Hc Hr]%andb_true_iff. destruct (is_space c); [by apply IH|].
  simpl. by rewrite Hc, Hr.
Qed.

Lemma all_chars_rstrip (p : ascii -> bool) (s : string) :
  all_chars p s = true -> all_chars p (rstrip s) = true.
Proof.
  induction s as [|c r IH]; [done|]. simpl.
  intros [Hc Hr]%andb_true_iff. specialize (IH Hr).
  destruct (rstrip r) as [|d r'].
  - destruct (is_space c); [done|]. simpl. by rewrite Hc.
  - simpl in *. by rewrite Hc, IH.
Qed.

Lemma all_chars_strip (p : ascii -> bool) (s : string) :
  all_chars p s = true -> all_chars p (strip s) = true.
Proof. intros H. by apply all_chars_rstrip, all_chars_lstrip. Qed.

Lemma all_chars_take_while (p : ascii -> bool) (s : string) :
  all_chars p (take_while p s) = true.
Proof.
  unfold take_while. induction s as [|c r IH]; [done|]. simpl.
  destruct (p c) eqn:Hc; [|done]. destruct (span p r) as [a b]. simpl in *.
  by rewrite Hc, IH.
Qed.

Lemma take_while_all (p : ascii -> bool) (s : string) :
  all_chars p s = true -> take_while p s = s.
Proof.
  unfold take_while. induction s as [|c r IH]; [done|]. simpl.
  intros [Hc Hr]%andb_true_iff. rewrite Hc. specialize (IH Hr).
  destruct (span p r) as [a b]. simpl in *. by rewrite IH.
Qed.

Lemma span_app (p : ascii -> bool) (a : string) (c : ascii) (b : string) :
  all_chars p a = true -> p c = false ->
  span p (a +:+ String c b) = (a, String c b).
Proof.
  intros Ha Hc. induction a as [|x a IH].
  - simpl. by rewrite Hc.
  - rewrite append_cons. simpl in *. apply andb_true_iff in Ha as [Hx Ha].
    by rewrite Hx, (IH Ha).
Qed.

(** *** Decimal numerals *)

Lemma digit_char_spec (d : Z) :
  0 <= d <= 9 ->
  is_digit (digit_char d) = true /\ digit_value (digit_char d) = d
  /\ is_space (digit_char d) = false.
Proof.
  intros Hd.
  assert (d = 0 \/ d = 1 \/ d = 2 \/ d = 3 \/ d = 4 \/ d = 5 \/ d = 6 \/ d = 7
          \/ d = 8 \/ d = 9) as Hcases by lia.
  repeat (destruct Hcases as [->|Hcases]; [by vm_compute|]). subst d. by vm_compute.
Qed.

Lemma fold_digits_snoc (acc : Z) (s : string) (c : ascii) :
  fold_left (fun a x => 10 * a + digit_value x)
            (list_ascii_of_string (s +:+ String c "")) acc
  = 10 * fold_left (fun a x => 10 * a + digit_value x) (list_ascii_of_string s) acc
    + digit_value c.
Proof.
  revert acc. induction s as [|x s IH]; intros acc; [done|].
  rewrite append_cons. simpl. apply IH.
Qed.

Lemma int_of_digits_snoc (s : string) (c : ascii) :
  int_of_digits (s +:+ String c "") = 10 * int_of_digits s + digit_value c.
Proof. apply fold_digits_snoc. Qed.

Lemma fold_digits_nonneg (s : string) (acc : Z) :
  all_chars is_digit s = true -> 0 <= acc ->
  0 <= fold_left (fun a x => 10 * a + digit_value x) (list_ascii_of_string s) acc.
Proof.
  revert acc. induction s as [|c s IH]; intros acc Hs Hacc; [done|].
  simpl in *. apply andb_true_iff in Hs as [Hc Hs]. apply IH; [done|].
  unfold is_digit in Hc. apply andb_true_iff in Hc as [H1 H2].
  apply N.leb_le in H1. unfold digit_value. lia.
Qed.

Lemma int_of_digits_nonneg (s : string) :
  all_chars is_digit s = true -> 0 <= int_of_digits s.
Proof. intros Hs. by apply fold_digits_nonneg. Qed.

Lemma digits_of_spec (f : nat) (n : Z) :
  0 <= n < 2 ^ Z.of_nat (S f) ->
  int_of_digits (digits_of (S f) n) = n
  /\ all_chars is_digit (digits_of (S f) n) = true
  /\ head_nonspace (digits_of (S f) n) = true.
Proof.
  revert n. induction f as [|f IH]; intros n Hn.
  - change (2 ^ Z.of_nat 1) with 2 in Hn. simpl.
    destruct (Z.ltb_spec n 10); [|lia].
    destruct (digit_char_spec n) as (Hd & Hv & Hs); [lia|].
    unfold int_of_digits. simpl. rewrite Hd, Hv, Hs. done.
  - change (digits_of (S (S f)) n)
      with (if n <? 10 then String (digit_char n) ""
            else digits_of (S f) (n / 10) +:+ String (digit_char (n mod 10)) "").
    destruct (Z.ltb_spec n 10) as [Hlt|Hge].
    + destruct (digit_char_spec n) as (Hd & Hv & Hs); [lia|].
      unfold int_of_digits. simpl. rewrite Hd, Hv, Hs. done.
    + assert (0 <= n / 10 < 2 ^ Z.of_nat (S f)) as Hq.
      { split; [apply Z.div_pos; lia|].
        apply Z.div_lt_upper_bound; [lia|].
        rewrite (Nat2Z.inj_succ (S f)), Z.pow_succ_r in Hn by lia. lia. }
      destruct (IH _ Hq) as (Hv & Hd & Hh).
      destruct (digit_char_spec (n mod 10)) as (Hd' & Hv' & _).
      { pose proof (Z.mod_pos_bound n 10). lia. }
      split; [|split].
      * rewrite int_of_digits_snoc, Hv, Hv'. pose proof (Z.div_mod n 10). lia.
      * rewrite all_chars_app, Hd. simpl. by rewrite Hd'.
      * destruct (digits_of (S f) (n / 10)); [done|]. by rewrite append_cons.
Qed.

Lemma of_Z_spec (n : Z) :
  0 <= n ->
  int_of_digits (of_Z n) = n
  /\ all_chars is_digit (of_Z n) = true
  /\ head_nonspace (of_Z n) = true.
Proof.
  intros Hn. unfold of_Z. destruct (Z.ltb_spec n 0); [lia|].
  apply digits_of_spec. split; [done|].
  destruct (Z.eq_dec n 0) as [->|Hne]; [done|].
  rewrite Nat2Z.inj_succ, Z2Nat.id by apply Z.log2_nonneg.
  apply Z.log2_spec. lia.
Qed.

End StrFacts.

(** ** The program store as text *)

Lemma stored_code_strip (s : string) :
  Re.all_chars Str.not_newline s = true ->
  Str.is_empty (Str.strip s) = false ->
  stored_code (Str.strip s).
Proof.
  intros Hs Hne. unfold stored_code, Str.strip in *.
  destruct (StrFacts.lstrip_cases s) as [He|Hh].
  { rewrite He in Hne. done. }
  split; [by apply StrFacts.rstrip_head_nonspace|].
  split; [apply StrFacts.rstrip_idem|].
  by apply StrFacts.all_chars_rstrip, StrFacts.all_chars_lstrip.
Qed.

Lemma match_numbered_Some (line digits rest : string) :
  Re.match_numbered line = Some (digits, rest) ->
  0 <= Str.int_of_digits digits /\ Re.all_chars Str.not_newline rest = true.
Proof.
  unfold Re.match_numbered.
  destruct (Str.span Str.is_digit line) as [ds r] eqn:Hspan.
  destruct (Str.is_empty ds); [done|]. intros [= <- <-]. split.
  - apply StrFacts.int_of_digits_nonneg.
    replace ds with (Str.take_while Str.is_digit line)
      by (unfold Str.take_while; by rewrite Hspan).
    apply StrFacts.all_chars_take_while.
  - apply StrFacts.all_chars_take_while.
Qed.

(** Whatever line is submitted, the store stays well formed. *)
Lemma process_input_with_wf (exec : string -> state -> outcome)
      (line : string) (st : state) :
  (forall stmt st0, wf_program (program st0) ->
                    wf_program (program (snd (exec stmt st0)))) ->
  wf_program (program st) ->
  wf_program (program (snd (process_input_with exec line st))).
Proof.
  intros Hexec Hwf. unfold process_input_with.
  destruct (Str.is_empty (Str.strip line)); [done|].
  destruct (Re.match_numbered (Str.strip line)) as [[ds rest]|] eqn:Hm;
    [|by apply Hexec].
  destruct (match_numbered_Some _ _ _ Hm) as [Hn Hrest].
  destruct (Str.is_empty (Str.strip rest)) eqn:He; simpl.
  - intros n code Hl. apply lookup_delete_Some in Hl as [_ Hl]. by eapply Hwf.
  - intros n code Hl. apply lookup_insert_Some in Hl as [[<- <-]|[_ Hl]].
    + split; [done|]. by apply stored_code_strip.
    + by eapply Hwf.
Qed.

(** A line as SAVE writes it, stripped, is the number, a blank and the
    statement; the pattern of [process_input] takes it apart again. *)
Lemma listing_is_numbered (n : Z) (code : string) :
  0 <= n -> stored_code code ->
  Str.strip ((Str.of_Z n +:+ " " +:+ code) +:+ String "010"%char "")
  = Str.of_Z n +:+ String " "%char code
  /\ Str.is_empty (Str.of_Z n +:+ String " "%char code) = false
  /\ Re.match_numbered (Str.of_Z n +:+ String " "%char code)
     = Some (Str.of_Z n, code)
  /\ Str.strip code = code
  /\ Str.is_empty code = false.
Proof.
  intros Hn (Hh & Hr & Hnl).
  destruct (StrFacts.of_Z_spec n Hn) as (Hv & Hd & Hdh).
  assert (code <> "") as Hne by (by destruct code).
  split; [|split; [|split; [|split]]].
  - unfold Str.strip. rewrite StrFacts.lstrip_head_nonspace.
    + rewrite StrFacts.rstrip_snoc_space by reflexivity.
      rewrite StrFacts.rstrip_app_nonempty.
      * f_equal. change (" " +:+ code) with (String " "%char "" +:+ code).
        rewrite StrFacts.rstrip_app_nonempty; by rewrite Hr.
      * change (" " +:+ code) with (String " "%char "" +:+ code).
        rewrite StrFacts.rstrip_app_nonempty; rewrite Hr; [|done].
        by destruct code.
    + destruct (Str.of_Z n); [done|]. by rewrite !StrFacts.append_cons.
  - apply StrFacts.is_empty_false. intros He.
    apply StrFacts.append_eq_nil in He as [_ ?]. done.
  - unfold Re.match_numbered. rewrite StrFacts.span_app by done.
    destruct (Str.is_empty (Str.of_Z n)) eqn:He'.
    { apply StrFacts.is_empty_true in He'. rewrite He' in Hdh. done. }
    change (Str.lstrip (String " "%char code)) with (Str.lstrip code).
    rewrite (StrFacts.lstrip_head_nonspace code Hh).
    by rewrite (StrFacts.take_while_all _ code Hnl).
  - by apply StrFacts.strip_stripped.
  - by destruct code.
Qed.

(** So it is read back as the line number and the statement it was made
    from. *)
Lemma process_input_listing (exec : string -> state -> outcome)
      (n : Z) (code : string) (st : state) :
  0 <= n -> stored_code code ->
  process_input_with exec
    ((Str.of_Z n +:+ " " +:+ code) +:+ String "010"%char "") st
  = ret (set_program (<[n := code]> (program st)) st).
Proof.
  intros Hn Hc.
  destruct (listing_is_numbered n code Hn Hc) as (Hs & He & Hm & Hsc & Hec).
  destruct (StrFacts.of_Z_spec n Hn) as (Hv & _).
  unfold process_input_with. by rewrite Hs, He, Hm, Hsc, Hec, Hv.
Qed.

Lemma load_lines_serialized (exec : string -> state -> outcome)
      (p : gmap Z string) (ks : list Z) (st : state) :
  wf_program p ->
  (forall k, k ∈ ks -> is_Some (p !! k)) ->
  load_lines exec
    (map (fun n => listing_line p n +:+ String "010"%char "") ks) st
  = ret (set_program (foldl (reinsert p) (program st) ks) st).
Proof.
  intros Hwf. revert st. induction ks as [|k ks IH]; intros st Hks.
  - simpl. by destruct st.
  - destruct (Hks k) as [code Hk]; [left|]. destruct (Hwf _ _ Hk) as [Hn Hc].
    simpl.
    assert (listing_line p k = Str.of_Z k +:+ " " +:+ code) as ->
        by (unfold listing_line; by rewrite Hk).
    rewrite (process_input_listing exec k code st Hn Hc). unfold ret.
    rewrite IH by (intros; apply Hks; by right). simpl.
    assert (reinsert p (program st) k = <[k := code]> (program st)) as ->
        by (unfold reinsert; by rewrite Hk).
    reflexivity.
Qed.

Lemma lookup_foldl_reinsert (p : gmap Z string) (ks : list Z)
      (acc : gmap Z string) (k : Z) :
  (forall k', k' ∈ ks -> is_Some (p !! k')) ->
  foldl (reinsert p) acc ks !! k = if decide (k ∈ ks) then p !! k else acc !! k.
Proof.
  revert acc. induction ks as [|x ks IH]; intros acc Hks; simpl.
  - destruct (decide (k ∈ [])) as [H|_]; [|done]. by apply elem_of_nil in H.
  - rewrite IH by (intros; apply Hks; by right).
    destruct (decide (k ∈ ks)) as [Hin|Hnin].
    + destruct (decide (k ∈ x :: ks)) as [_|H]; [done|]. exfalso. apply H. by right.
    + unfold reinsert. destruct (decide (k = x)) as [->|Hne].
      * rewrite lookup_insert_eq.
        destruct (decide (x ∈ x :: ks)) as [_|H]; [|exfalso; apply H; left].
        destruct (Hks x) as [v Hv]; [left|]. by rewrite Hv.
      * rewrite lookup_insert_ne by done.
        destruct (decide (k ∈ x :: ks)) as [H|_]; [|done].
        apply elem_of_cons in H as [?|?]; done.
Qed.

Lemma reinsert_all (p : gmap Z string) :
  foldl (reinsert p) ∅ (sorted_lines p) = p.
Proof.
  apply map_eq. intros k.
  rewrite lookup_foldl_reinsert by (intros ?; apply elem_of_sorted_lines).
  destruct (decide (k ∈ sorted_lines p)) as [_|Hnin]; [done|].
  rewrite lookup_empty. symmetry. apply eq_None_not_Some.
  intros H. by apply Hnin, elem_of_sorted_lines.
Qed.

Lemma set_program_same (st : state) : set_program (program st) st = st.
Proof. by destruct st. Qed.

(** *** The text of a file and its lines *)

Lemma digit_not_break (c : ascii) :
  Str.is_digit c = true -> Str.not_newline c = true /\ Str.not_return c = true.
Proof.
  destruct c as [[] [] [] [] [] [] [] []]; intros H; vm_compute in H;
    try discriminate H; by vm_compute.
Qed.

(** A line without newline and carriage return, written with its newline,
    is read back as that line. *)
Lemma universal_lines_line (body rest : string) :
  Re.all_chars Str.not_newline body = true ->
  Re.all_chars Str.not_return body = true ->
  Str.universal_lines (body +:+ String "010"%char rest)
  = (body +:+ String "010"%char "") :: Str.universal_lines rest.
Proof.
  induction body as [|c b IH]; intros Hn Hr.
  - by rewrite !StrFacts.append_nil_l.
  - cbn [Re.all_chars] in Hn, Hr.
    apply andb_true_iff in Hn as [Hc Hn]. apply andb_true_iff in Hr as [Hc' Hr].
    unfold Str.not_newline in Hc. unfold Str.not_return in Hc'.
    apply negb_true_iff in Hc, Hc'.
    rewrite !StrFacts.append_cons. cbn [Str.universal_lines].
    by rewrite Hc, Hc', IH.
Qed.

Lemma universal_lines_written (bodies : list string) :
  Forall (fun b => Re.all_chars Str.not_newline b = true
                   /\ Re.all_chars Str.not_return b = true) bodies ->
  Str.universal_lines
    (Str.written (map (fun b => b +:+ String "010"%char "") bodies))
  = map (fun b => b +:+ String "010"%char "") bodies.
Proof.
  induction 1 as [|b bs [Hn Hr] _ IH]; [done|].
  cbn [map Str.written fold_right]. rewrite StrFacts.append_assoc.
  change (String "010"%char "" +:+ ?w) with (String "010"%char w).
  rewrite universal_lines_line by done. by rewrite <- IH at 2.
Qed.

Lemma listing_line_clean (p : gmap Z string) (n : Z) (code : string) :
  0 <= n -> p !! n = Some code ->
  Re.all_chars Str.not_newline code = true ->
  Re.all_chars Str.not_return code = true ->
  Re.all_chars Str.not_newline (listing_line p n) = true
  /\ Re.all_chars Str.not_return (listing_line p n) = true.
Proof.
  intros Hn Hl Hnl Hr. unfold listing_line. rewrite Hl. simpl default.
  destruct (StrFacts.of_Z_spec n Hn) as (_ & Hd & _).
  rewrite !StrFacts.all_chars_app, Hnl, Hr.
  assert (Re.all_chars Str.not_newline (Str.of_Z n) = true) as ->.
  { revert Hd. generalize (Str.of_Z n). intros s0.
    induction s0 as [|c r IH]; [done|]. simpl.
    intros [Hc Hr']%andb_true_iff.
    by rewrite (proj1 (digit_not_break c Hc)), IH. }
  assert (Re.all_chars Str.not_return (Str.of_Z n) = true) as ->.
  { revert Hd. generalize (Str.of_Z n). intros s0.
    induction s0 as [|c r IH]; [done|]. simpl.
    intros [Hc Hr']%andb_true_iff.
    by rewrite (proj2 (digit_not_break c Hc)), IH. }
  done.
Qed.

(** What SAVE writes for a store without carriage returns is read back
    line by line as it was written. *)
Lemma serialized_lines (p : gmap Z string) :
  wf_program p -> no_returns p ->
  Str.universal_lines (Str.written (serialize_program p)) = serialize_program p.
Proof.
  intros Hwf Hnr. unfold serialize_program.
  rewrite <- (map_map (listing_line p) (fun b => b +:+ String "010"%char "")).
  apply universal_lines_written. apply Forall_forall.
  intros b [n [-> Hn]]%list_elem_of_fmap.
  apply elem_of_sorted_lines in Hn as [code Hcode].
  destruct (Hwf _ _ Hcode) as [H0 (_ & _ & Hnl)].
  by apply (listing_line_clean p n code H0 Hcode Hnl), (Hnr n).
Qed.

(** Loading the lines that SAVE writes for [p] ends with [p] as the
    store, whatever was stored before. *)
Lemma load_serialized (exec : string -> state -> outcome)
      (p : gmap Z string) (st : state) :
  wf_program p ->
  load_lines exec (serialize_program p) (set_program ∅ st)
  = ret (set_program p st).
Proof.
  intros Hwf. unfold serialize_program.
  rewrite load_lines_serialized;
    [|done|intros ?; apply elem_of_sorted_lines].
  simpl. by rewrite reinsert_all.
Qed.

(** C7 as stated fails: a stored statement may hold a carriage return,
    SAVE writes it out, and LOAD reads the text after it as a line of its
    own, which here is executed as a direct LET. *)
Lemma return_in_statement_breaks_round_trip :
  let st := typed ["10 END" +:+ String "013"%char "LET A = 7"] in
  let st' := snd (cmd_load 1 "p" (snd (cmd_save "p" st))) in
  program st = {[ 10 := "END" +:+ String "013"%char "LET A = 7" ]}
  /\ variables st !! "A"%char = Some 0
  /\ fst (cmd_load 1 "p" (snd (cmd_save "p" st))) = Done
  /\ program st' = {[ 10 := "END" ]}
  /\ program st' <> program st
  /\ variables st' !! "A"%char = Some 7.
Proof.
  intros st st'. split; [reflexivity|]. split; [reflexivity|].
  split; [reflexivity|]. split; [reflexivity|]. split; [|reflexivity].
  intros H. apply (f_equal (fun p => p !! 10)) in H. discriminate H.
Qed.

(** C7, amended: for a well-formed program store without carriage
    returns and a file that can be written, SAVE leaves in the file the
    lines of the listing, the file is read back as exactly these lines, and
    loading them, through [load_program] or through LOAD of the file, into
    an interpreter that holds any other program [p'] ends normally with the
    saved store and changes nothing else. *)
Theorem save_load_round_trip (fuel : nat) (st : state) (filename : string)
        (p' : gmap Z string) :
  wf_program (program st) -> no_returns (program st) ->
  filename <> "" -> filename ∉ readonly st ->
  let saved := snd (cmd_save filename st) in
  files saved !! filename = Some (Str.written (serialize_program (program st)))
  /\ Str.universal_lines (Str.written (serialize_program (program st)))
     = serialize_program (program st)
  /\ load_program fuel (serialize_program (program st)) (set_program p' st)
     = (Done, st)
  /\ cmd_load fuel filename (set_program p' saved)
     = (Done, print (Line ("Loaded " +:+ filename)) saved).
Proof.
  intros Hwf Hnr Hf Hro saved.
  assert (saved = print (Line ("Saved to " +:+ filename))
                    (set_files (<[filename := Str.written
                                                (serialize_program (program st))]>
                                  (files st)) st)) as Hsaved.
  { unfold saved, cmd_save. destruct (Str.is_empty filename) eqn:He.
    { by apply StrFacts.is_empty_true in He. }
    by destruct (decide (filename ∈ readonly st)). }
  split; [|split; [|split]].
  - rewrite Hsaved. simpl. apply lookup_insert_eq.
  - by apply serialized_lines.
  - unfold load_program.
    change (set_program ∅ (set_program p' st)) with (set_program ∅ st).
    rewrite load_serialized by done. by rewrite set_program_same.
  - unfold cmd_load, cmd_load_with.
    destruct (Str.is_empty filename) eqn:He.
    { by apply StrFacts.is_empty_true in He. }
    rewrite Hsaved. simpl files. rewrite lookup_insert_eq.
    rewrite serialized_lines by done.
    match goal with
    | |- context [load_lines ?e _ (set_program ∅ ?s)] =>
        rewrite (load_serialized e (program st) s Hwf)
    end.
    by destruct st.
Qed.

Lemma save_load_round_trip_witness :
  let st := typed ["30 PRINT A"; "10 LET A = 7"; "20 if A > 3 then 30"] in
  cmd_load 0 "prog.bas" (set_program {[ 5 := "NEW" ]} (snd (cmd_save "prog.bas" st)))
  = (Done, print (Line "Loaded prog.bas") (snd (cmd_save "prog.bas" st))).
Proof.
  intros st.
  assert (forall n code, program st !! n = Some code ->
            (0 <= n /\ stored_code code)
            /\ Re.all_chars Str.not_return code = true) as Hall.
  { intros n code Hl.
    assert (n ∈ sorted_lines (program st)) as Hin
        by (apply elem_of_sorted_lines; eauto).
    vm_compute in Hin.
    repeat (apply elem_of_cons in Hin as [->|Hin];
            [vm_compute in Hl; injection Hl as <-; vm_compute;
             intuition discriminate|]).
    by apply elem_of_nil in Hin. }
  assert ("prog.bas" <> "") as Hf by discriminate.
  assert ("prog.bas" ∉ readonly st) as Hro.
  { assert (readonly st = ∅) as -> by reflexivity. apply not_elem_of_empty. }
  exact (proj2 (proj2 (proj2
           (save_load_round_trip 0 st "prog.bas" {[ 5 := "NEW" ]}
              (fun n code Hl => proj1 (Hall n code Hl))
              (fun n code Hl => proj2 (Hall n code Hl)) Hf Hro)))).
Defined.

(** ** What a run preserves *)

(** A property [P] of states that printing keeps, and that makes every
    stored statement a [Q] statement, is kept by a run when the dispatcher
    keeps it on [Q] statements. *)
Section RunPreserves.
Variable P : state -> Prop.
Variable Q : string -> Prop.
Variable exec : string -> state -> outcome.
Hypothesis P_print : forall l st, P st -> P (print l st).
Hypothesis P_stored :
  forall st n stmt, P st -> program st !! n = Some stmt -> Q stmt.
Hypothesis P_exec : forall stmt st, Q stmt -> P st -> P (snd (exec stmt st)).

Lemma jump_preserves (k : nat -> state -> outcome) (lines : list Z)
      (target_expr : string) (line_num : Z) (st : state) :
  (forall idx st0, P st0 -> P (snd (k idx st0))) ->
  P st -> P (snd (jump k lines target_expr line_num st)).
Proof.
  intros Hk HP. unfold jump.
  destruct (eval_expression target_expr st); simpl; [|by apply P_print].
  destruct (index_of _ lines); simpl; [by apply Hk|by apply P_print].
Qed.

Lemma run_loop_preserves (iters : nat) (lines : list Z) (pc_idx : nat) (st : state) :
  P st -> P (snd (run_loop exec iters lines pc_idx st)).
Proof.
  revert pc_idx st. induction iters as [|m IH]; intros pc_idx st HP; [done|].
  simpl. destruct (lines !! pc_idx) as [line_num|]; [|done].
  destruct (program st !! line_num) as [stmt|] eqn:Hstmt; [|done].
  destruct (split_command stmt) as [[command arg]|]; [|done].
  destruct (String.eqb command "GOTO").
  { apply jump_preserves; [|done]. intros; by apply IH. }
  destruct (String.eqb command "IF").
  { destruct (Re.match_if arg) as [[c t]|]; [|by apply P_print].
    destruct (eval_condition c st) as [[|]|]; simpl.
    - apply jump_preserves; [|done]. intros; by apply IH.
    - by apply IH.
    - by apply P_print. }
  destruct (String.eqb command "END"); [done|].
  pose proof (P_exec stmt st (P_stored _ _ _ HP Hstmt) HP) as HP'.
  destruct (exec stmt st) as [[| e |] st']; simpl in *.
  - by apply IH.
  - by apply P_print.
  - done.
Qed.

Lemma execute_program_with_preserves (iters : nat) (start_line : option Z)
      (st : state) :
  P st -> P (snd (execute_program_with exec iters start_line st)).
Proof.
  intros HP. unfold execute_program_with.
  destruct (decide (program st = ∅)); [done|].
  destruct start_line as [s|]; [|by apply run_loop_preserves].
  destruct (index_of s _); [by apply run_loop_preserves|by apply P_print].
Qed.
End RunPreserves.

(** ** The program store under LIST and RUN *)

Lemma cmd_list_state (st : state) (lines : list Z) (p : gmap Z string) :
  let st' := fold_left (fun s n => print (Line (listing_line p n)) s) lines st in
  program st' = program st /\ variables st' = variables st
  /\ arrays st' = arrays st /\ files st' = files st.
Proof.
  revert st. induction lines as [|n r IH]; intros st; simpl; [done|].
  destruct (IH (print (Line (listing_line p n)) st)) as (-> & -> & -> & ->). done.
Qed.

Lemma cmd_print_state (arg : string) (st : state) :
  let st' := snd (cmd_print arg st) in
  program st' = program st /\ variables st' = variables st
  /\ arrays st' = arrays st /\ files st' = files st.
Proof. unfold cmd_print. by destruct (eval_expression arg st). Qed.

Lemma cmd_let_program (arg : string) (st : state) :
  program (snd (cmd_let arg st)) = program st
  /\ files (snd (cmd_let arg st)) = files st.
Proof.
  unfold cmd_let.
  destruct (Str.split_first "=" arg) as [[var_part expr_part]|]; [|done].
  destruct (eval_expression expr_part st); [|done].
  destruct (Re.match_array_form _) as [[name idx_expr]|].
  - destruct (eval_expression idx_expr st) as [idx|]; [|done].
    destruct (arrays st !! name); [|done]. by destruct (_ && _).
  - by destruct (Re.match_letter _).
Qed.

Lemma cmd_dim_program (arg : string) (st : state) :
  program (snd (cmd_dim arg st)) = program st
  /\ files (snd (cmd_dim arg st)) = files st.
Proof.
  unfold cmd_dim. destruct (Re.match_array_form _) as [[name size_expr]|]; [|done].
  by destruct (eval_expression size_expr st).
Qed.

Lemma cmd_save_state (filename : string) (st : state) :
  let st' := snd (cmd_save filename st) in
  program st' = program st /\ variables st' = variables st
  /\ arrays st' = arrays st.
Proof. unfold cmd_save. destruct (Str.is_empty filename); [done|].
    by destruct (decide _). Qed.

Lemma execute_statement_program (p : gmap Z string) (fuel : nat) :
  store_safe p ->
  forall stmt st,
    leaves_store stmt = true -> program st = p ->
    program (snd (execute_statement fuel stmt st)) = p.
Proof.
  intros Hsafe. induction fuel as [|f IH]; intros stmt st Hq Hp; [done|].
  simpl. unfold dispatch. unfold leaves_store, command_of in Hq.
  destruct (split_command stmt) as [[command arg]|]; [|done].
  apply andb_true_iff in Hq as [Hnew Hload].
  apply negb_true_iff in Hnew, Hload. rewrite Hnew, Hload.
  destruct (String.eqb command "PRINT").
  { by rewrite (proj1 (cmd_print_state arg st)). }
  destruct (String.eqb command "LET").
  { by rewrite (proj1 (cmd_let_program arg st)). }
  destruct (String.eqb command "GOTO"); [done|].
  destruct (String.eqb command "IF"); [done|].
  destruct (String.eqb command "DIM").
  { by rewrite (proj1 (cmd_dim_program arg st)). }
  destruct (String.eqb command "END"); [done|].
  destruct (String.eqb command "RUN").
  { apply (execute_program_with_preserves
             (fun s => program s = p) (fun s => leaves_store s = true));
      [done| |done|done].
    intros st0 n stmt0 Hst0 Hl. rewrite Hst0 in Hl. by eapply Hsafe. }
  destruct (String.eqb command "LIST").
  { unfold cmd_list. simpl. by rewrite (proj1 (cmd_list_state st _ _)). }
  destruct (String.eqb command "SAVE").
  { by rewrite (proj1 (cmd_save_state arg st)). }
  by destruct (String.eqb command "QUIT").
Qed.

(** C8 as stated fails: a stored NEW is dispatched like any other
    statement, so running the program [10 NEW] empties the store. *)
Lemma run_stored_new_clears_store :
  let st := typed ["10 NEW"] in
  program st = {[ 10 := "NEW" ]}
  /\ fst (execute_statement 3 "RUN" st) = Done
  /\ program (snd (execute_statement 3 "RUN" st)) = ∅
  /\ program (snd (execute_statement 3 "RUN" st)) <> program st.
Proof.
  intros st. split; [reflexivity|]. split; [reflexivity|]. split; [reflexivity|].
  intros H. apply (f_equal (fun p => p !! 10)) in H. discriminate H.
Qed.

(** C8, amended: when no stored statement is a NEW or a LOAD, every
    statement other than NEW and LOAD, LIST and RUN among them, leaves the
    program store as it was, at every point of its execution; so do the
    listing and a run from any start line. *)
Theorem list_and_run_keep_store (fuel : nat) (stmt : string) (st : state)
        (start_line : option Z) :
  store_safe (program st) ->
  leaves_store stmt = true ->
  program (snd (execute_statement fuel stmt st)) = program st
  /\ program (snd (execute_statement fuel "LIST" st)) = program st
  /\ program (snd (execute_statement fuel "RUN" st)) = program st
  /\ program (snd (cmd_list st)) = program st
  /\ program (snd (execute_program fuel start_line st)) = program st.
Proof.
  intros Hsafe Hq.
  pose proof (execute_statement_program (program st) fuel Hsafe) as Hexec.
  split; [by apply Hexec|]. split; [by apply Hexec|]. split; [by apply Hexec|].
  split.
  - unfold cmd_list. simpl. by rewrite (proj1 (cmd_list_state st _ _)).
  - apply (execute_program_with_preserves
             (fun s => program s = program st) (fun s => leaves_store s = true));
      [done| |by apply Hexec|done].
    intros st0 n stmt0 Hst0 Hl. rewrite Hst0 in Hl. by eapply Hsafe.
Qed.

Lemma list_and_run_keep_store_witness :
  let st := typed control_flow_example in
  program (snd (execute_statement 9 "RUN" st)) = program st
  /\ program (snd (execute_statement 9 "LIST" st)) = program st.
Proof.
  intros st.
  assert (store_safe (program st)) as Hsafe.
  { intros n code Hl.
    assert (n ∈ sorted_lines (program st)) as Hin
        by (apply elem_of_sorted_lines; eauto).
    vm_compute in Hin.
    repeat (apply elem_of_cons in Hin as [->|Hin];
            [vm_compute in Hl; by injection Hl as <-|]).
    by apply elem_of_nil in Hin. }
  destruct (list_and_run_keep_store 9 "PRINT A" st None Hsafe eq_refl)
    as (_ & Hlist & Hrun & _).
  split; [exact Hrun|exact Hlist].
Defined.

(** ** The variable environment *)

Lemma cmd_let_spares (L : ascii) (arg : string) (st : state) :
  match let_target arg with Some c => negb (Ascii.eqb c L) | None => true end = true ->
  unchanged L st (snd (cmd_let arg st)).
Proof.
  unfold cmd_let, let_target, unchanged.
  destruct (Str.split_first "=" arg) as [[var_part expr_part]|]; [|done].
  intros Ht. destruct (eval_expression expr_part st); [|done].
  destruct (Re.match_array_form _) as [[name idx_expr]|].
  - apply negb_true_iff, Ascii.eqb_neq in Ht.
    destruct (eval_expression idx_expr st) as [idx|]; [|done].
    destruct (arrays st !! name) eqn:Hname; [|done]. destruct (_ && _); [|done].
    simpl. split; [done|]. by apply lookup_insert_ne.
  - destruct (Re.match_letter _) as [c|]; [|done]. simpl.
    apply negb_true_iff, Ascii.eqb_neq in Ht.
    split; [|done]. by apply lookup_insert_ne.
Qed.

Lemma cmd_dim_spares (L : ascii) (arg : string) (st : state) :
  match dim_target arg with Some c => negb (Ascii.eqb c L) | None => true end = true ->
  unchanged L st (snd (cmd_dim arg st)).
Proof.
  unfold cmd_dim, dim_target, unchanged.
  destruct (Re.match_array_form _) as [[name size_expr]|]; [|done].
  intros Ht. apply negb_true_iff, Ascii.eqb_neq in Ht.
  destruct (eval_expression size_expr st); [|done].
  simpl. split; [done|]. by apply lookup_insert_ne.
Qed.

(** The lines of a file hold no carriage return. *)
Lemma universal_lines_no_return (text : string) :
  Forall (fun l => Re.all_chars Str.not_return l = true) (Str.universal_lines text).
Proof.
  induction text as [|c r IH]; [constructor|]. cbn [Str.universal_lines].
  destruct (Str.is_newline c); [by constructor|].
  destruct (Str.is_return c) eqn:Hc.
  - destruct r as [|d r']; [by constructor|].
    destruct (Ascii.eqb_spec d "010"%char) as [->|Hd].
    + cbn [Str.universal_lines] in IH.
      change (Str.is_newline "010"%char) with true in IH. cbv iota in IH.
      constructor; [done|]. by apply Forall_cons in IH as [_ ?].
    + assert (match d with
              | "010"%char => String "010"%char "" :: Str.universal_lines r'
              | _ => String "010"%char "" :: Str.universal_lines (String d r')
              end = String "010"%char "" :: Str.universal_lines (String d r')) as ->.
      { destruct d as [[] [] [] [] [] [] [] []]; try reflexivity. done. }
      by constructor.
  - destruct (Str.universal_lines r) as [|l ls].
    + constructor; [|done]. simpl. unfold Str.not_return. by rewrite Hc.
    + apply Forall_cons in IH as [Hl Hls]. constructor; [|done].
      simpl. unfold Str.not_return at 1. by rewrite Hc.
Qed.

Lemma match_numbered_all (p : ascii -> bool) (line digits rest : string) :
  Re.all_chars p line = true ->
  Re.match_numbered line = Some (digits, rest) ->
  Re.all_chars p rest = true.
Proof.
  unfold Re.match_numbered. intros Hp.
  destruct (Str.span Str.is_digit line) as [ds r] eqn:Hspan.
  destruct (Str.is_empty ds); [done|]. intros [= _ <-].
  assert (Re.all_chars p r = true) as Hr.
  { revert ds r Hspan Hp. induction line as [|c l IH]; intros ds r Hspan Hp.
    - by injection Hspan as <- <-.
    - simpl in Hspan, Hp. apply andb_true_iff in Hp as [Hc Hl].
      destruct (Str.is_digit c).
      + destruct (Str.span Str.is_digit l) as [a b] eqn:Hab.
        injection Hspan as <- <-. by eapply IH.
      + injection Hspan as <- <-. simpl. by rewrite Hc, Hl. }
  apply StrFacts.all_chars_lstrip in Hr.
  revert Hr. generalize (Str.lstrip r). intros s0. unfold Str.take_while.
  induction s0 as [|c l IH]; [done|]. simpl.
  intros [Hc Hl]%andb_true_iff.
  destruct (Str.not_newline c); [|done].
  specialize (IH Hl). destruct (Str.span Str.not_newline l) as [a b].
  simpl in *. by rewrite Hc, IH.
Qed.

Lemma spares_serialized (L : ascii) (p : gmap Z string) :
  wf_program p ->
  (forall n code, p !! n = Some code -> spares L code = true) ->
  Forall (fun l => spares_line L l = true) (serialize_program p).
Proof.
  intros Hwf Hq. unfold serialize_program. apply Forall_forall.
  intros l [n [-> Hn]]%list_elem_of_fmap.
  apply elem_of_sorted_lines in Hn as [code Hcode].
  destruct (Hwf _ _ Hcode) as [H0 Hc].
  destruct (listing_is_numbered n code H0 Hc) as (Hs & _ & Hm & Hsc & _).
  unfold spares_line, listing_line. rewrite Hcode. simpl.
  rewrite Hs, Hm, Hsc. by eapply Hq.
Qed.

(** A statement whose command neither writes variables or arrays nor
    executes other statements leaves both tables as they are. *)
Lemma plain_statement_env (fuel : nat) (stmt : string) (st : state) :
  writes_or_executes (command_of stmt) = false ->
  variables (snd (execute_statement fuel stmt st)) = variables st
  /\ arrays (snd (execute_statement fuel stmt st)) = arrays st.
Proof.
  intros H. destruct fuel as [|f]; [done|]. simpl. unfold dispatch.
  unfold writes_or_executes, command_of in H.
  destruct (split_command stmt) as [[command arg]|]; [|done].
  simpl in H. repeat (apply orb_false_iff in H as [? H]).
  repeat match goal with
         | E : String.eqb command _ = false |- _ => rewrite E; clear E
         end.
  destruct (String.eqb command "PRINT").
  { by destruct (cmd_print_state arg st) as (_ & -> & -> & _). }
  destruct (String.eqb command "GOTO"); [done|].
  destruct (String.eqb command "IF"); [done|].
  destruct (String.eqb command "END"); [done|].
  destruct (String.eqb command "LIST").
  { unfold cmd_list. simpl.
    by destruct (cmd_list_state st (sorted_lines (program st)) (program st))
      as (_ & -> & -> & _). }
  destruct (String.eqb command "SAVE").
  { by destruct (cmd_save_state arg st) as (_ & -> & ->). }
  by destruct (String.eqb command "QUIT").
Qed.

(** Whatever LET, DIM and NEW keep true of the variables and the arrays,
    every statement keeps true of them. *)
Section EnvInvariant.
Variable P : gmap ascii Z -> gmap ascii (list Z) -> Prop.
Hypothesis P_let : forall arg st, env_holds P st -> env_holds P (snd (cmd_let arg st)).
Hypothesis P_dim : forall arg st, env_holds P st -> env_holds P (snd (cmd_dim arg st)).
Hypothesis P_new : forall st, env_holds P (snd (cmd_new st)).

Lemma env_holds_same (st st' : state) :
  variables st' = variables st -> arrays st' = arrays st ->
  env_holds P st -> env_holds P st'.
Proof. unfold env_holds. by intros -> ->. Qed.

Lemma process_input_with_holds (exec : string -> state -> outcome)
      (line : string) (st : state) :
  (forall stmt st0, env_holds P st0 -> env_holds P (snd (exec stmt st0))) ->
  env_holds P st -> env_holds P (snd (process_input_with exec line st)).
Proof.
  intros Hexec Hst. unfold process_input_with.
  destruct (Str.is_empty (Str.strip line)); [done|].
  destruct (Re.match_numbered (Str.strip line)) as [[ds rest]|]; [|by apply Hexec].
  by destruct (negb _).
Qed.

Lemma load_lines_holds (exec : string -> state -> outcome)
      (lines : list string) (st : state) :
  (forall stmt st0, env_holds P st0 -> env_holds P (snd (exec stmt st0))) ->
  env_holds P st -> env_holds P (snd (load_lines exec lines st)).
Proof.
  intros Hexec. revert st. induction lines as [|l ls IH]; intros st Hst; [done|].
  simpl. pose proof (process_input_with_holds exec l st Hexec Hst) as H.
  destruct (process_input_with exec l st) as [[| e |] st']; simpl in *;
    [by apply IH|done|done].
Qed.

Lemma execute_statement_holds (fuel : nat) (stmt : string) (st : state) :
  env_holds P st -> env_holds P (snd (execute_statement fuel stmt st)).
Proof.
  revert stmt st. induction fuel as [|f IH]; intros stmt st Hst; [done|].
  simpl. unfold dispatch.
  destruct (split_command stmt) as [[command arg]|]; [|done].
  destruct (String.eqb command "PRINT").
  { destruct (cmd_print_state arg st) as (_ & Hv & Ha & _). by eapply env_holds_same. }
  destruct (String.eqb command "LET"); [by apply P_let|].
  destruct (String.eqb command "GOTO"); [done|].
  destruct (String.eqb command "IF"); [done|].
  destruct (String.eqb command "DIM"); [by apply P_dim|].
  destruct (String.eqb command "END"); [done|].
  destruct (String.eqb command "RUN").
  { apply (execute_program_with_preserves (env_holds P) (fun _ => True));
      [done|done| |done].
    intros stmt0 st0 _ Hst0. by apply IH. }
  destruct (String.eqb command "LIST").
  { unfold cmd_list. simpl.
    destruct (cmd_list_state st (sorted_lines (program st)) (program st))
      as (_ & Hv & Ha & _).
    by eapply env_holds_same. }
  destruct (String.eqb command "NEW"); [apply P_new|].
  destruct (String.eqb command "LOAD").
  { unfold cmd_load_with. destruct (Str.is_empty arg); [done|].
    destruct (files st !! arg) as [text|]; [|done].
    pose proof (load_lines_holds (execute_statement f) (Str.universal_lines text)
                  (set_program ∅ st) IH Hst) as H.
    by destruct (load_lines (execute_statement f) (Str.universal_lines text)
                   (set_program ∅ st)) as [[| e |] st']. }
  destruct (String.eqb command "SAVE").
  { destruct (cmd_save_state arg st) as (_ & Hv & Ha). by eapply env_holds_same. }
  by destruct (String.eqb command "QUIT").
Qed.
End EnvInvariant.

Section Spared.
Variable L : ascii.
Variable v : option Z.
Variable a : option (list Z).

Abbreviation kept := (kept_letter L v a).

Lemma kept_print (l : out_line) (st : state) : kept st -> kept (print l st).
Proof. by intros ?. Qed.

Lemma kept_stored (st : state) (n : Z) (stmt : string) :
  kept st -> program st !! n = Some stmt -> spares L stmt = true.
Proof. intros ((_ & _ & Hq & _) & _) Hl. by eapply Hq. Qed.

Lemma kept_same (st st' : state) :
  program st' = program st -> files st' = files st ->
  variables st' !! L = variables st !! L -> arrays st' !! L = arrays st !! L ->
  kept st -> kept st'.
Proof.
  intros Hp Hf Hv Ha ((Hwf & Hnr & Hq & Hfs) & Hv0 & Ha0).
  unfold kept_letter, sparing. rewrite Hp, Hf, Hv, Ha. done.
Qed.

Lemma kept_list (st : state) : kept st -> kept (snd (cmd_list st)).
Proof.
  unfold cmd_list. simpl.
  destruct (cmd_list_state st (sorted_lines (program st)) (program st))
    as (Hp & Hv & Ha & Hf).
  apply kept_same; [done|done|by rewrite Hv|by rewrite Ha].
Qed.

Lemma kept_cmd_print (arg : string) (st : state) :
  kept st -> kept (snd (cmd_print arg st)).
Proof.
  destruct (cmd_print_state arg st) as (Hp & Hv & Ha & Hf).
  apply kept_same; [done|done|by rewrite Hv|by rewrite Ha].
Qed.

Lemma kept_cmd_let (arg : string) (st : state) :
  match let_target arg with Some c => negb (Ascii.eqb c L) | None => true end = true ->
  kept st -> kept (snd (cmd_let arg st)).
Proof.
  intros Ht. destruct (cmd_let_program arg st) as [Hp Hf].
  destruct (cmd_let_spares L arg st Ht) as [Hv Ha].
  by apply kept_same.
Qed.

Lemma kept_cmd_dim (arg : string) (st : state) :
  match dim_target arg with Some c => negb (Ascii.eqb c L) | None => true end = true ->
  kept st -> kept (snd (cmd_dim arg st)).
Proof.
  intros Ht. destruct (cmd_dim_program arg st) as [Hp Hf].
  destruct (cmd_dim_spares L arg st Ht) as [Hv Ha].
  by apply kept_same.
Qed.

Lemma kept_save (filename : string) (st : state) :
  kept st -> kept (snd (cmd_save filename st)).
Proof.
  intros ((Hwf & Hnr & Hq & Hf) & Hv & Ha). unfold cmd_save.
  destruct (Str.is_empty filename); [done|].
  destruct (decide (filename ∈ readonly st)); [done|].
  split; [|done]. split; [done|]. split; [done|]. split; [done|]. simpl.
  intros f text [[_ <-]|[_ Hl]]%lookup_insert_Some.
  - rewrite serialized_lines by done. by apply spares_serialized.
  - by eapply Hf.
Qed.

Section WithExec.
Variable exec : string -> state -> outcome.
Hypothesis kept_exec :
  forall stmt st, spares L stmt = true -> kept st -> kept (snd (exec stmt st)).

Lemma kept_process_input (line : string) (st : state) :
  spares_line L line = true -> Re.all_chars Str.not_return line = true ->
  kept st -> kept (snd (process_input_with exec line st)).
Proof.
  intros Hl Hcr Hk. unfold process_input_with. unfold spares_line in Hl.
  destruct (Str.is_empty (Str.strip line)); [done|].
  destruct (Re.match_numbered (Str.strip line)) as [[ds rest]|] eqn:Hm;
    [|by apply kept_exec].
  destruct (match_numbered_Some _ _ _ Hm) as [Hn Hrest].
  pose proof (match_numbered_all Str.not_return _ _ _
                (StrFacts.all_chars_strip _ _ Hcr) Hm) as Hrr.
  destruct Hk as ((Hwf & Hnr & Hq & Hf) & Hv & Ha).
  destruct (Str.is_empty (Str.strip rest)) eqn:He; simpl.
  - split; [|done]. split; [|split; [|split; [|done]]]; simpl.
    + intros n code [_ Hc]%lookup_delete_Some. by eapply Hwf.
    + intros n code [_ Hc]%lookup_delete_Some. by eapply Hnr.
    + intros n code [_ Hc]%lookup_delete_Some. by eapply Hq.
  - split; [|done]. split; [|split; [|split; [|done]]]; simpl.
    + intros n code [[<- <-]|[_ Hc]]%lookup_insert_Some.
      * split; [done|]. by apply stored_code_strip.
      * by eapply Hwf.
    + intros n code [[<- <-]|[_ Hc]]%lookup_insert_Some.
      * by apply StrFacts.all_chars_strip.
      * by eapply Hnr.
    + intros n code [[<- <-]|[_ Hc]]%lookup_insert_Some; [done|].
      by eapply Hq.
Qed.

Lemma kept_load_lines (lines : list string) (st : state) :
  Forall (fun l => spares_line L l = true) lines ->
  Forall (fun l => Re.all_chars Str.not_return l = true) lines ->
  kept st -> kept (snd (load_lines exec lines st)).
Proof.
  intros Hls. revert st. induction Hls as [|l ls Hl Hls IH]; intros st Hcr Hk; [done|].
  apply Forall_cons in Hcr as [Hcl Hcr].
  simpl. pose proof (kept_process_input l st Hl Hcl Hk) as Hk'.
  destruct (process_input_with exec l st) as [[| e |] st']; simpl in *;
    [by apply IH|done|done].
Qed.

Lemma kept_load (filename : string) (st : state) :
  kept st -> kept (snd (cmd_load_with exec filename st)).
Proof.
  intros Hk. unfold cmd_load_with.
  destruct (Str.is_empty filename); [by apply kept_print|].
  destruct (files st !! filename) as [text|] eqn:Hfile; [|by apply kept_print].
  assert (kept (set_program ∅ st)) as Hk0.
  { destruct Hk as ((Hwf & Hnr & Hq & Hf) & Hv & Ha).
    split; [|done]. split; [|split; [|split; [|done]]]; simpl; intros n code Hl;
      by rewrite lookup_empty in Hl. }
  assert (Forall (fun l => spares_line L l = true) (Str.universal_lines text))
    as Hls.
  { destruct Hk as ((_ & _ & _ & Hf) & _). by eapply Hf. }
  pose proof (kept_load_lines _ _ Hls (universal_lines_no_return text) Hk0) as Hk'.
  destruct (load_lines exec (Str.universal_lines text) (set_program ∅ st))
    as [[| e |] st']; simpl in *;
    [by apply kept_print|by apply kept_print|done].
Qed.

Lemma kept_dispatch (iters : nat) (stmt : string) (st : state) :
  spares L stmt = true -> kept st -> kept (snd (dispatch exec iters stmt st)).
Proof.
  intros Hq Hk. unfold dispatch. unfold spares in Hq.
  destruct (split_command stmt) as [[command arg]|]; [|done].
  destruct (String.eqb command "NEW") eqn:Hnew; [done|].
  destruct (String.eqb command "PRINT"); [by apply kept_cmd_print|].
  destruct (String.eqb command "LET"); [by apply kept_cmd_let|].
  destruct (String.eqb command "GOTO"); [done|].
  destruct (String.eqb command "IF"); [done|].
  destruct (String.eqb command "DIM"); [by apply kept_cmd_dim|].
  destruct (String.eqb command "END"); [done|].
  destruct (String.eqb command "RUN").
  { apply (execute_program_with_preserves kept (fun s => spares L s = true));
      [apply kept_print|apply kept_stored|apply kept_exec|done]. }
  destruct (String.eqb command "LIST"); [by apply kept_list|].
  destruct (String.eqb command "LOAD"); [by apply kept_load|].
  destruct (String.eqb command "SAVE"); [by apply kept_save|].
  destruct (String.eqb command "QUIT"); [done|].
  by apply kept_print.
Qed.
End WithExec.

Lemma kept_execute_statement (fuel : nat) (stmt : string) (st : state) :
  spares L stmt = true -> kept st -> kept (snd (execute_statement fuel stmt st)).
Proof.
  revert stmt st. induction fuel as [|f IH]; intros stmt st Hq Hk; [done|].
  simpl. by apply kept_dispatch.
Qed.

Lemma kept_execute_program (fuel iters : nat) (start_line : option Z) (st : state) :
  kept st ->
  kept (snd (execute_program_with (execute_statement fuel) iters start_line st)).
Proof.
  intros Hk.
  apply (execute_program_with_preserves kept (fun s => spares L s = true));
    [apply kept_print|apply kept_stored| |done].
  intros; by apply kept_execute_statement.
Qed.
End Spared.

(** Variables and arrays set in direct mode are seen by a run, and are
    still there after it. *)
Lemma run_sees_environment :
  let st := typed ["LET A = 5"; "DIM B(2)"; "LET B(1) = 7"; "10 PRINT A + B(1)"] in
  execute_statement 3 "RUN" st = (Done, print (Line "12") st).
Proof. reflexivity. Qed.

(** What one run sets, the next run finds. *)
Lemma run_after_run :
  let st := typed ["10 LET A = A + 1"; "20 PRINT A"; "RUN"] in
  output st = [Line "1"]
  /\ output (snd (execute_statement 4 "RUN" st)) = [Line "1"; Line "2"].
Proof. split; reflexivity. Qed.



(** ** Every store the interpreter builds is well formed *)

Lemma execute_statement_wf (fuel : nat) (stmt : string) (st : state) :
  wf_program (program st) ->
  wf_program (program (snd (execute_statement fuel stmt st))).
Proof.
  revert stmt st. induction fuel as [|f IH]; intros stmt st Hwf; [done|].
  simpl. unfold dispatch.
  destruct (split_command stmt) as [[command arg]|]; [|done].
  destruct (String.eqb command "PRINT").
  { by rewrite (proj1 (cmd_print_state arg st)). }
  destruct (String.eqb command "LET").
  { by rewrite (proj1 (cmd_let_program arg st)). }
  destruct (String.eqb command "GOTO"); [done|].
  destruct (String.eqb command "IF"); [done|].
  destruct (String.eqb command "DIM").
  { by rewrite (proj1 (cmd_dim_program arg st)). }
  destruct (String.eqb command "END"); [done|].
  destruct (String.eqb command "RUN").
  { apply (execute_program_with_preserves
             (fun s => wf_program (program s)) (fun _ => True));
      [done|done| |done].
    intros stmt0 st0 _ Hwf0. by apply IH. }
  destruct (String.eqb command "LIST").
  { unfold cmd_list. simpl. by rewrite (proj1 (cmd_list_state st _ _)). }
  destruct (String.eqb command "NEW").
  { simpl. intros n code Hl. by rewrite lookup_empty in Hl. }
  destruct (String.eqb command "LOAD").
  { unfold cmd_load_with. destruct (Str.is_empty arg); [done|].
    destruct (files st !! arg) as [text|]; [|done].
    generalize (Str.universal_lines text). intros ls.
    assert (forall st0, wf_program (program st0) ->
              wf_program (program (snd (load_lines (execute_statement f) ls st0))))
      as Hload.
    { induction ls as [|l ls IHls]; intros st0 Hwf0; [done|]. simpl.
      pose proof (process_input_with_wf (execute_statement f) l st0 IH Hwf0) as H.
      destruct (process_input_with (execute_statement f) l st0) as [[| e |] st'];
        simpl in *; [by apply IHls|done|done]. }
    specialize (Hload (set_program ∅ st)).
    destruct (load_lines (execute_statement f) ls (set_program ∅ st))
      as [[| e |] st']; simpl in *; apply Hload;
      intros n code Hl; by rewrite lookup_empty in Hl. }
  destruct (String.eqb command "SAVE").
  { by rewrite (proj1 (cmd_save_state arg st)). }
  by destruct (String.eqb command "QUIT").
Qed.

(** Whatever is typed into a fresh interpreter, its program store is well
    formed. *)
Lemma session_wf (fuel : nat) (lines : list string) (st : state) :
  wf_program (program st) ->
  wf_program (program (snd (session fuel lines st))).
Proof.
  revert st. induction lines as [|l ls IH]; intros st Hwf; [done|]. simpl.
  destruct (running st); [|done]. unfold interactive_line, process_input.
  pose proof (process_input_with_wf (execute_statement fuel) l st
                (execute_statement_wf fuel) Hwf) as H.
  destruct (process_input_with (execute_statement fuel) l st) as [[| e |] st'];
    simpl in *; [by apply IH|by apply IH|done].
Qed.

Lemma typed_wf (lines : list string) : wf_program (program (typed lines)).
Proof.
  apply session_wf. intros n code Hl. simpl in Hl. by rewrite lookup_empty in Hl.
Qed.

(** ** Quotients of integer literals, as text *)

Module LexFacts.
Import Str StrFacts PyExpr.

Lemma all_chars_impl (p q : ascii -> bool) (s : string) :
  (forall c, p c = true -> q c = true) ->
  all_chars p s = true -> all_chars q s = true.
Proof.
  intros Hpq. induction s as [|c r IH]; [done|]. simpl.
  intros [Hc Hr]%andb_true_iff. by rewrite (Hpq c Hc), IH.
Qed.

Lemma digit_is_plain (c : ascii) : is_digit c = true -> plain c = true.
Proof.
  destruct c as [[] [] [] [] [] [] [] []]; intros H; vm_compute in H;
    try discriminate H; reflexivity.
Qed.

Lemma plain_spec (c : ascii) :
  plain c = true ->
  is_space c = false /\ is_lower c = false /\ Ascii.eqb c "/"%char = false.
Proof.
  unfold plain. intros [[H1 H2]%andb_true_iff H3]%andb_true_iff.
  by apply negb_true_iff in H1, H2, H3.
Qed.

Lemma rstrip_plain (s : string) : all_chars plain s = true -> rstrip s = s.
Proof.
  induction s as [|c r IH]; [done|]. simpl.
  intros [Hc Hr]%andb_true_iff. rewrite (IH Hr).
  destruct (plain_spec c Hc) as (-> & _). by destruct r.
Qed.

Lemma upper_plain (s : string) : all_chars plain s = true -> upper s = s.
Proof.
  induction s as [|c r IH]; [done|]. simpl.
  intros [Hc Hr]%andb_true_iff. rewrite (IH Hr).
  destruct (plain_spec c Hc) as (_ & Hl & _). unfold upper_char. by rewrite Hl.
Qed.

Lemma replace_slash_plain (s : string) :
  all_chars plain s = true -> replace_slash s = s.
Proof.
  induction s as [|c r IH]; [done|]. simpl.
  intros [Hc Hr]%andb_true_iff. rewrite (IH Hr).
  destruct (plain_spec c Hc) as (_ & _ & ->). done.
Qed.

Lemma upper_app (a b : string) : upper (a +:+ b) = upper a +:+ upper b.
Proof.
  induction a as [|c a IH]; [done|]. rewrite append_cons. simpl.
  by rewrite IH, append_cons.
Qed.

Lemma replace_slash_app (a b : string) :
  replace_slash (a +:+ b) = replace_slash a +:+ replace_slash b.
Proof.
  induction a as [|c a IH]; [done|]. rewrite append_cons. simpl.
  destruct (Ascii.eqb c "/"); by rewrite IH, ?append_cons.
Qed.

(** *** The numeral of an integer *)

Lemma of_Z_negative (n : Z) : n < 0 -> of_Z n = String "-"%char (of_Z (- n)).
Proof.
  intros Hn. unfold of_Z.
  destruct (Z.ltb_spec n 0); [|lia]. destruct (Z.ltb_spec (- n) 0); [lia|].
  reflexivity.
Qed.

Lemma of_Z_plain (n : Z) :
  all_chars plain (of_Z n) = true /\ head_nonspace (of_Z n) = true.
Proof.
  destruct (Z.lt_ge_cases n 0) as [Hneg|Hpos].
  - rewrite of_Z_negative by done.
    destruct (of_Z_spec (- n)) as (_ & Hd & _); [lia|]. split; [|done].
    simpl. apply (all_chars_impl is_digit); [apply digit_is_plain|done].
  - destruct (of_Z_spec n Hpos) as (_ & Hd & Hh). split; [|done].
    apply (all_chars_impl is_digit); [apply digit_is_plain|done].
Qed.

Lemma digits_of_leading_zero (f : nat) (n : Z) (r : string) :
  0 <= n < 2 ^ Z.of_nat (S f) ->
  digits_of (S f) n = String "0"%char r -> r = "".
Proof.
  revert n r. induction f as [|f IH]; intros n r Hn.
  - change (2 ^ Z.of_nat 1) with 2 in Hn. simpl.
    destruct (Z.ltb_spec n 10); [|lia]. by intros [= _ <-].
  - change (digits_of (S (S f)) n)
      with (if n <? 10 then String (digit_char n) ""
            else digits_of (S f) (n / 10) +:+ String (digit_char (n mod 10)) "").
    destruct (Z.ltb_spec n 10) as [Hlt|Hge]; [by intros [= _ <-]|].
    assert (0 <= n / 10 < 2 ^ Z.of_nat (S f)) as Hq.
    { split; [apply Z.div_pos; lia|].
      apply Z.div_lt_upper_bound; [lia|].
      rewrite (Nat2Z.inj_succ (S f)), Z.pow_succ_r in Hn by lia. lia. }
    destruct (digits_of_spec f (n / 10) Hq) as (Hv & _ & Hh).
    destruct (digits_of (S f) (n / 10)) as [|d D] eqn:HD; [done|].
    rewrite append_cons. intros [= -> _].
    rewrite (IH (n / 10) D Hq HD) in Hv.
    assert (1 <= n / 10) by (apply Z.div_le_lower_bound; lia).
    change (int_of_digits (String "0" "")) with 0 in Hv. lia.
Qed.

Lemma number_token_cons (c : ascii) (r : string) :
  number_token (String c r) =
  if Ascii.eqb c "0"%char && negb (is_empty r)
  then (if int_of_digits (String c r) =? 0 then Ok (TNum 0) else Err SyntaxError)
  else Ok (TNum (int_of_digits (String c r))).
Proof.
  destruct c as [[] [] [] [] [] [] [] []]; destruct r; reflexivity.
Qed.

Lemma number_token_of_Z (n : Z) :
  0 <= n -> number_token (of_Z n) = Ok (TNum n).
Proof.
  intros Hn. destruct (of_Z_spec n Hn) as (Hv & _ & Hh).
  destruct (of_Z n) as [|c r] eqn:HD; [done|].
  rewrite number_token_cons, Hv.
  destruct (Ascii.eqb_spec c "0"%char) as [->|_]; [|done].
  unfold of_Z in HD. destruct (Z.ltb_spec n 0); [lia|].
  apply digits_of_leading_zero in HD as ->; [done|].
  split; [done|].
  destruct (Z.eq_dec n 0) as [->|Hne]; [done|].
  rewrite Nat2Z.inj_succ, Z2Nat.id by apply Z.log2_nonneg.
  apply Z.log2_spec. lia.
Qed.

(** *** Tokens of a numeral *)

Lemma lex_go_digits (D ds rest : string) :
  all_chars is_digit D = true ->
  lex_go (PNum ds) (D +:+ rest) = lex_go (PNum (ds +:+ D)) rest.
Proof.
  revert ds. induction D as [|c D IH]; intros ds HD.
  - by rewrite append_nil_r.
  - simpl in HD. apply andb_true_iff in HD as [Hc HD].
    rewrite append_cons. simpl. rewrite Hc, (IH _ HD). unfold snoc.
    by rewrite append_assoc.
Qed.

Lemma lex_go_numeral (D rest : string) :
  all_chars is_digit D = true -> D <> "" ->
  lex_go PNone (D +:+ rest) = lex_go (PNum D) rest.
Proof.
  intros HD Hne. destruct D as [|c D]; [done|].
  simpl in HD. apply andb_true_iff in HD as [Hc HD].
  rewrite append_cons. simpl. rewrite Hc. by rewrite lex_go_digits.
Qed.

Lemma lex_go_number_blank (D r : string) :
  lex_go (PNum D) (String " "%char r)
  = bind (number_token D)
         (fun t => bind (lex_go PNone r) (fun rest => Ok (t :: rest))).
Proof.
  simpl. destruct (number_token D); [|done]. simpl.
  by destruct (lex_go PNone r).
Qed.

Lemma lex_go_number_end (D : string) :
  lex_go (PNum D) "" = bind (number_token D) (fun t => Ok [t]).
Proof. reflexivity. Qed.

Lemma of_Z_nonneg_nonempty (n : Z) : 0 <= n -> of_Z n <> "".
Proof.
  intros Hn He. destruct (of_Z_spec n Hn) as (_ & _ & Hh). by rewrite He in Hh.
Qed.

Lemma lex_literal_blank (n : Z) (r : string) :
  lex_go PNone (of_Z n +:+ String " "%char r)
  = bind (lex_go PNone r) (fun rest => Ok (literal_tokens n ++ rest)%list).
Proof.
  unfold literal_tokens. destruct (Z.ltb_spec n 0) as [Hneg|Hpos].
  - rewrite of_Z_negative by done. rewrite append_cons.
    assert (0 <= - n) as Hn by lia.
    destruct (of_Z_spec (- n) Hn) as (_ & Hd & _).
    change (lex_go PNone (String "-" (of_Z (- n) +:+ String " " r)))
      with (bind (lex_go PNone (of_Z (- n) +:+ String " " r))
                 (fun rest => Ok (TMinus :: rest))).
    rewrite lex_go_numeral by (try done; by apply of_Z_nonneg_nonempty).
    rewrite lex_go_number_blank, number_token_of_Z by done. simpl.
    by destruct (lex_go PNone r).
  - destruct (of_Z_spec n Hpos) as (_ & Hd & _).
    rewrite lex_go_numeral by (try done; by apply of_Z_nonneg_nonempty).
    by rewrite lex_go_number_blank, number_token_of_Z.
Qed.

Lemma lex_literal_end (n : Z) : lex_go PNone (of_Z n) = Ok (literal_tokens n).
Proof.
  unfold literal_tokens. destruct (Z.ltb_spec n 0) as [Hneg|Hpos].
  - rewrite of_Z_negative by done.
    assert (0 <= - n) as Hn by lia.
    destruct (of_Z_spec (- n) Hn) as (_ & Hd & _).
    change (lex_go PNone (String "-" (of_Z (- n))))
      with (bind (lex_go PNone (of_Z (- n))) (fun rest => Ok (TMinus :: rest))).
    rewrite <- (append_nil_r (of_Z (- n))).
    rewrite lex_go_numeral by (try done; by apply of_Z_nonneg_nonempty).
    by rewrite lex_go_number_end, number_token_of_Z.
  - destruct (of_Z_spec n Hpos) as (_ & Hd & _).
    rewrite <- (append_nil_r (of_Z n)).
    rewrite lex_go_numeral by (try done; by apply of_Z_nonneg_nonempty).
    by rewrite lex_go_number_end, number_token_of_Z.
Qed.

Lemma lex_quotient (a b : Z) :
  lex (of_Z a +:+ " // " +:+ of_Z b)
  = Ok (literal_tokens a ++ TFloorDiv :: literal_tokens b)%list.
Proof.
  unfold lex.
  change (" // " +:+ of_Z b)
    with (String " "%char (String "/"%char (String "/"%char (String " "%char (of_Z b))))).
  rewrite lex_literal_blank.
  change (lex_go PNone (String "/" (String "/" (String " " (of_Z b)))))
    with (bind (bind (lex_go PNone (of_Z b)) (fun rest => Ok rest))
               (fun rest => Ok (TFloorDiv :: rest))).
  by rewrite lex_literal_end.
Qed.

Lemma parse_quotient (a b : Z) :
  parse (literal_tokens a ++ TFloorDiv :: literal_tokens b)
  = Ok (EBin FloorDiv (literal a) (literal b)).
Proof.
  unfold literal_tokens, literal.
  destruct (a <? 0); destruct (b <? 0); reflexivity.
Qed.

Lemma eval_literal (st : state) (n : Z) : eval_ast st (literal n) = Ok (VInt n).
Proof.
  unfold literal. destruct (n <? 0); [|done]. simpl. by rewrite Z.opp_involutive.
Qed.

(** *** The text of a quotient *)

Lemma quotient_text_plain (a b : Z) :
  head_nonspace (quotient_text a b) = true
  /\ rstrip (quotient_text a b) = quotient_text a b
  /\ upper (quotient_text a b) = quotient_text a b
  /\ replace_slash (quotient_text a b) = of_Z a +:+ " // " +:+ of_Z b.
Proof.
  destruct (of_Z_plain a) as [Ha Hha]. destruct (of_Z_plain b) as [Hb Hhb].
  assert (of_Z b <> "") as Hne by (by destruct (of_Z b)).
  unfold quotient_text. split; [|split; [|split]].
  - destruct (of_Z a); [done|]. by rewrite append_cons.
  - rewrite rstrip_app_nonempty.
    + f_equal. rewrite rstrip_app_nonempty; by rewrite rstrip_plain.
    + rewrite rstrip_app_nonempty; rewrite rstrip_plain; done.
  - rewrite !upper_app, (upper_plain _ Ha), (upper_plain _ Hb). reflexivity.
  - rewrite !replace_slash_app, (replace_slash_plain _ Ha),
      (replace_slash_plain _ Hb).
    reflexivity.
Qed.

Lemma eval_quotient_text (st : state) (a b : Z) :
  b <> 0 -> eval_expression (quotient_text a b) st = Ok (a / b).
Proof.
  intros Hb. destruct (quotient_text_plain a b) as (Hh & Hr & Hu & Hs).
  unfold eval_expression. rewrite (strip_stripped _ Hh Hr), Hu.
  destruct (is_empty (quotient_text a b)) eqn:He.
  { apply is_empty_true in He. by rewrite He in Hh. }
  rewrite Hs. unfold host_eval. rewrite lex_quotient. simpl.
  rewrite parse_quotient. simpl. rewrite !eval_literal. simpl.
  by destruct (Z.eqb_spec b 0).
Qed.

Lemma split_maxsplit1_word (w x : string) :
  all_chars (fun c => negb (is_space c)) w = true -> w <> "" ->
  head_nonspace x = true ->
  split_maxsplit1 (w +:+ String " "%char x) = [w; x].
Proof.
  intros Hw Hne Hx. unfold split_maxsplit1.
  assert (head_nonspace (w +:+ String " "%char x) = true) as Hh.
  { destruct w as [|c w]; [done|]. rewrite append_cons. simpl in *.
    by apply andb_true_iff in Hw as [-> _]. }
  rewrite (lstrip_head_nonspace _ Hh).
  destruct (w +:+ String " "%char x) as [|c s] eqn:Hs; [done|]. rewrite <- Hs.
  rewrite span_app by done.
  change (lstrip (String " "%char x)) with (lstrip x).
  rewrite (lstrip_head_nonspace x Hx). by destruct x.
Qed.

Lemma split_command_print (x : string) :
  head_nonspace x = true -> rstrip x = x ->
  split_command ("PRINT " +:+ x) = Some ("PRINT", x).
Proof.
  intros Hh Hr. assert (x <> "") as Hne by (by destruct x).
  unfold split_command.
  assert (strip ("PRINT " +:+ x) = "PRINT " +:+ x) as ->.
  { unfold strip. change (lstrip ("PRINT " +:+ x)) with ("PRINT " +:+ x).
    rewrite rstrip_app_nonempty; by rewrite Hr. }
  change ("PRINT " +:+ x) with ("PRINT" +:+ String " "%char x).
  by rewrite split_maxsplit1_word.
Qed.

End LexFacts.

(** The quotient of any two integer literals, printed: [PRINT a / b]
    prints the floor of a/b, for every [a] and every [b] other than 0. *)
Lemma print_quotient (st : state) (fuel : nat) (a b : Z) :
  b <> 0 ->
  execute_statement (S fuel) ("PRINT " +:+ quotient_text a b) st
  = (Done, print (Line (Str.of_Z (a / b))) st).
Proof.
  intros Hb.
  destruct (LexFacts.quotient_text_plain a b) as (Hh & Hr & _).
  simpl. unfold dispatch. rewrite (LexFacts.split_command_print _ Hh Hr).
  simpl. unfold cmd_print. by rewrite (LexFacts.eval_quotient_text st a b Hb).
Qed.

(** C5: division is floor division.  For all integers [a] and [b], [b]
    not zero, [PRINT a / b] prints the integer [q] with [b*q <= a < b*q + b]
    when [b] is positive and [b*q + b < a <= b*q] when [b] is negative,
    that is, the quotient rounded toward negative infinity; [PRINT 7 / 2]
    prints 3 and [PRINT (-7) / 2] prints -4, in every state. *)
Theorem division_floors (st : state) (fuel : nat) (a b : Z) :
  b <> 0 ->
  (exists q,
      execute_statement (S fuel) ("PRINT " +:+ quotient_text a b) st
      = (Done, print (Line (Str.of_Z q)) st)
      /\ (0 < b -> b * q <= a < b * q + b)
      /\ (b < 0 -> b * q + b < a <= b * q))
  /\ execute_statement (S fuel) "PRINT 7 / 2" st = (Done, print (Line "3") st)
  /\ execute_statement (S fuel) "PRINT (-7) / 2" st = (Done, print (Line "-4") st).
Proof.
  intros Hb. split; [|split; reflexivity].
  exists (a / b). split; [by apply print_quotient|].
  by apply floor_div_bounds.
Qed.

Lemma division_floors_witness :
  exists q,
    execute_statement 1 "PRINT -7 / 2" (init ∅)
    = (Done, print (Line (Str.of_Z q)) (init ∅))
    /\ (0 < 2 -> 2 * q <= -7 < 2 * q + 2)
    /\ (2 < 0 -> 2 * q + 2 < -7 <= 2 * q).
Proof.
  assert (2 <> 0) as H by lia.
  exact (proj1 (division_floors (init ∅) 0 (-7) 2 H)).
Defined.

(** * Further properties of the code *)

(** ** Submitting numbered lines *)

Lemma span_all (p : ascii -> bool) (s : string) :
  Re.all_chars p s = true -> Str.span p s = (s, "").
Proof.
  induction s as [|c r IH]; [done|]. simpl.
  intros [Hc Hr]%andb_true_iff. by rewrite Hc, (IH Hr).
Qed.

Lemma strip_idem (s : string) : Str.strip (Str.strip s) = Str.strip s.
Proof.
  unfold Str.strip at 2 3. destruct (StrFacts.lstrip_cases s) as [->|Hh]; [done|].
  apply StrFacts.strip_stripped; [|apply StrFacts.rstrip_idem].
  by apply StrFacts.rstrip_head_nonspace.
Qed.

Lemma strip_numeral (n : Z) : Str.strip (Str.of_Z n) = Str.of_Z n.
Proof.
  destruct (LexFacts.of_Z_plain n) as [Hp Hh].
  apply StrFacts.strip_stripped; [done|]. by apply LexFacts.rstrip_plain.
Qed.

Lemma process_input_number (fuel : nat) (n : Z) (st : state) :
  0 <= n ->
  process_input fuel (Str.of_Z n) st = (Done, set_program (delete n (program st)) st).
Proof.
  intros Hn. destruct (StrFacts.of_Z_spec n Hn) as (Hv & Hd & Hh).
  unfold process_input, process_input_with. rewrite strip_numeral.
  destruct (Str.is_empty (Str.of_Z n)) eqn:He.
  { apply StrFacts.is_empty_true in He. by rewrite He in Hh. }
  unfold Re.match_numbered. rewrite (span_all _ _ Hd), He. simpl.
  by rewrite Hv.
Qed.

(** X1: a bare line number deletes that line and touches nothing else;
    when the line is not stored the interpreter state does not change. *)
Theorem delete_line (fuel : nat) (n : Z) (st : state) :
  0 <= n ->
  process_input fuel (Str.of_Z n) st
    = (Done, set_program (delete n (program st)) st)
  /\ program (snd (process_input fuel (Str.of_Z n) st)) !! n = None
  /\ (forall m, m <> n ->
        program (snd (process_input fuel (Str.of_Z n) st)) !! m = program st !! m)
  /\ (program st !! n = None -> process_input fuel (Str.of_Z n) st = (Done, st)).
Proof.
  intros Hn. rewrite (process_input_number fuel n st Hn). simpl.
  split; [done|]. split; [apply lookup_delete_eq|].
  split.
  - intros m Hm. by apply lookup_delete_ne.
  - intros Hnone. rewrite delete_id by done. by rewrite set_program_same.
Qed.

Lemma delete_line_witness :
  let st := typed ["10 PRINT 1"; "20 PRINT 2"] in
  program (snd (process_input 0 "20" st)) !! 20 = None
  /\ program (snd (process_input 0 "20" st)) !! 10 = Some "PRINT 1".
Proof.
  intros st. assert (0 <= 20) as H by lia.
  destruct (delete_line 0 20 st H) as (_ & Hgone & Hkeep & _).
  split; [exact Hgone|].
  assert (10 <> 20) as Hne by lia. exact (Hkeep 10 Hne).
Defined.

(** X2: a line number followed by a statement stores the statement under
    that number, replacing what was there and leaving the other lines
    alone; deleting the line afterwards gives back a store that did not
    have it. *)
Theorem store_line (fuel : nat) (n : Z) (code : string) (st : state) :
  0 <= n -> stored_code code ->
  let line := Str.of_Z n +:+ " " +:+ code in
  let st' := snd (process_input fuel line st) in
  process_input fuel line st = (Done, set_program (<[n := code]> (program st)) st)
  /\ program st' !! n = Some code
  /\ (forall m, m <> n -> program st' !! m = program st !! m)
  /\ (program st !! n = None ->
        process_input fuel (Str.of_Z n) st' = (Done, st)).
Proof.
  intros Hn Hc line st'.
  destruct (listing_is_numbered n code Hn Hc) as (Hs & He & Hm & Hsc & Hec).
  destruct (StrFacts.of_Z_spec n Hn) as (Hv & _).
  assert (process_input fuel line st
          = (Done, set_program (<[n := code]> (program st)) st)) as Heq.
  { unfold process_input, process_input_with, line.
    change (Str.of_Z n +:+ " " +:+ code) with (Str.of_Z n +:+ String " "%char code).
    assert (Str.strip (Str.of_Z n +:+ String " "%char code)
            = Str.of_Z n +:+ String " "%char code) as ->.
    { rewrite <- Hs. apply strip_idem. }
    by rewrite He, Hm, Hsc, Hec, Hv. }
  unfold st'. rewrite Heq. simpl. split; [done|].
  split; [apply lookup_insert_eq|]. split.
  - intros m Hne. by apply lookup_insert_ne.
  - intros Hnone.
    rewrite (process_input_number fuel n
               (set_program (<[n := code]> (program st)) st) Hn).
    f_equal. destruct st as [p v a r o f]. unfold set_program. simpl in *.
    by rewrite delete_insert_id.
Qed.

Lemma store_line_witness :
  let st := typed ["10 PRINT 1"] in
  program (snd (process_input 0 "20 GOTO 10" st)) !! 20 = Some "GOTO 10"
  /\ process_input 0 "20" (snd (process_input 0 "20 GOTO 10" st)) = (Done, st).
Proof.
  intros st. assert (0 <= 20) as H by lia.
  assert (stored_code "GOTO 10") as Hc by (repeat split).
  destruct (store_line 0 20 "GOTO 10" st H Hc) as (_ & Hin & _ & Hdel).
  split; [exact Hin|]. apply Hdel. reflexivity.
Defined.

(** ** The listing *)

Lemma sorted_lines_sorted (p : gmap Z string) :
  StronglySorted Z.lt (sorted_lines p).
Proof.
  assert (NoDup (sorted_lines p)) as Hnd.
  { unfold sorted_lines. rewrite merge_sort_Permutation.
    apply NoDup_fst_map_to_list. }
  assert (StronglySorted Z.le (sorted_lines p)) as Hs.
  { unfold sorted_lines. apply StronglySorted_merge_sort; apply _. }
  induction Hs as [|x l Hs IH Hall]; [constructor|].
  apply NoDup_cons in Hnd as [Hx Hnd]. constructor; [by apply IH|].
  apply Forall_forall. intros y Hy.
  assert (x <= y) by (by eapply Forall_forall in Hall).
  assert (x <> y) by (intros ->; done). lia.
Qed.

Lemma fold_left_print (ls : list out_line) (st : state) :
  output (fold_left (fun s l => print l s) ls st) = (output st ++ ls)%list.
Proof.
  revert st. induction ls as [|l ls IH]; intros st; simpl.
  - by rewrite app_nil_r.
  - rewrite IH. simpl. by rewrite <- app_assoc.
Qed.

Lemma fold_left_print_map (f : Z -> string) (l : list Z) (st : state) :
  fold_left (fun s n => print (Line (f n)) s) l st
  = fold_left (fun s x => print x s) (map (fun n => Line (f n)) l) st.
Proof. revert st. induction l as [|n l IH]; intros st; simpl; [done|]. apply IH. Qed.

(** X3: LIST prints one line per stored statement, the number, a blank
    and the statement, in strictly ascending order of the line numbers,
    whatever the order in which the lines were entered, and changes
    nothing but the output. *)
Theorem list_is_ascending (st : state) :
  output (snd (cmd_list st))
    = (output st ++ map (fun n => Line (listing_line (program st) n))
                        (sorted_lines (program st)))%list
  /\ StronglySorted Z.lt (sorted_lines (program st))
  /\ (forall n, n ∈ sorted_lines (program st) <-> is_Some (program st !! n))
  /\ program (snd (cmd_list st)) = program st
  /\ variables (snd (cmd_list st)) = variables st
  /\ arrays (snd (cmd_list st)) = arrays st.
Proof.
  split; [|split; [apply sorted_lines_sorted|split; [apply elem_of_sorted_lines|]]].
  - unfold cmd_list. simpl.
    by rewrite fold_left_print_map, fold_left_print.
  - unfold cmd_list. simpl.
    by destruct (cmd_list_state st (sorted_lines (program st)) (program st))
      as (-> & -> & -> & _).
Qed.

(** ** NEW *)

Lemma fresh_variables_lookup (c : ascii) :
  fresh_variables !! c = if Str.is_upper c then Some 0 else None.
Proof. destruct c as [[] [] [] [] [] [] [] []]; reflexivity. Qed.

(** X4: NEW empties the program store and the arrays and sets every
    variable to 0, whatever the state was: afterwards each letter reads 0.
    Output and files are kept. *)
Theorem new_resets (fuel : nat) (st : state) (L : ascii) :
  Str.is_upper L = true ->
  let st' := snd (execute_statement (S fuel) "NEW" st) in
  fst (execute_statement (S fuel) "NEW" st) = Done
  /\ program st' = ∅ /\ arrays st' = ∅
  /\ eval_expression (String L "") st' = Ok 0
  /\ output st' = output st /\ files st' = files st.
Proof.
  intros Hup st'. split; [done|]. split; [done|]. split; [done|].
  split; [|done].
  rewrite read_scalar_letter by done.
  change (variables st') with fresh_variables.
  by rewrite fresh_variables_lookup, Hup.
Qed.

Lemma new_resets_witness :
  let st := typed ["LET A = 5"; "DIM A(2)"; "10 PRINT A"] in
  eval_expression "A" (snd (execute_statement 1 "NEW" st)) = Ok 0.
Proof.
  intros st.
  exact (proj1 (proj2 (proj2 (proj2 (new_resets 0 st "A" eq_refl))))).
Defined.

(** ** The tables of variables and arrays *)

Lemma match_letter_upper (s : string) (c : ascii) :
  Re.match_letter s = Some c -> Str.is_upper c = true.
Proof.
  destruct s as [|a [|b r]]; simpl; try done.
  destruct (Str.is_upper a) eqn:Ha; [|done]. by intros [= <-].
Qed.

Lemma match_array_form_upper (s inner : string) (c : ascii) :
  Re.match_array_form s = Some (c, inner) -> Str.is_upper c = true.
Proof.
  unfold Re.match_array_form. destruct s as [|a [|b r]]; try done.
  destruct (Ascii.eqb_spec b "("%char) as [->|Hne].
  - destruct (Str.is_upper a) eqn:Ha; [|done].
    destruct (Re.split_last r) as [[i l]|]; [|done].
    destruct (Ascii.eqb_spec l ")"%char) as [->|Hl].
    + destruct (_ && _); [|done]. by intros [= <- _].
    + destruct l as [[] [] [] [] [] [] [] []]; done.
  - destruct b as [[] [] [] [] [] [] [] []]; done.
Qed.

Lemma env_wf_insert_variable (st : state) (c : ascii) (z : Z) :
  env_wf st -> Str.is_upper c = true ->
  env_wf (set_variables (<[c := z]> (variables st)) st).
Proof.
  intros [Hv Ha] Hc. split; [|done]. simpl. intros d.
  destruct (decide (c = d)) as [<-|Hne].
  - rewrite lookup_insert_eq. split; [done|eauto].
  - rewrite lookup_insert_ne by done. apply Hv.
Qed.

Lemma env_wf_insert_array (st : state) (c : ascii) (l : list Z) :
  env_wf st -> Str.is_upper c = true ->
  env_wf (set_arrays (<[c := l]> (arrays st)) st).
Proof.
  intros [Hv Ha] Hc. split; [done|]. simpl. intros d l'.
  intros [[<- _]|[_ Hl]]%lookup_insert_Some; [done|]. by eapply Ha.
Qed.

Lemma cmd_let_env_wf (arg : string) (st : state) :
  env_wf st -> env_wf (snd (cmd_let arg st)).
Proof.
  intros Hwf. unfold cmd_let.
  destruct (Str.split_first "=" arg) as [[var_part expr_part]|]; [|done].
  destruct (eval_expression expr_part st); [|done].
  destruct (Re.match_array_form _) as [[name idx_expr]|] eqn:Hm.
  - destruct (eval_expression idx_expr st) as [idx|]; [|done].
    destruct (arrays st !! name); [|done]. destruct (_ && _); [|done].
    apply env_wf_insert_array; [done|]. by eapply match_array_form_upper.
  - destruct (Re.match_letter _) as [c|] eqn:Hl; [|done].
    apply env_wf_insert_variable; [done|]. by eapply match_letter_upper.
Qed.

Lemma cmd_dim_env_wf (arg : string) (st : state) :
  env_wf st -> env_wf (snd (cmd_dim arg st)).
Proof.
  intros Hwf. unfold cmd_dim.
  destruct (Re.match_array_form _) as [[name size_expr]|] eqn:Hm; [|done].
  destruct (eval_expression size_expr st); [|done].
  apply env_wf_insert_array; [done|]. by eapply match_array_form_upper.
Qed.

Lemma env_wf_fresh (st : state) :
  env_wf (set_arrays ∅ (set_variables fresh_variables st)).
Proof.
  split; simpl.
  - intros c. rewrite fresh_variables_lookup.
    destruct (Str.is_upper c); split; intros H; try done; eauto;
      by destruct H.
  - intros c l Hl. by rewrite lookup_empty in Hl.
Qed.

Lemma env_wf_same (st st' : state) :
  variables st' = variables st -> arrays st' = arrays st ->
  env_wf st -> env_wf st'.
Proof. unfold env_wf. by intros -> ->. Qed.

Lemma process_input_with_env_wf (exec : string -> state -> outcome)
      (line : string) (st : state) :
  (forall stmt st0, env_wf st0 -> env_wf (snd (exec stmt st0))) ->
  env_wf st -> env_wf (snd (process_input_with exec line st)).
Proof.
  intros Hexec Hwf. unfold process_input_with.
  destruct (Str.is_empty (Str.strip line)); [done|].
  destruct (Re.match_numbered (Str.strip line)) as [[ds rest]|]; [|by apply Hexec].
  by destruct (negb _).
Qed.

Lemma load_lines_env_wf (exec : string -> state -> outcome)
      (lines : list string) (st : state) :
  (forall stmt st0, env_wf st0 -> env_wf (snd (exec stmt st0))) ->
  env_wf st -> env_wf (snd (load_lines exec lines st)).
Proof.
  intros Hexec. revert st. induction lines as [|l ls IH]; intros st Hwf; [done|].
  simpl. pose proof (process_input_with_env_wf exec l st Hexec Hwf) as H.
  destruct (process_input_with exec l st) as [[| e |] st']; simpl in *;
    [by apply IH|done|done].
Qed.

Lemma execute_statement_env_wf (fuel : nat) (stmt : string) (st : state) :
  env_wf st -> env_wf (snd (execute_statement fuel stmt st)).
Proof.
  revert stmt st. induction fuel as [|f IH]; intros stmt st Hwf; [done|].
  simpl. unfold dispatch.
  destruct (split_command stmt) as [[command arg]|]; [|done].
  destruct (String.eqb command "PRINT").
  { destruct (cmd_print_state arg st) as (_ & Hv & Ha & _). by eapply env_wf_same. }
  destruct (String.eqb command "LET"); [by apply cmd_let_env_wf|].
  destruct (String.eqb command "GOTO"); [done|].
  destruct (String.eqb command "IF"); [done|].
  destruct (String.eqb command "DIM"); [by apply cmd_dim_env_wf|].
  destruct (String.eqb command "END"); [done|].
  destruct (String.eqb command "RUN").
  { apply (execute_program_with_preserves env_wf (fun _ => True));
      [done|done| |done].
    intros stmt0 st0 _ Hwf0. by apply IH. }
  destruct (String.eqb command "LIST").
  { unfold cmd_list. simpl.
    destruct (cmd_list_state st (sorted_lines (program st)) (program st))
      as (_ & Hv & Ha & _).
    by eapply env_wf_same. }
  destruct (String.eqb command "NEW"); [apply env_wf_fresh|].
  destruct (String.eqb command "LOAD").
  { unfold cmd_load_with. destruct (Str.is_empty arg); [done|].
    destruct (files st !! arg) as [text|]; [|done].
    generalize (Str.universal_lines text). intros ls.
    pose proof (load_lines_env_wf (execute_statement f) ls (set_program ∅ st) IH Hwf)
      as H.
    by destruct (load_lines (execute_statement f) ls (set_program ∅ st))
      as [[| e |] st']. }
  destruct (String.eqb command "SAVE").
  { destruct (cmd_save_state arg st) as (_ & Hv & Ha). by eapply env_wf_same. }
  by destruct (String.eqb command "QUIT").
Qed.

(** X5: whatever is typed into a fresh interpreter, whatever the files
    hold and whichever of them can be written, the variable table binds
    exactly the letters A to Z and only those letters name arrays: the
    lookup of a letter that is not an array never misses. *)
Theorem session_env_wf (fuel : nat) (lines : list string)
        (fs : gmap string string) (ro : gset string) :
  env_wf (snd (session fuel lines (set_readonly ro (init fs)))).
Proof.
  assert (env_wf (set_readonly ro (init fs))) as Hinit.
  { split; simpl.
    - intros c. rewrite fresh_variables_lookup.
      destruct (Str.is_upper c); split; intros H; try done; eauto;
      by destruct H.
    - intros c l Hl. by rewrite lookup_empty in Hl. }
  revert Hinit. generalize (set_readonly ro (init fs)). clear fs ro.
  induction lines as [|l ls IH]; intros st Hwf; [done|]. simpl.
  destruct (running st); [|done]. unfold interactive_line, process_input.
  pose proof (process_input_with_env_wf (execute_statement fuel) l st
                (execute_statement_env_wf fuel) Hwf) as H.
  destruct (process_input_with (execute_statement fuel) l st) as [[| e |] st'];
    simpl in *; [by apply IH|by apply IH|done].
Qed.

(** ** Statements that fail *)

Lemma cmd_load_with_not_raised (exec : string -> state -> outcome)
      (filename : string) (st : state) (e : exn) :
  fst (cmd_load_with exec filename st) <> Raised e.
Proof.
  unfold cmd_load_with. destruct (Str.is_empty filename); [done|].
  destruct (files st !! filename); [|done].
  by destruct (load_lines _ _ _) as [[| e' |] st'].
Qed.

(** X6: a statement other than RUN that raises an exception leaves the
    interpreter exactly as it was: a failing PRINT, LET or DIM, and a GOTO
    or IF typed in direct mode, change no variable, array, stored line,
    file or output. *)
Theorem failed_statement_changes_nothing (fuel : nat) (stmt : string)
        (st st' : state) (e : exn) :
  command_of stmt <> "RUN" ->
  execute_statement fuel stmt st = (Raised e, st') ->
  st' = st.
Proof.
  intros Hrun. destruct fuel as [|f]; [done|]. simpl. unfold dispatch.
  unfold command_of in Hrun.
  destruct (split_command stmt) as [[command arg]|]; [|done].
  destruct (String.eqb command "PRINT").
  { unfold cmd_print. destruct (eval_expression arg st); [done|]. by intros [= _ <-]. }
  destruct (String.eqb command "LET").
  { unfold cmd_let.
    destruct (Str.split_first "=" arg) as [[var_part expr_part]|]; [|done].
    destruct (eval_expression expr_part st); [|by intros [= _ <-]].
    destruct (Re.match_array_form _) as [[name idx_expr]|].
    - destruct (eval_expression idx_expr st) as [idx|]; [|by intros [= _ <-]].
      destruct (arrays st !! name); [|by intros [= _ <-]].
      destruct (_ && _); [done|by intros [= _ <-]].
    - destruct (Re.match_letter _); [done|by intros [= _ <-]]. }
  destruct (String.eqb command "GOTO"); [by intros [= _ <-]|].
  destruct (String.eqb command "IF"); [by intros [= _ <-]|].
  destruct (String.eqb command "DIM").
  { unfold cmd_dim. destruct (Re.match_array_form _) as [[name size_expr]|];
      [|by intros [= _ <-]].
    destruct (eval_expression size_expr st); [done|by intros [= _ <-]]. }
  destruct (String.eqb command "END"); [done|].
  destruct (String.eqb_spec command "RUN") as [->|_]; [done|].
  destruct (String.eqb command "LIST"); [done|].
  destruct (String.eqb command "NEW"); [done|].
  destruct (String.eqb command "LOAD").
  { intros H. exfalso.
    apply (cmd_load_with_not_raised (execute_statement f) arg st e). by rewrite H. }
  destruct (String.eqb command "SAVE").
  { unfold cmd_save. destruct (Str.is_empty arg); [done|].
    by destruct (decide _). }
  by destruct (String.eqb command "QUIT").
Qed.

Lemma failed_statement_changes_nothing_witness :
  let st := typed ["DIM B(2)"; "10 PRINT 1"] in
  execute_statement 1 "LET B(3) = 1 / 0" st
    = (Raised (RuntimeError (ExpressionError "1 // 0" ZeroDivisionError)), st)
  /\ execute_statement 1 "LET B(3) = 1" st
     = (Raised (RuntimeError (ArrayIndexOutOfBounds "B" 3)), st).
Proof.
  intros st. split.
  - destruct (execute_statement 1 "LET B(3) = 1 / 0" st) as [s st'] eqn:H.
    assert (s = Raised (RuntimeError (ExpressionError "1 // 0" ZeroDivisionError)))
      as -> by (by injection H as <- _).
    f_equal. eapply failed_statement_changes_nothing; [|exact H]. discriminate.
  - reflexivity.
Defined.

(** ** Exceptions and the run *)

Lemma split_command_stored (code : string) :
  stored_code code -> is_Some (split_command code).
Proof.
  intros (Hh & Hr & _). unfold split_command.
  rewrite (StrFacts.strip_stripped code Hh Hr). unfold Str.split_maxsplit1.
  rewrite (StrFacts.lstrip_head_nonspace code Hh).
  destruct code as [|c r]; [done|].
  destruct (Str.span _ (String c r)) as [w r'].
  destruct (Str.lstrip r'); eauto.
Qed.

Lemma run_loop_not_raised (p : gmap Z string) (f : nat) :
  wf_program p -> store_safe p ->
  forall iters pc_idx st e,
    program st = p ->
    fst (run_loop (execute_statement f) iters (sorted_lines p) pc_idx st)
    <> Raised e.
Proof.
  intros Hwf Hsafe. induction iters as [|m IH]; intros pc_idx st e Hp; [done|].
  simpl. destruct (sorted_lines p !! pc_idx) as [line_num|] eqn:Hl; [|done].
  assert (line_num ∈ sorted_lines p) as Hin by (by eapply list_elem_of_lookup_2).
  apply elem_of_sorted_lines in Hin as [stmt Hstmt]. rewrite Hp, Hstmt.
  destruct (Hwf _ _ Hstmt) as [_ Hc].
  destruct (split_command_stored stmt Hc) as [[command arg] Hsc]. rewrite Hsc.
  assert (forall k target line st0,
             (forall idx, fst (k idx st0) <> Raised e) ->
             fst (jump k (sorted_lines p) target line st0) <> Raised e) as Hjump.
  { intros k target line st0 Hk. unfold jump.
    destruct (eval_expression target st0); [|done].
    destruct (index_of _ _); [apply Hk|done]. }
  destruct (String.eqb command "GOTO").
  { apply Hjump. intros idx. by apply IH. }
  destruct (String.eqb command "IF").
  { destruct (Re.match_if arg) as [[c t]|]; [|done].
    destruct (eval_condition c st) as [[|]|]; [|by apply IH|done].
    apply Hjump. intros idx. by apply IH. }
  destruct (String.eqb command "END"); [done|].
  pose proof (execute_statement_program p f Hsafe stmt st (Hsafe _ _ Hstmt) Hp)
    as Hp'.
  destruct (execute_statement f stmt st) as [[| e' |] st']; simpl in *;
    [by apply IH|done|done].
Qed.

(** X7: on a well-formed program store without a stored NEW or LOAD, a
    run never lets an exception out: every error of a stored statement is
    caught and reported, so the run ends normally (or is still running when
    the fuel is spent), from any start line and in direct-mode RUN. *)
Theorem run_never_raises (fuel : nat) (start_line : option Z) (st : state) (e : exn) :
  wf_program (program st) -> store_safe (program st) ->
  fst (execute_program fuel start_line st) <> Raised e
  /\ fst (execute_statement fuel "RUN" st) <> Raised e.
Proof.
  intros Hwf Hsafe.
  assert (forall f s, fst (execute_program_with (execute_statement f) f s st)
                      <> Raised e) as H.
  { intros f s. unfold execute_program_with.
    destruct (decide (program st = ∅)); [done|].
    destruct s as [k|]; [|by apply run_loop_not_raised].
    destruct (index_of k _); [by apply run_loop_not_raised|done]. }
  split; [apply H|]. destruct fuel as [|f]; [done|]. apply H.
Qed.

Lemma run_never_raises_witness :
  let st := typed ["10 PRINT 1 / 0"; "20 PRINT 2"] in
  fst (execute_statement 5 "RUN" st)
    <> Raised (RuntimeError (ExpressionError "1 // 0" ZeroDivisionError))
  /\ output (snd (execute_statement 5 "RUN" st))
     = [ErrorOnLine 10 (RuntimeError (ExpressionError "1 // 0" ZeroDivisionError))].
Proof.
  intros st. split; [|reflexivity].
  refine (proj2 (run_never_raises 5 None st _ (typed_wf _) _)).
  intros n code Hl.
  assert (n ∈ sorted_lines (program st)) as Hin
      by (apply elem_of_sorted_lines; eauto).
  vm_compute in Hin.
  repeat (apply elem_of_cons in Hin as [->|Hin];
          [vm_compute in Hl; by injection Hl as <-|]).
  by apply elem_of_nil in Hin.
Defined.

(** With a stored NEW the store is emptied under the running loop, and the
    lookup of the next line number escapes the run as a [KeyError]. *)
Lemma run_after_stored_new_raises :
  execute_statement 5 "RUN" (typed ["10 NEW"; "20 PRINT 1"])
  = (Raised (KeyError 20),
     set_arrays ∅ (set_variables fresh_variables
                     (set_program ∅ (typed ["10 NEW"; "20 PRINT 1"])))).
Proof. reflexivity. Qed.

(** ** Unknown commands *)

(** X8: a statement whose first word is not a known command is reported
    as "Unknown command: WORD" (the word in capitals) and nothing else
    happens; inside a run the loop goes on with the next line. *)
Theorem unknown_command_is_skipped (fuel m : nat) (lines : list Z) (pc_idx : nat)
        (line_num : Z) (stmt command arg : string) (st : state) :
  split_command stmt = Some (command, arg) ->
  known_command command = false ->
  lines !! pc_idx = Some line_num ->
  program st !! line_num = Some stmt ->
  execute_statement (S fuel) stmt st
    = (Done, print (Line ("Unknown command: " +:+ command)) st)
  /\ run_loop (execute_statement (S fuel)) (S m) lines pc_idx st
     = run_loop (execute_statement (S fuel)) m lines (S pc_idx)
                (print (Line ("Unknown command: " +:+ command)) st).
Proof.
  intros Hsc Hk Hl Hp. unfold known_command in Hk. simpl in Hk.
  repeat (apply orb_false_iff in Hk as [? Hk]).
  assert (execute_statement (S fuel) stmt st
          = (Done, print (Line ("Unknown command: " +:+ command)) st)) as Hexec.
  { simpl. unfold dispatch. rewrite Hsc.
    repeat match goal with
           | H : String.eqb command _ = false |- _ => rewrite H; clear H
           end.
    reflexivity. }
  split; [done|].
  rewrite (run_loop_step _ _ _ _ _ _ _ _ _ Hl Hp Hsc).
  assert (String.eqb command "GOTO" = false /\ String.eqb command "IF" = false
          /\ String.eqb command "END" = false) as (-> & -> & ->) by done.
  by rewrite Hexec.
Qed.

Lemma unknown_command_is_skipped_witness :
  let st := typed ["10 gosub 40"; "20 PRINT 2"] in
  output (snd (execute_statement 5 "RUN" st))
  = [Line "Unknown command: GOSUB"; Line "2"].
Proof.
  intros st.
  destruct (unknown_command_is_skipped 4 4 (sorted_lines (program st)) 0 10
              "gosub 40" "GOSUB" "40" st eq_refl eq_refl eq_refl eq_refl)
    as [_ Hrun].
  change (execute_statement 5 "RUN" st)
    with (run_loop (execute_statement 5) 5 (sorted_lines (program st)) 0 st).
  rewrite Hrun. reflexivity.
Defined.

(** ** LOAD *)

(** X9: LOAD replaces the program: when the file holds the text SAVE
    writes for a well-formed program [p] without carriage returns, LOAD
    ends normally with [p] as the program store, whatever was stored
    before, prints "Loaded" with the name, and leaves variables, arrays and
    files alone. *)
Theorem load_replaces_program (fuel : nat) (filename : string)
        (p : gmap Z string) (st : state) :
  wf_program p -> no_returns p -> filename <> "" ->
  files st !! filename = Some (Str.written (serialize_program p)) ->
  cmd_load fuel filename st
  = (Done, print (Line ("Loaded " +:+ filename)) (set_program p st)).
Proof.
  intros Hwf Hnr Hf Hfile. unfold cmd_load, cmd_load_with.
  destruct (Str.is_empty filename) eqn:He.
  { by apply StrFacts.is_empty_true in He. }
  rewrite Hfile, serialized_lines by done.
  by rewrite load_serialized.
Qed.

Lemma load_replaces_program_witness :
  let st := typed ["10 LET A = 1"; "20 PRINT A"; "SAVE f"; "NEW"; "5 END"] in
  program st = {[ 5 := "END" ]}
  /\ program (snd (cmd_load 0 "f" st))
     = program (typed ["10 LET A = 1"; "20 PRINT A"]).
Proof.
  intros st. split; [reflexivity|].
  assert ("f" <> "") as Hf by discriminate.
  assert (no_returns (program (typed ["10 LET A = 1"; "20 PRINT A"]))) as Hnr.
  { intros n code Hl.
    assert (n ∈ sorted_lines (program (typed ["10 LET A = 1"; "20 PRINT A"])))
      as Hin by (apply elem_of_sorted_lines; eauto).
    vm_compute in Hin.
    repeat (apply elem_of_cons in Hin as [->|Hin];
            [vm_compute in Hl; by injection Hl as <-|]).
    by apply elem_of_nil in Hin. }
  rewrite (load_replaces_program 0 "f"
             (program (typed ["10 LET A = 1"; "20 PRINT A"])) st
             (typed_wf _) Hnr Hf eq_refl).
  reflexivity.
Defined.

(** LOAD of a file that is not there reports it and keeps the program:
    the store is cleared only after the file was opened. *)
Lemma load_missing_file (fuel : nat) (filename : string) (st : state) :
  filename <> "" -> files st !! filename = None ->
  cmd_load fuel filename st
  = (Done, print (ErrorLoading (FileNotFoundError filename)) st).
Proof.
  intros Hf Hfile. unfold cmd_load, cmd_load_with.
  destruct (Str.is_empty filename) eqn:He.
  { by apply StrFacts.is_empty_true in He. }
  by rewrite Hfile.
Qed.

(** ** Numerals and array cells, as text *)

Module TextFacts.
Import Str StrFacts PyExpr LexFacts.

Lemma eval_expression_strip (s1 s2 : string) (st : state) :
  strip s1 = strip s2 -> eval_expression s1 st = eval_expression s2 st.
Proof. intros H. unfold eval_expression. by rewrite H. Qed.

Lemma strip_blank_l (x : string) : strip (String " "%char x) = strip x.
Proof. reflexivity. Qed.

Lemma strip_blank_r (x : string) :
  head_nonspace x = true -> strip (x +:+ String " "%char "") = strip x.
Proof.
  intros Hh. unfold strip. rewrite (lstrip_head_nonspace x Hh).
  rewrite lstrip_head_nonspace.
  - by apply rstrip_snoc_space.
  - destruct x; [done|]. by rewrite append_cons.
Qed.

Lemma parse_literal (n : Z) : parse (literal_tokens n) = Ok (literal n).
Proof. unfold literal_tokens, literal. destruct (n <? 0); reflexivity. Qed.

Lemma eval_numeral (st : state) (n : Z) : eval_expression (of_Z n) st = Ok n.
Proof.
  destruct (of_Z_plain n) as [Hp Hh].
  unfold eval_expression. rewrite strip_numeral, (upper_plain _ Hp).
  destruct (is_empty (of_Z n)) eqn:He.
  { apply is_empty_true in He. by rewrite He in Hh. }
  rewrite (replace_slash_plain _ Hp). unfold host_eval, lex.
  rewrite lex_literal_end. simpl. rewrite parse_literal. simpl.
  by rewrite eval_literal.
Qed.

Lemma eval_numeral_blank_l (st : state) (n : Z) :
  eval_expression (String " "%char (of_Z n)) st = Ok n.
Proof.
  rewrite (eval_expression_strip _ (of_Z n)); [apply eval_numeral|].
  apply strip_blank_l.
Qed.

Lemma eval_numeral_blank_r (st : state) (n : Z) :
  eval_expression (of_Z n +:+ String " "%char "") st = Ok n.
Proof.
  rewrite (eval_expression_strip _ (of_Z n)); [apply eval_numeral|].
  apply strip_blank_r. apply of_Z_plain.
Qed.

(** *** Classes of the capital letters *)

Lemma upper_classes (c : ascii) :
  is_upper c = true ->
  plain c = true /\ is_digit c = false /\ is_ident_start c = true
  /\ not_newline c = true /\ Ascii.eqb c "="%char = false.
Proof.
  intros H. pattern c. revert c H. apply upper_cases; by vm_compute.
Qed.

Lemma plain_not_newline (c : ascii) : plain c = true -> not_newline c = true.
Proof.
  destruct c as [[] [] [] [] [] [] [] []]; intros H; vm_compute in H;
    try discriminate H; reflexivity.
Qed.

(** *** The text of a cell *)

Lemma cell_text_plain (L : ascii) (i : Z) :
  is_upper L = true ->
  all_chars plain (cell_text L i) = true
  /\ head_nonspace (cell_text L i) = true
  /\ strip (cell_text L i) = cell_text L i
  /\ upper (cell_text L i) = cell_text L i
  /\ replace_slash (cell_text L i) = cell_text L i.
Proof.
  intros HL. destruct (upper_classes L HL) as (Hp & _).
  destruct (of_Z_plain i) as [Hi _].
  assert (all_chars plain (cell_text L i) = true) as Hall.
  { unfold cell_text. simpl. rewrite Hp. simpl.
    change ("(" +:+ of_Z i +:+ ")") with (String "("%char (of_Z i +:+ ")")).
    rewrite append_nil_l, all_chars_app, Hi. reflexivity. }
  assert (head_nonspace (cell_text L i) = true) as Hh.
  { unfold cell_text. simpl. by destruct (plain_spec L Hp) as (-> & _). }
  split; [done|]. split; [done|]. split; [|split].
  - apply strip_stripped; [done|]. by apply rstrip_plain.
  - by apply upper_plain.
  - by apply replace_slash_plain.
Qed.

Lemma lex_go_number_rparen (D r : string) :
  lex_go (PNum D) (String ")"%char r)
  = bind (number_token D)
         (fun t => bind (lex_go PNone r) (fun rest => Ok (t :: TRParen :: rest))).
Proof.
  simpl. destruct (number_token D); [|done]. simpl.
  by destruct (lex_go PNone r).
Qed.

Lemma lex_literal_rparen (n : Z) (r : string) :
  lex_go PNone (of_Z n +:+ String ")"%char r)
  = bind (lex_go PNone r)
         (fun rest => Ok (literal_tokens n ++ TRParen :: rest)%list).
Proof.
  unfold literal_tokens. destruct (Z.ltb_spec n 0) as [Hneg|Hpos].
  - rewrite of_Z_negative by done. rewrite append_cons.
    assert (0 <= - n) as Hn by lia.
    destruct (of_Z_spec (- n) Hn) as (_ & Hd & _).
    change (lex_go PNone (String "-" (of_Z (- n) +:+ String ")" r)))
      with (bind (lex_go PNone (of_Z (- n) +:+ String ")" r))
                 (fun rest => Ok (TMinus :: rest))).
    rewrite lex_go_numeral by (try done; by apply of_Z_nonneg_nonempty).
    rewrite lex_go_number_rparen, number_token_of_Z by done. simpl.
    by destruct (lex_go PNone r).
  - destruct (of_Z_spec n Hpos) as (_ & Hd & _).
    rewrite lex_go_numeral by (try done; by apply of_Z_nonneg_nonempty).
    by rewrite lex_go_number_rparen, number_token_of_Z.
Qed.

Lemma lex_name_call (L : ascii) (r : string) :
  is_upper L = true ->
  lex_go PNone (String L (String "("%char r))
  = bind (lex_go PNone r)
         (fun rest => Ok (TName (String L "") :: TLParen :: rest)).
Proof.
  intros HL. pattern L. revert L HL. apply upper_cases;
    simpl; by destruct (lex_go PNone r).
Qed.

Lemma lex_cell (L : ascii) (i : Z) :
  is_upper L = true ->
  lex (cell_text L i)
  = Ok (TName (String L "") :: TLParen :: literal_tokens i ++ [TRParen])%list.
Proof.
  intros HL. unfold lex, cell_text.
  change ("(" +:+ of_Z i +:+ ")") with (String "("%char (of_Z i +:+ String ")"%char "")).
  rewrite lex_name_call by done. by rewrite lex_literal_rparen.
Qed.

Lemma parse_cell (L : ascii) (i : Z) :
  parse (TName (String L "") :: TLParen :: literal_tokens i ++ [TRParen])
  = Ok (ECall (EName (String L "")) (literal i)).
Proof. unfold literal_tokens, literal. destruct (i <? 0); reflexivity. Qed.

Lemma host_eval_cell (st : state) (L : ascii) (i : Z) :
  is_upper L = true ->
  host_eval st (cell_text L i)
  = match arrays st !! L with
    | Some l =>
        match py_index l i with
        | Some v => Ok v
        | None => Err (IndexOutOfBoundsFor L)
        end
    | None => Err TypeError
    end.
Proof.
  intros HL. unfold host_eval. rewrite lex_cell by done. simpl.
  rewrite parse_cell. simpl. rewrite HL, eval_literal.
  destruct (arrays st !! L) as [l|] eqn:Hl; simpl; [|done].
  rewrite Hl. by destruct (py_index l i).
Qed.

Lemma eval_cell (st : state) (L : ascii) (i : Z) :
  is_upper L = true ->
  eval_expression (cell_text L i) st
  = match host_eval st (cell_text L i) with
    | Ok z => Ok z
    | Err e => Err (RuntimeError (ExpressionError (cell_text L i) e))
    end.
Proof.
  intros HL. destruct (cell_text_plain L i HL) as (_ & Hh & Hs & Hu & Hr).
  unfold eval_expression. rewrite Hs, Hu.
  destruct (is_empty (cell_text L i)) eqn:He; [done|]. by rewrite Hr.
Qed.

Lemma split_last_snoc (s : string) (c : ascii) :
  Re.split_last (s +:+ String c "") = Some (s, c).
Proof.
  induction s as [|a s IH]; [done|]. rewrite append_cons. simpl. by rewrite IH.
Qed.

Lemma match_array_form_cell (L : ascii) (i : Z) :
  is_upper L = true ->
  Re.match_array_form (cell_text L i) = Some (L, of_Z i).
Proof.
  intros HL. destruct (of_Z_plain i) as [Hp Hh]. unfold cell_text.
  change ("(" +:+ of_Z i +:+ ")") with (String "("%char (of_Z i +:+ String ")"%char "")).
  unfold Re.match_array_form. rewrite HL, split_last_snoc.
  destruct (is_empty (of_Z i)) eqn:He.
  { apply is_empty_true in He. by rewrite He in Hh. }
  simpl. by rewrite (all_chars_impl plain not_newline _ plain_not_newline Hp).
Qed.

Lemma py_index_spec (l : list Z) (i : Z) :
  (- Z.of_nat (length l) <= i < Z.of_nat (length l) ->
   py_index l i = l !! Z.to_nat (i mod Z.of_nat (length l))
   /\ is_Some (py_index l i))
  /\ (i < - Z.of_nat (length l) \/ Z.of_nat (length l) <= i ->
      py_index l i = None).
Proof.
  split; [|apply py_index_outside]. intros Hi.
  assert (py_index l i = l !! Z.to_nat (i mod Z.of_nat (length l))) as Heq.
  { destruct (Z.lt_ge_cases i 0) as [Hneg|Hpos].
    - rewrite py_index_negative by lia. f_equal. f_equal.
      apply Z.mod_unique with (q := -1); lia.
    - rewrite py_index_in_range by lia. by rewrite Z.mod_small by lia. }
  split; [done|]. rewrite Heq. apply lookup_lt_is_Some_2.
  pose proof (Z.mod_pos_bound i (Z.of_nat (length l))). lia.
Qed.

End TextFacts.

(** X10: the numeral of an integer evaluates to that integer, so that
    PRINT of a numeral prints the numeral back, negative ones included. *)
Theorem numeral_round_trip (st : state) (fuel : nat) (n : Z) :
  eval_expression (Str.of_Z n) st = Ok n
  /\ execute_statement (S fuel) ("PRINT " +:+ Str.of_Z n) st
     = (Done, print (Line (Str.of_Z n)) st).
Proof.
  split; [apply TextFacts.eval_numeral|].
  destruct (LexFacts.of_Z_plain n) as [Hp Hh].
  simpl. unfold dispatch.
  rewrite (LexFacts.split_command_print _ Hh (LexFacts.rstrip_plain _ Hp)).
  simpl. unfold cmd_print. by rewrite TextFacts.eval_numeral.
Qed.

(** X11: division by zero is an error for every dividend: [PRINT a / 0]
    raises the expression error with the host's [ZeroDivisionError], shows
    the expression with its slash doubled, prints nothing and changes
    nothing. *)
Theorem division_by_zero (st : state) (fuel : nat) (a : Z) :
  execute_statement (S fuel) ("PRINT " +:+ quotient_text a 0) st
  = (Raised (RuntimeError
               (ExpressionError (Str.of_Z a +:+ " // 0") ZeroDivisionError)), st).
Proof.
  destruct (LexFacts.quotient_text_plain a 0) as (Hh & Hr & Hu & Hs).
  simpl. unfold dispatch. rewrite (LexFacts.split_command_print _ Hh Hr).
  simpl. unfold cmd_print, eval_expression.
  rewrite (StrFacts.strip_stripped _ Hh Hr), Hu.
  destruct (Str.is_empty (quotient_text a 0)) eqn:He.
  { apply StrFacts.is_empty_true in He. by rewrite He in Hh. }
  rewrite Hs. unfold host_eval. rewrite LexFacts.lex_quotient. simpl.
  rewrite LexFacts.parse_quotient. simpl. rewrite !LexFacts.eval_literal.
  reflexivity.
Qed.

(** X12: what reading a cell does, for every letter, array and index.
    When [L] names an array of length [len], [L(i)] evaluates to the
    element at [i mod len] for every [i] with [-len <= i < len] (so the
    indices below zero read from the end) and fails with the "Index out of
    bounds" error for every other [i]; when [L] names no array it fails
    with the host's type error, an integer being called. *)
Theorem cell_read (st : state) (L : ascii) (i : Z) :
  Str.is_upper L = true ->
  (forall l, arrays st !! L = Some l ->
     (- Z.of_nat (length l) <= i < Z.of_nat (length l) ->
      exists v, l !! Z.to_nat (i mod Z.of_nat (length l)) = Some v
                /\ eval_expression (cell_text L i) st = Ok v)
     /\ (i < - Z.of_nat (length l) \/ Z.of_nat (length l) <= i ->
         eval_expression (cell_text L i) st
         = Err (RuntimeError (ExpressionError (cell_text L i)
                                              (IndexOutOfBoundsFor L)))))
  /\ (arrays st !! L = None ->
      eval_expression (cell_text L i) st
      = Err (RuntimeError (ExpressionError (cell_text L i) TypeError))).
Proof.
  intros HL. rewrite TextFacts.eval_cell, TextFacts.host_eval_cell by done.
  split.
  - intros l Hl. rewrite Hl.
    destruct (TextFacts.py_index_spec l i) as [Hin Hout]. split.
    + intros Hi. destruct (Hin Hi) as [Heq [v Hv]]. exists v.
      rewrite <- Heq. by rewrite Hv.
    + intros Hi. by rewrite (Hout Hi).
  - by intros ->.
Qed.

Lemma cell_read_witness :
  let st := typed ["DIM B(2)"; "LET B(2) = 9"; "LET B(0) = 4"] in
  eval_expression "B(-1)" st = Ok 9
  /\ eval_expression "B(-3)" st = Ok 4
  /\ eval_expression "C(0)" st
     = Err (RuntimeError (ExpressionError "C(0)" TypeError)).
Proof.
  intros st.
  destruct (cell_read st "B" (-1) eq_refl) as [Hb _].
  destruct (Hb [4; 0; 9] eq_refl) as [Hin _].
  assert (- Z.of_nat (length [4; 0; 9]) <= -1 < Z.of_nat (length [4; 0; 9]))
    as Hr by (simpl; lia).
  destruct (Hin Hr) as (v & Hv & He).
  injection Hv as <-.
  split; [exact He|]. split; [reflexivity|].
  exact (proj2 (cell_read st "C" 0 eq_refl) eq_refl).
Defined.

(** ** Writing and reading variables and cells *)

Module WriteFacts.
Import Str StrFacts PyExpr LexFacts TextFacts.

Lemma split_first_skip (c0 : ascii) (sep' a s : string) :
  all_chars (fun x => negb (Ascii.eqb c0 x)) a = true ->
  split_first (String c0 sep') (a +:+ s)
  = match split_first (String c0 sep') s with
    | Some (x, y) => Some (a +:+ x, y)
    | None => None
    end.
Proof.
  intros Ha. induction a as [|x a IH].
  - rewrite append_nil_l. by destruct (split_first _ s) as [[? ?]|].
  - simpl in Ha. apply andb_true_iff in Ha as [Hx Ha].
    apply negb_true_iff in Hx. rewrite append_cons.
    change (split_first (String c0 sep') (String x (a +:+ s)))
      with (if Ascii.eqb c0 x && starts_with sep' (a +:+ s)
            then Some ("", drop (String.length (String c0 sep')) (String x (a +:+ s)))
            else match split_first (String c0 sep') (a +:+ s) with
                 | Some (u, w) => Some (String x u, w)
                 | None => None
                 end).
    rewrite Hx, (IH Ha). simpl.
    by destruct (split_first (String c0 sep') s) as [[? ?]|].
Qed.

Lemma split_first_absent (c0 : ascii) (sep' s : string) :
  all_chars (fun x => negb (Ascii.eqb c0 x)) s = true ->
  split_first (String c0 sep') s = None.
Proof.
  intros Hs. rewrite <- (append_nil_r s). by rewrite split_first_skip.
Qed.

Lemma no_relation_spec (c : ascii) :
  no_relation c = true ->
  negb (Ascii.eqb "="%char c) = true /\ negb (Ascii.eqb "<"%char c) = true
  /\ negb (Ascii.eqb ">"%char c) = true.
Proof.
  destruct c as [[] [] [] [] [] [] [] []]; intros H; vm_compute in H;
    try discriminate H; by vm_compute.
Qed.

Lemma digit_no_relation (c : ascii) : is_digit c = true -> no_relation c = true.
Proof.
  destruct c as [[] [] [] [] [] [] [] []]; intros H; vm_compute in H;
    try discriminate H; reflexivity.
Qed.

Lemma of_Z_no_relation (n : Z) : all_chars no_relation (of_Z n) = true.
Proof.
  destruct (Z.lt_ge_cases n 0) as [Hneg|Hpos].
  - rewrite of_Z_negative by done.
    destruct (of_Z_spec (- n)) as (_ & Hd & _); [lia|].
    simpl. apply (all_chars_impl is_digit); [apply digit_no_relation|done].
  - destruct (of_Z_spec n Hpos) as (_ & Hd & _).
    apply (all_chars_impl is_digit); [apply digit_no_relation|done].
Qed.

Lemma upper_no_relation (L : ascii) : is_upper L = true -> no_relation L = true.
Proof. intros H. pattern L. revert L H. apply upper_cases; reflexivity. Qed.

Lemma cell_text_no_relation (L : ascii) (i : Z) :
  is_upper L = true -> all_chars no_relation (cell_text L i) = true.
Proof.
  intros HL. unfold cell_text. simpl. rewrite (upper_no_relation L HL). simpl.
  rewrite append_nil_l, all_chars_app, of_Z_no_relation. reflexivity.
Qed.

Lemma no_relation_eq (s : string) :
  all_chars no_relation s = true ->
  all_chars (fun x => negb (Ascii.eqb "="%char x)) s = true.
Proof. apply all_chars_impl. intros c Hc. by destruct (no_relation_spec c Hc). Qed.

Lemma no_relation_lt (s : string) :
  all_chars no_relation s = true ->
  all_chars (fun x => negb (Ascii.eqb "<"%char x)) s = true.
Proof.
  apply all_chars_impl. intros c Hc. by destruct (no_relation_spec c Hc) as (_ & ? & _).
Qed.

Lemma no_relation_gt (s : string) :
  all_chars no_relation s = true ->
  all_chars (fun x => negb (Ascii.eqb ">"%char x)) s = true.
Proof.
  apply all_chars_impl. intros c Hc. by destruct (no_relation_spec c Hc) as (_ & _ & ?).
Qed.

(** *** Statements made of a word and an argument *)

Lemma split_command_word (w x : string) :
  all_chars (fun c => negb (is_space c)) w = true -> w <> "" ->
  head_nonspace x = true -> rstrip x = x ->
  split_command (w +:+ String " "%char x) = Some (upper w, x).
Proof.
  intros Hw Hne Hh Hr. assert (x <> "") as Hx by (by destruct x).
  unfold split_command.
  assert (strip (w +:+ String " "%char x) = w +:+ String " "%char x) as ->.
  { apply strip_stripped.
    - destruct w as [|c w]; [done|]. rewrite append_cons. simpl in *.
      by apply andb_true_iff in Hw as [-> _].
    - rewrite rstrip_app_nonempty.
      + f_equal. change (String " "%char x) with (String " "%char "" +:+ x).
        rewrite rstrip_app_nonempty; by rewrite Hr.
      + change (String " "%char x) with (String " "%char "" +:+ x).
        rewrite rstrip_app_nonempty; rewrite Hr; [|done]. by destruct x. }
  by rewrite split_maxsplit1_word.
Qed.

(** *** DIM *)

Lemma cmd_dim_cell (st : state) (L : ascii) (n : Z) :
  is_upper L = true ->
  cmd_dim (cell_text L n) st
  = ret (set_arrays (<[L := replicate (Z.to_nat (n + 1)) 0]> (arrays st)) st).
Proof.
  intros HL. destruct (cell_text_plain L n HL) as (_ & _ & Hs & Hu & _).
  unfold cmd_dim. rewrite Hs, Hu, match_array_form_cell by done.
  by rewrite eval_numeral.
Qed.

Lemma cell_text_stripped (L : ascii) (i : Z) :
  is_upper L = true ->
  head_nonspace (cell_text L i) = true /\ rstrip (cell_text L i) = cell_text L i.
Proof.
  intros HL. destruct (cell_text_plain L i HL) as (Hp & Hh & _).
  split; [done|]. by apply rstrip_plain.
Qed.

(** *** LET *)

Lemma cmd_let_cell (st : state) (L : ascii) (i v : Z) :
  is_upper L = true ->
  cmd_let (cell_text L i +:+ " = " +:+ of_Z v) st
  = match arrays st !! L with
    | Some l =>
        if (0 <=? i) && (i <? Z.of_nat (length l))
        then ret (set_arrays (<[L := <[Z.to_nat i := v]> l]> (arrays st)) st)
        else raise (RuntimeError (ArrayIndexOutOfBounds L i)) st
    | None => raise (RuntimeError (ArrayNotDefined L)) st
    end.
Proof.
  intros HL. destruct (cell_text_plain L i HL) as (_ & Hh & Hs & Hu & _).
  unfold cmd_let.
  assert (split_first "=" (cell_text L i +:+ " = " +:+ of_Z v)
          = Some (cell_text L i +:+ String " "%char "", String " "%char (of_Z v)))
    as ->.
  { change (cell_text L i +:+ " = " +:+ of_Z v)
      with (cell_text L i +:+ (String " "%char "" +:+ String "="%char (String " "%char (of_Z v)))).
    rewrite <- append_assoc. rewrite split_first_skip.
    - change (split_first "=" (String "="%char (String " "%char (of_Z v))))
        with (Some ("", String " "%char (of_Z v))).
      cbv beta iota. by rewrite append_nil_r.
    - rewrite all_chars_app. rewrite (no_relation_eq _ (cell_text_no_relation L i HL)).
      reflexivity. }
  rewrite eval_numeral_blank_l.
  rewrite (strip_blank_r _ Hh), Hs, Hu, match_array_form_cell by done.
  by rewrite eval_numeral.
Qed.

End WriteFacts.

(** X13: DIM makes a fresh array of zeros one longer than its argument,
    whatever the letter held before.  After [DIM L(n)] every cell from 0 to
    [n] reads 0; with a negative [n] the statement still succeeds, the array
    is empty, and every read of a cell fails.  Variables are left alone. *)
Theorem dim_fresh_array (st : state) (fuel : nat) (L : ascii) (n : Z) :
  Str.is_upper L = true ->
  let st' := set_arrays (<[L := replicate (Z.to_nat (n + 1)) 0]> (arrays st)) st in
  execute_statement (S fuel) ("DIM " +:+ cell_text L n) st = (Done, st')
  /\ (forall i, 0 <= i <= n -> eval_expression (cell_text L i) st' = Ok 0)
  /\ (n < 0 -> forall i,
        eval_expression (cell_text L i) st'
        = Err (RuntimeError (ExpressionError (cell_text L i)
                                             (IndexOutOfBoundsFor L)))).
Proof.
  intros HL st'.
  destruct (WriteFacts.cell_text_stripped L n HL) as [Hh Hr].
  assert (arrays st' !! L = Some (replicate (Z.to_nat (n + 1)) 0)) as Harr
      by apply lookup_insert_eq.
  split; [|split].
  - simpl. unfold dispatch.
    change ("DIM " +:+ cell_text L n) with ("DIM" +:+ String " "%char (cell_text L n)).
    rewrite WriteFacts.split_command_word by done. simpl.
    by rewrite WriteFacts.cmd_dim_cell.
  - intros i Hi. rewrite TextFacts.eval_cell, TextFacts.host_eval_cell by done.
    rewrite Harr, py_index_in_range by (rewrite length_replicate; lia).
    by rewrite lookup_replicate_2 by lia.
  - intros Hn i. rewrite TextFacts.eval_cell, TextFacts.host_eval_cell by done.
    rewrite Harr, py_index_outside; [done|]. rewrite length_replicate. lia.
Qed.

Lemma dim_fresh_array_witness :
  let st := typed ["DIM A(1)"; "LET A(1) = 7"] in
  arrays st !! "A"%char = Some [0; 7]
  /\ arrays (snd (execute_statement 1 "DIM A(3)" st)) !! "A"%char = Some [0; 0; 0; 0].
Proof.
  intros st. split; [reflexivity|].
  change (execute_statement 1 "DIM A(3)" st)
    with (execute_statement 1 ("DIM " +:+ cell_text "A" 3) st).
  rewrite (proj1 (dim_fresh_array st 0 "A" 3 eq_refl)). reflexivity.
Defined.

(** X14: a write to a cell inside the array is read back and disturbs
    nothing else.  When [L] names an array and [0 <= i < len],
    [LET L(i) = v] ends normally, [L(i)] then reads [v], every other cell
    [0 <= j < len] reads what it did, and the variables are as before. *)
Theorem cell_write_read (st : state) (fuel : nat) (L : ascii) (i v : Z) (l : list Z) :
  Str.is_upper L = true ->
  arrays st !! L = Some l ->
  0 <= i < Z.of_nat (length l) ->
  let st' := set_arrays (<[L := <[Z.to_nat i := v]> l]> (arrays st)) st in
  execute_statement (S fuel) ("LET " +:+ cell_text L i +:+ " = " +:+ Str.of_Z v) st
    = (Done, st')
  /\ eval_expression (cell_text L i) st' = Ok v
  /\ (forall j, 0 <= j < Z.of_nat (length l) -> j <> i ->
        eval_expression (cell_text L j) st' = eval_expression (cell_text L j) st)
  /\ variables st' = variables st.
Proof.
  intros HL Hl Hi st'.
  assert (arrays st' !! L = Some (<[Z.to_nat i := v]> l)) as Harr
      by apply lookup_insert_eq.
  split; [|split; [|split; [|done]]].
  - destruct (WriteFacts.cell_text_stripped L i HL) as [Hh Hr].
    destruct (LexFacts.of_Z_plain v) as [Hvp Hvh].
    simpl. unfold dispatch.
    change ("LET " +:+ cell_text L i +:+ " = " +:+ Str.of_Z v)
      with ("LET" +:+ String " "%char (cell_text L i +:+ " = " +:+ Str.of_Z v)).
    rewrite WriteFacts.split_command_word.
    + simpl. rewrite WriteFacts.cmd_let_cell, Hl by done.
      destruct (Z.leb_spec 0 i); [|lia].
      destruct (Z.ltb_spec i (Z.of_nat (length l))); [|lia]. done.
    + done.
    + done.
    + unfold cell_text. simpl. by destruct (proj1 (TextFacts.upper_classes L HL)).
    + assert (Str.of_Z v <> "") as Hvne by (by destruct (Str.of_Z v)).
      assert (Str.rstrip (" = " +:+ Str.of_Z v) = " = " +:+ Str.of_Z v) as Hrv.
      { rewrite StrFacts.rstrip_app_nonempty;
          by rewrite (LexFacts.rstrip_plain _ Hvp). }
      rewrite StrFacts.rstrip_app_nonempty; rewrite Hrv; [done|].
      intros [? _]%StrFacts.append_eq_nil. done.
  - rewrite TextFacts.eval_cell, TextFacts.host_eval_cell by done.
    rewrite Harr, py_index_in_range by (rewrite length_insert; lia).
    by rewrite list_lookup_insert_eq by lia.
  - intros j Hj Hne.
    rewrite !TextFacts.eval_cell, !TextFacts.host_eval_cell by done.
    rewrite Harr, Hl.
    rewrite !py_index_in_range by (rewrite ?length_insert; lia).
    rewrite list_lookup_insert_ne by lia. done.
Qed.

Lemma cell_write_read_witness :
  let st := typed ["DIM B(2)"] in
  eval_expression "B(2)" (snd (execute_statement 1 "LET B(2) = 9" st)) = Ok 9.
Proof.
  intros st.
  assert (0 <= 2 < Z.of_nat (length [0; 0; 0])) as Hi by (simpl; lia).
  destruct (cell_write_read st 0 "B" 2 9 [0; 0; 0] eq_refl eq_refl Hi)
    as (Hrun & Hread & _).
  change (execute_statement 1 "LET B(2) = 9" st)
    with (execute_statement 1 ("LET " +:+ cell_text "B" 2 +:+ " = " +:+ Str.of_Z 9) st).
  rewrite Hrun. exact Hread.
Defined.

(** X15: a write to a cell is checked against both ends of the array.
    When [L] names an array, [LET L(i) = v] with [i] negative or [i] not
    below the length raises "Array index out of bounds" with the letter and
    the index (a negative index is refused here, though a read accepts it);
    when [L] names no array it raises "Array not defined".  Either way the
    state is unchanged. *)
Theorem cell_write_checked (st : state) (L : ascii) (i v : Z) :
  Str.is_upper L = true ->
  (forall l, arrays st !! L = Some l ->
             i < 0 \/ Z.of_nat (length l) <= i ->
             cmd_let (cell_text L i +:+ " = " +:+ Str.of_Z v) st
             = (Raised (RuntimeError (ArrayIndexOutOfBounds L i)), st))
  /\ (arrays st !! L = None ->
      cmd_let (cell_text L i +:+ " = " +:+ Str.of_Z v) st
      = (Raised (RuntimeError (ArrayNotDefined L)), st)).
Proof.
  intros HL. rewrite WriteFacts.cmd_let_cell by done. split.
  - intros l -> Hi.
    destruct (Z.leb_spec 0 i); destruct (Z.ltb_spec i (Z.of_nat (length l)));
      simpl; try done; lia.
  - by intros ->.
Qed.

Lemma cell_write_checked_witness :
  let st := typed ["DIM B(2)"; "LET B(2) = 9"] in
  cmd_let "B(-1) = 5" st = (Raised (RuntimeError (ArrayIndexOutOfBounds "B" (-1))), st)
  /\ eval_expression "B(-1)" st = Ok 9.
Proof.
  intros st. split; [|reflexivity].
  assert (-1 < 0 \/ Z.of_nat (length [0; 0; 9]) <= -1) as Hi by (left; lia).
  exact (proj1 (cell_write_checked st "B" (-1) 5 eq_refl) [0; 0; 9] eq_refl Hi).
Defined.

(** X16: a write to a variable is read back and disturbs no other letter.
    For a letter [L] and an expression text that evaluates to [v],
    [LET L = text] ends normally with [v] stored under [L]; if [L] is not
    an array, [L] then reads [v]; every other letter reads what it did. *)
Theorem scalar_write_read (st : state) (L : ascii) (x : string) (v : Z) :
  Str.is_upper L = true ->
  eval_expression x st = Ok v ->
  let st' := set_variables (<[L := v]> (variables st)) st in
  cmd_let (String L " = " +:+ x) st = (Done, st')
  /\ (arrays st !! L = None -> eval_expression (String L "") st' = Ok v)
  /\ (forall M, Str.is_upper M = true -> M <> L ->
        eval_expression (String M "") st' = eval_expression (String M "") st).
Proof.
  intros HL Hx st'. split; [|split].
  - assert (cmd_let (String L " = " +:+ x) st
            = match eval_expression (String " "%char x) st with
              | Err e => raise e st
              | Ok val => ret (set_variables (<[L := val]> (variables st)) st)
              end) as ->.
    { pattern L. revert L HL st'. apply upper_cases; reflexivity. }
    rewrite (TextFacts.eval_expression_strip _ x) by apply TextFacts.strip_blank_l.
    by rewrite Hx.
  - intros Harr. rewrite read_scalar_letter by done.
    unfold st'. simpl. by rewrite lookup_insert_eq.
  - intros M HM Hne. rewrite !eval_expression_letter by done.
    unfold local_var, st'. rewrite HM. simpl.
    by rewrite lookup_insert_ne.
Qed.

Lemma scalar_write_read_witness :
  let st := typed ["LET B = 4"] in
  eval_expression "A" (snd (cmd_let "A = B * 2" st)) = Ok 8
  /\ eval_expression "B" (snd (cmd_let "A = B * 2" st)) = Ok 4.
Proof.
  intros st.
  destruct (scalar_write_read st "A" "B * 2" 8 eq_refl eq_refl) as (Hrun & Hread & Hother).
  change (cmd_let "A = B * 2" st) with (cmd_let (String "A" " = " +:+ "B * 2") st).
  rewrite Hrun. split; [exact (Hread eq_refl)|].
  assert ("B"%char <> "A"%char) as Hne by discriminate.
  exact (Hother "B"%char eq_refl Hne).
Defined.

(** ** Conditions, case and precedence *)

Module CondFacts.
Import Str StrFacts PyExpr LexFacts TextFacts WriteFacts.

Lemma numeral_blank_quiet (a : Z) :
  all_chars (fun x => negb (Ascii.eqb "="%char x)) (of_Z a +:+ " ") = true
  /\ all_chars (fun x => negb (Ascii.eqb "<"%char x)) (of_Z a +:+ " ") = true
  /\ all_chars (fun x => negb (Ascii.eqb ">"%char x)) (of_Z a +:+ " ") = true.
Proof.
  pose proof (of_Z_no_relation a) as H.
  rewrite !all_chars_app, (no_relation_eq _ H), (no_relation_lt _ H),
    (no_relation_gt _ H).
  done.
Qed.

Lemma numeral_quiet (b : Z) :
  all_chars (fun x => negb (Ascii.eqb "="%char x)) (String " "%char (of_Z b)) = true
  /\ all_chars (fun x => negb (Ascii.eqb "<"%char x)) (String " "%char (of_Z b)) = true
  /\ all_chars (fun x => negb (Ascii.eqb ">"%char x)) (String " "%char (of_Z b)) = true.
Proof.
  pose proof (of_Z_no_relation b) as H. cbn [all_chars].
  by rewrite (no_relation_eq _ H), (no_relation_lt _ H), (no_relation_gt _ H).
Qed.

Lemma relation_text_assoc (a : Z) (op : string) (b : Z) :
  relation_text a op b = (of_Z a +:+ " ") +:+ (op +:+ String " "%char (of_Z b)).
Proof.
  unfold relation_text. by rewrite append_assoc.
Qed.

Ltac quiet_side :=
  first [ apply numeral_blank_quiet
        | apply (proj1 (proj2 (numeral_blank_quiet _)))
        | apply (proj2 (proj2 (numeral_blank_quiet _)))
        | apply numeral_quiet
        | apply (proj1 (proj2 (numeral_quiet _)))
        | apply (proj2 (proj2 (numeral_quiet _))) ].

Ltac push_append :=
  repeat match goal with
         | |- context [String ?c ?s +:+ ?r] =>
             change (String c s +:+ r) with (String c (s +:+ r))
         | |- context [EmptyString +:+ ?r] => change (EmptyString +:+ r) with r
         end.

Ltac split_relation :=
  rewrite relation_text_assoc; push_append;
  rewrite split_first_skip by quiet_side;
  cbn;
  rewrite ?split_first_absent by quiet_side;
  cbn beta iota; rewrite ?append_nil_r; reflexivity.

Lemma split_ge (a b : Z) :
  split_first ">=" (relation_text a ">=" b)
  = Some (of_Z a +:+ " ", String " "%char (of_Z b)).
Proof. split_relation. Qed.

Lemma split_le (a b : Z) :
  split_first ">=" (relation_text a "<=" b) = None
  /\ split_first "<=" (relation_text a "<=" b)
     = Some (of_Z a +:+ " ", String " "%char (of_Z b)).
Proof. split; split_relation. Qed.

Lemma split_ne (a b : Z) :
  split_first ">=" (relation_text a "<>" b) = None
  /\ split_first "<=" (relation_text a "<>" b) = None
  /\ split_first "<>" (relation_text a "<>" b)
     = Some (of_Z a +:+ " ", String " "%char (of_Z b)).
Proof. repeat split; split_relation. Qed.

Lemma split_gt (a b : Z) :
  split_first ">=" (relation_text a ">" b) = None
  /\ split_first "<=" (relation_text a ">" b) = None
  /\ split_first "<>" (relation_text a ">" b) = None
  /\ split_first ">" (relation_text a ">" b)
     = Some (of_Z a +:+ " ", String " "%char (of_Z b)).
Proof. repeat split; split_relation. Qed.

Lemma split_lt (a b : Z) :
  split_first ">=" (relation_text a "<" b) = None
  /\ split_first "<=" (relation_text a "<" b) = None
  /\ split_first "<>" (relation_text a "<" b) = None
  /\ split_first ">" (relation_text a "<" b) = None
  /\ split_first "<" (relation_text a "<" b)
     = Some (of_Z a +:+ " ", String " "%char (of_Z b)).
Proof. repeat split; split_relation. Qed.

Lemma split_eq (a b : Z) :
  split_first ">=" (relation_text a "=" b) = None
  /\ split_first "<=" (relation_text a "=" b) = None
  /\ split_first "<>" (relation_text a "=" b) = None
  /\ split_first ">" (relation_text a "=" b) = None
  /\ split_first "<" (relation_text a "=" b) = None
  /\ split_first "=" (relation_text a "=" b)
     = Some (of_Z a +:+ " ", String " "%char (of_Z b)).
Proof. repeat split; split_relation. Qed.

(** *** Case *)

Lemma upper_char_idem (c : ascii) : upper_char (upper_char c) = upper_char c.
Proof. destruct c as [[] [] [] [] [] [] [] []]; reflexivity. Qed.

Lemma is_space_upper_char (c : ascii) : is_space (upper_char c) = is_space c.
Proof. destruct c as [[] [] [] [] [] [] [] []]; reflexivity. Qed.

Lemma upper_idem (s : string) : upper (upper s) = upper s.
Proof.
  induction s as [|c s IH]; [done|]. simpl. by rewrite upper_char_idem, IH.
Qed.

Lemma lstrip_upper (s : string) : lstrip (upper s) = upper (lstrip s).
Proof.
  induction s as [|c s IH]; [done|]. simpl. rewrite is_space_upper_char.
  by destruct (is_space c).
Qed.

Lemma rstrip_upper (s : string) : rstrip (upper s) = upper (rstrip s).
Proof.
  induction s as [|c s IH]; [done|]. simpl. rewrite IH, is_space_upper_char.
  destruct (rstrip s) as [|d r]; simpl; [|done]. by destruct (is_space c).
Qed.

Lemma strip_upper (s : string) : strip (upper s) = upper (strip s).
Proof. unfold strip. by rewrite lstrip_upper, rstrip_upper. Qed.

Lemma all_nonspace_upper (w : string) :
  all_chars (fun c => negb (is_space c)) w = true ->
  all_chars (fun c => negb (is_space c)) (upper w) = true.
Proof.
  induction w as [|c w IH]; [done|]. simpl. rewrite is_space_upper_char.
  intros [-> Hw]%andb_true_iff. by apply IH.
Qed.

(** *** Texts with operators *)

Lemma steady_spec (c : ascii) :
  steady c = true -> is_lower c = false /\ Ascii.eqb c "/"%char = false.
Proof.
  unfold steady. intros [H1 H2]%andb_true_iff. by apply negb_true_iff in H1, H2.
Qed.

Lemma plain_steady (c : ascii) : plain c = true -> steady c = true.
Proof.
  intros H. destruct (plain_spec c H) as (_ & H1 & H2). unfold steady.
  by rewrite H1, H2.
Qed.

Lemma upper_steady (s : string) : all_chars steady s = true -> upper s = s.
Proof.
  induction s as [|c r IH]; [done|]. simpl.
  intros [Hc Hr]%andb_true_iff. rewrite (IH Hr).
  destruct (steady_spec c Hc) as [Hl _]. unfold upper_char. by rewrite Hl.
Qed.

Lemma replace_slash_steady (s : string) :
  all_chars steady s = true -> replace_slash s = s.
Proof.
  induction s as [|c r IH]; [done|]. simpl.
  intros [Hc Hr]%andb_true_iff. rewrite (IH Hr).
  destruct (steady_spec c Hc) as [_ ->]. done.
Qed.

Lemma of_Z_steady (n : Z) : all_chars steady (of_Z n) = true.
Proof.
  apply (all_chars_impl plain); [apply plain_steady|apply of_Z_plain].
Qed.

Lemma eval_expression_text (st : state) (s : string) :
  all_chars steady s = true -> head_nonspace s = true -> rstrip s = s ->
  eval_expression s st
  = match host_eval st s with
    | Ok z => Ok z
    | Err e => Err (RuntimeError (ExpressionError s e))
    end.
Proof.
  intros Hs Hh Hr. unfold eval_expression.
  rewrite (strip_stripped s Hh Hr), (upper_steady s Hs).
  destruct (is_empty s) eqn:He.
  { apply is_empty_true in He. by rewrite He in Hh. }
  by rewrite (replace_slash_steady s Hs).
Qed.

Lemma rstrip_app_stripped (a b : string) :
  rstrip b = b -> b <> "" -> rstrip (a +:+ b) = a +:+ b /\ a +:+ b <> "".
Proof.
  intros Hr Hne. split.
  - rewrite rstrip_app_nonempty; by rewrite Hr.
  - intros [_ ?]%append_eq_nil. done.
Qed.

Lemma of_Z_stripped (n : Z) : rstrip (of_Z n) = of_Z n /\ of_Z n <> "".
Proof.
  destruct (of_Z_plain n) as [Hp Hh]. split; [by apply rstrip_plain|].
  by destruct (of_Z n).
Qed.

Lemma head_nonspace_app (a b : string) :
  head_nonspace a = true -> head_nonspace (a +:+ b) = true.
Proof. destruct a; [done|]. by rewrite append_cons. Qed.

(** *** Comparisons of numerals *)

Lemma eval_condition_text (st : state) (a b : Z) (op : string) :
  In op ops ->
  eval_condition (relation_text a op b) st = Ok (relation op a b).
Proof.
  intros Hop. unfold eval_condition, ops in *.
  pose proof (eval_numeral_blank_r st a) as Hl.
  pose proof (eval_numeral_blank_l st b) as Hr.
  change (of_Z a +:+ String " "%char "") with (of_Z a +:+ " ") in Hl.
  simpl in Hop.
  destruct Hop as [<-|[<-|[<-|[<-|[<-|[<-|[]]]]]]]; cbn [eval_condition_go].
  - by rewrite split_ge, Hl, Hr.
  - destruct (split_le a b) as (H1 & H2). by rewrite H1, H2, Hl, Hr.
  - destruct (split_ne a b) as (H1 & H2 & H3). by rewrite H1, H2, H3, Hl, Hr.
  - destruct (split_gt a b) as (H1 & H2 & H3 & H4).
    by rewrite H1, H2, H3, H4, Hl, Hr.
  - destruct (split_lt a b) as (H1 & H2 & H3 & H4 & H5).
    by rewrite H1, H2, H3, H4, H5, Hl, Hr.
  - destruct (split_eq a b) as (H1 & H2 & H3 & H4 & H5 & H6).
    by rewrite H1, H2, H3, H4, H5, H6, Hl, Hr.
Qed.

End CondFacts.

(** X17: the six relational operators compare as integers.  For all
    integers [a] and [b], the condition texts [a >= b], [a <= b], [a <> b],
    [a > b], [a < b] and [a = b] evaluate to the corresponding comparison
    of [a] and [b]: the two-character operators are found before the
    one-character ones. *)
Theorem conditions_compare (st : state) (a b : Z) :
  eval_condition (relation_text a ">=" b) st = Ok (b <=? a)
  /\ eval_condition (relation_text a "<=" b) st = Ok (a <=? b)
  /\ eval_condition (relation_text a "<>" b) st = Ok (negb (a =? b))
  /\ eval_condition (relation_text a ">" b) st = Ok (b <? a)
  /\ eval_condition (relation_text a "<" b) st = Ok (a <? b)
  /\ eval_condition (relation_text a "=" b) st = Ok (a =? b).
Proof.
  assert (forall op, In op ops ->
            eval_condition (relation_text a op b) st = Ok (relation op a b)) as H
      by (intros op; apply CondFacts.eval_condition_text).
  repeat split; rewrite H; try reflexivity; unfold ops; simpl; tauto.
Qed.

(** X18: letter case does not matter.  An expression evaluates to the
    same result, with the same error if it fails, as the expression in
    capitals; and a statement made of a command word, a blank and an
    argument is executed as the same statement with the word in capitals. *)
Theorem case_is_ignored (st : state) (fuel : nat) (s w x : string) :
  Re.all_chars (fun c => negb (Str.is_space c)) w = true -> w <> "" ->
  Str.head_nonspace x = true -> Str.rstrip x = x ->
  eval_expression (Str.upper s) st = eval_expression s st
  /\ execute_statement fuel (w +:+ String " "%char x) st
     = execute_statement fuel (Str.upper w +:+ String " "%char x) st.
Proof.
  intros Hw Hne Hh Hr. split.
  - unfold eval_expression. by rewrite CondFacts.strip_upper, CondFacts.upper_idem.
  - destruct fuel as [|f]; [done|]. simpl. unfold dispatch.
    rewrite !WriteFacts.split_command_word; try done.
    + by rewrite CondFacts.upper_idem.
    + by apply CondFacts.all_nonspace_upper.
    + by destruct w.
Qed.

Lemma case_is_ignored_witness :
  let st := typed ["LET A = 3"] in
  eval_expression "A * 2" st = eval_expression "a * 2" st
  /\ execute_statement 1 "print a" st = execute_statement 1 "PRINT a" st.
Proof.
  intros st.
  assert ("print" <> "") as Hne by discriminate.
  destruct (case_is_ignored st 1 "a * 2" "print" "a" eq_refl Hne eq_refl eq_refl)
    as [He Hs].
  split; [exact He|exact Hs].
Defined.

(** ** Arithmetic *)

Module ArithFacts.
Import Str StrFacts PyExpr LexFacts TextFacts WriteFacts CondFacts.

Lemma lex_blank (r : string) :
  lex_go PNone (String " "%char r) = bind (lex_go PNone r) (fun rest => Ok rest).
Proof. reflexivity. Qed.

Lemma lex_lparen (r : string) :
  lex_go PNone (String "("%char r)
  = bind (lex_go PNone r) (fun rest => Ok (TLParen :: rest)).
Proof. reflexivity. Qed.

Lemma lex_star_blank (r : string) :
  lex_go PNone (String "*"%char (String " "%char r))
  = bind (lex_go PNone r) (fun rest => Ok (TStar :: rest)).
Proof. simpl. by destruct (lex_go PNone r). Qed.

Lemma lex_percent_blank (r : string) :
  lex_go PNone (String "%"%char (String " "%char r))
  = bind (lex_go PNone r) (fun rest => Ok (TPercent :: rest)).
Proof. simpl. by destruct (lex_go PNone r). Qed.

Lemma lex_plus_blank (r : string) :
  lex_go PNone (String "+"%char (String " "%char r))
  = bind (lex_go PNone r) (fun rest => Ok (TPlus :: rest)).
Proof. simpl. by destruct (lex_go PNone r). Qed.

Lemma lex_minus_blank (r : string) :
  lex_go PNone (String "-"%char (String " "%char r))
  = bind (lex_go PNone r) (fun rest => Ok (TMinus :: rest)).
Proof. simpl. by destruct (lex_go PNone r). Qed.

Lemma sum_product_text_shape (a b c : Z) :
  all_chars steady (sum_product_text a b c) = true
  /\ head_nonspace (sum_product_text a b c) = true
  /\ rstrip (sum_product_text a b c) = sum_product_text a b c.
Proof.
  unfold sum_product_text. split; [|split].
  - by rewrite !all_chars_app, !of_Z_steady.
  - apply head_nonspace_app, of_Z_plain.
  - by repeat (apply rstrip_app_stripped; [|]); try apply of_Z_stripped.
Qed.

Lemma difference_text_shape (a b c : Z) :
  all_chars steady (difference_text a b c) = true
  /\ head_nonspace (difference_text a b c) = true
  /\ rstrip (difference_text a b c) = difference_text a b c.
Proof.
  unfold difference_text. split; [|split].
  - by rewrite !all_chars_app, !of_Z_steady.
  - apply head_nonspace_app, of_Z_plain.
  - by repeat (apply rstrip_app_stripped; [|]); try apply of_Z_stripped.
Qed.

Lemma grouped_text_shape (a b c : Z) :
  all_chars steady (grouped_text a b c) = true
  /\ head_nonspace (grouped_text a b c) = true
  /\ rstrip (grouped_text a b c) = grouped_text a b c.
Proof.
  unfold grouped_text. split; [|split].
  - by rewrite !all_chars_app, !of_Z_steady.
  - reflexivity.
  - by repeat (apply rstrip_app_stripped; [|]); try apply of_Z_stripped.
Qed.

Lemma remainder_text_shape (a b : Z) :
  all_chars steady (remainder_text a b) = true
  /\ head_nonspace (remainder_text a b) = true
  /\ rstrip (remainder_text a b) = remainder_text a b.
Proof.
  unfold remainder_text. split; [|split].
  - by rewrite !all_chars_app, !of_Z_steady.
  - apply head_nonspace_app, of_Z_plain.
  - by repeat (apply rstrip_app_stripped; [|]); try apply of_Z_stripped.
Qed.

Lemma lex_sum_product (a b c : Z) :
  lex (sum_product_text a b c)
  = Ok (literal_tokens a ++ TPlus :: literal_tokens b ++ TStar :: literal_tokens c)%list.
Proof.
  unfold lex, sum_product_text. push_append.
  rewrite lex_literal_blank, lex_plus_blank, lex_literal_blank, lex_star_blank,
    lex_literal_end.
  reflexivity.
Qed.

Lemma lex_difference (a b c : Z) :
  lex (difference_text a b c)
  = Ok (literal_tokens a ++ TMinus :: literal_tokens b ++ TMinus :: literal_tokens c)%list.
Proof.
  unfold lex, difference_text. push_append.
  rewrite lex_literal_blank, lex_minus_blank, lex_literal_blank, lex_minus_blank,
    lex_literal_end.
  reflexivity.
Qed.

Lemma lex_grouped (a b c : Z) :
  lex (grouped_text a b c)
  = Ok (TLParen :: literal_tokens a ++ TPlus :: literal_tokens b
          ++ TRParen :: TStar :: literal_tokens c)%list.
Proof.
  unfold lex, grouped_text. push_append.
  rewrite lex_lparen, lex_literal_blank, lex_plus_blank, lex_literal_rparen,
    lex_blank, lex_star_blank, lex_literal_end.
  reflexivity.
Qed.

Lemma lex_remainder (a b : Z) :
  lex (remainder_text a b) = Ok (literal_tokens a ++ TPercent :: literal_tokens b)%list.
Proof.
  unfold lex, remainder_text. push_append.
  rewrite lex_literal_blank, lex_percent_blank, lex_literal_end.
  reflexivity.
Qed.

Lemma parse_sum_product (a b c : Z) :
  parse (literal_tokens a ++ TPlus :: literal_tokens b ++ TStar :: literal_tokens c)
  = Ok (EBin Add (literal a) (EBin Mul (literal b) (literal c))).
Proof.
  unfold literal_tokens, literal.
  destruct (a <? 0); destruct (b <? 0); destruct (c <? 0); reflexivity.
Qed.

Lemma parse_difference (a b c : Z) :
  parse (literal_tokens a ++ TMinus :: literal_tokens b ++ TMinus :: literal_tokens c)
  = Ok (EBin Sub (EBin Sub (literal a) (literal b)) (literal c)).
Proof.
  unfold literal_tokens, literal.
  destruct (a <? 0); destruct (b <? 0); destruct (c <? 0); reflexivity.
Qed.

Lemma parse_grouped (a b c : Z) :
  parse (TLParen :: literal_tokens a ++ TPlus :: literal_tokens b
           ++ TRParen :: TStar :: literal_tokens c)
  = Ok (EBin Mul (EBin Add (literal a) (literal b)) (literal c)).
Proof.
  unfold literal_tokens, literal.
  destruct (a <? 0); destruct (b <? 0); destruct (c <? 0); reflexivity.
Qed.

Lemma parse_remainder (a b : Z) :
  parse (literal_tokens a ++ TPercent :: literal_tokens b)
  = Ok (EBin Mod (literal a) (literal b)).
Proof.
  unfold literal_tokens, literal.
  destruct (a <? 0); destruct (b <? 0); reflexivity.
Qed.

End ArithFacts.

(** X19: precedence, associativity and grouping.  For all integers [a],
    [b] and [c], the text [a + b * c] evaluates to [a + (b * c)], the
    text [a - b - c] to [(a - b) - c], and the text [(a + b) * c] to
    [(a + b) * c]. *)
Theorem arithmetic_precedence (st : state) (a b c : Z) :
  eval_expression (sum_product_text a b c) st = Ok (a + b * c)
  /\ eval_expression (difference_text a b c) st = Ok (a - b - c)
  /\ eval_expression (grouped_text a b c) st = Ok ((a + b) * c).
Proof.
  split; [|split].
  - destruct (ArithFacts.sum_product_text_shape a b c) as (Hs & Hh & Hr).
    rewrite CondFacts.eval_expression_text by done. unfold host_eval.
    rewrite ArithFacts.lex_sum_product. simpl.
    rewrite ArithFacts.parse_sum_product. simpl.
    by rewrite !LexFacts.eval_literal.
  - destruct (ArithFacts.difference_text_shape a b c) as (Hs & Hh & Hr).
    rewrite CondFacts.eval_expression_text by done. unfold host_eval.
    rewrite ArithFacts.lex_difference. simpl.
    rewrite ArithFacts.parse_difference. simpl.
    by rewrite !LexFacts.eval_literal.
  - destruct (ArithFacts.grouped_text_shape a b c) as (Hs & Hh & Hr).
    rewrite CondFacts.eval_expression_text by done. unfold host_eval.
    rewrite ArithFacts.lex_grouped. simpl.
    rewrite ArithFacts.parse_grouped. simpl.
    by rewrite !LexFacts.eval_literal.
Qed.

(** X20: the remainder takes the sign of the divisor.  For every integer
    [a] and every [b] other than zero, the text [a % b] evaluates to the
    remainder [r] of the floored division: [a = b * (a / b) + r] with [r]
    between zero and [b], zero included and [b] excluded; for [b] zero
    the evaluation fails. *)
Theorem remainder_of_floor (st : state) (a b : Z) :
  (b <> 0 ->
   exists r, eval_expression (remainder_text a b) st = Ok r
             /\ a = b * (a / b) + r
             /\ (0 <= r < b \/ b < r <= 0))
  /\ (b = 0 ->
      eval_expression (remainder_text a b) st
      = Err (RuntimeError (ExpressionError (remainder_text a b) ZeroDivisionError))).
Proof.
  destruct (ArithFacts.remainder_text_shape a b) as (Hs & Hh & Hr).
  rewrite CondFacts.eval_expression_text by done. unfold host_eval.
  rewrite ArithFacts.lex_remainder. simpl.
  rewrite ArithFacts.parse_remainder. simpl.
  rewrite !LexFacts.eval_literal. simpl.
  split; intros Hb.
  - exists (a mod b). destruct (Z.eqb_spec b 0) as [|_]; [done|].
    split; [done|]. split; [by apply Z.div_mod|].
    destruct (Z.lt_ge_cases 0 b) as [Hp|Hn].
    + left. by apply Z.mod_pos_bound.
    + right. apply Z.mod_neg_bound. lia.
  - by rewrite Hb.
Qed.

Lemma remainder_of_floor_witness :
  (exists r, eval_expression "-7 % 2" (init ∅) = Ok r
             /\ -7 = 2 * (-7 / 2) + r /\ (0 <= r < 2 \/ 2 < r <= 0))
  /\ eval_expression "7 % 0" (init ∅)
     = Err (RuntimeError (ExpressionError "7 % 0" ZeroDivisionError)).
Proof.
  split.
  - apply (proj1 (remainder_of_floor (init ∅) (-7) 2)). lia.
  - apply (proj2 (remainder_of_floor (init ∅) 7 0)). reflexivity.
Defined.

(** ** Ending the session *)

(** X21: QUIT ends the session.  When the interpreter is reading input
    and a line that is not a numbered line has QUIT as its command word, in
    any case and whatever follows the word, the flag [running] is cleared,
    nothing else changes, and no later line of input is read. *)
Theorem quit_ends_session (fuel : nat) (line : string) (rest : list string)
        (st : state) :
  running st = true ->
  Re.match_numbered (Str.strip line) = None ->
  command_of (Str.strip line) = "QUIT" ->
  session (S fuel) (line :: rest) st = (Done, set_running false st).
Proof.
  intros Hrun Hnum Hq. simpl session at 1. rewrite Hrun.
  unfold interactive_line, process_input, process_input_with.
  destruct (Str.is_empty (Str.strip line)) eqn:He.
  { apply StrFacts.is_empty_true in He. by rewrite He in Hq. }
  rewrite Hnum. simpl execute_statement. unfold dispatch.
  unfold command_of in Hq.
  destruct (split_command (Str.strip line)) as [[command arg]|]; [|done].
  subst command. cbn [String.eqb Ascii.eqb Bool.eqb].
  by destruct rest.
Qed.

Lemma quit_ends_session_witness :
  session 1 ["  quit now"; "PRINT 1"; "10 PRINT 2"] (init ∅)
  = (Done, set_running false (init ∅)).
Proof.
  apply (quit_ends_session 0 "  quit now" ["PRINT 1"; "10 PRINT 2"] (init ∅));
    reflexivity.
Defined.

(** ** Programs without jumps *)

Module RunFacts.

Lemma straight_spec (stmt command arg : string) :
  split_command stmt = Some (command, arg) -> straight stmt = true ->
  String.eqb command "GOTO" = false /\ String.eqb command "IF" = false
  /\ String.eqb command "RUN" = false /\ String.eqb command "NEW" = false
  /\ String.eqb command "LOAD" = false.
Proof.
  intros Hsc. unfold straight, command_of. rewrite Hsc. intros H.
  repeat (apply andb_true_iff in H as [H ?]).
  repeat split; by apply negb_true_iff.
Qed.

Lemma straight_leaves_store (stmt : string) :
  straight stmt = true -> leaves_store stmt = true.
Proof.
  unfold straight, leaves_store. intros H.
  repeat (apply andb_true_iff in H as [H ?]). by apply andb_true_iff.
Qed.

Lemma straight_statement_finishes (f : nat) (stmt : string) (st : state) :
  straight stmt = true -> fst (execute_statement (S f) stmt st) <> OutOfFuel.
Proof.
  intros H. simpl. unfold dispatch.
  destruct (split_command stmt) as [[command arg]|] eqn:Hsc; [|done].
  destruct (straight_spec _ _ _ Hsc H) as (Hg & Hi & Hr & Hn & Hl).
  rewrite Hg, Hi, Hr, Hn, Hl.
  destruct (String.eqb command "PRINT").
  { unfold cmd_print. by destruct (eval_expression arg st). }
  destruct (String.eqb command "LET").
  { unfold cmd_let.
    destruct (Str.split_first "=" arg) as [[var_part expr_part]|]; [|done].
    destruct (eval_expression expr_part st); [|done].
    destruct (Re.match_array_form _) as [[name idx_expr]|].
    - destruct (eval_expression idx_expr st) as [idx|]; [|done].
      destruct (arrays st !! name); [|done]. by destruct (_ && _).
    - by destruct (Re.match_letter _). }
  destruct (String.eqb command "DIM").
  { unfold cmd_dim. destruct (Re.match_array_form _) as [[name size_expr]|]; [|done].
    by destruct (eval_expression size_expr st). }
  destruct (String.eqb command "END"); [done|].
  destruct (String.eqb command "LIST"); [done|].
  destruct (String.eqb command "SAVE").
  { unfold cmd_save. destruct (Str.is_empty arg); [done|].
    by destruct (decide _). }
  by destruct (String.eqb command "QUIT").
Qed.

Lemma length_sorted_lines (p : gmap Z string) : length (sorted_lines p) = size p.
Proof.
  unfold sorted_lines. by rewrite merge_sort_Permutation, length_map, length_map_to_list.
Qed.

Lemma run_loop_straight (p : gmap Z string) (f : nat) :
  wf_program p -> straight_program p ->
  forall iters pc_idx st,
    program st = p ->
    (length (sorted_lines p) - pc_idx < iters)%nat ->
    fst (run_loop (execute_statement (S f)) iters (sorted_lines p) pc_idx st) = Done.
Proof.
  intros Hwf Hs.
  assert (store_safe p) as Hsafe.
  { intros n code Hl. apply straight_leaves_store. by eapply Hs. }
  remember (execute_statement (S f)) as exec eqn:Hexec.
  induction iters as [|m IH]; intros pc_idx st Hp Hlen; [lia|].
  simpl. destruct (sorted_lines p !! pc_idx) as [line_num|] eqn:Hl; [|done].
  assert (pc_idx < length (sorted_lines p))%nat as Hpc
      by (apply lookup_lt_is_Some; eauto).
  assert (line_num ∈ sorted_lines p) as Hin by (by eapply list_elem_of_lookup_2).
  apply elem_of_sorted_lines in Hin as [stmt Hstmt]. rewrite Hp, Hstmt.
  destruct (Hwf _ _ Hstmt) as [_ Hc].
  destruct (split_command_stored stmt Hc) as [[command arg] Hsc]. rewrite Hsc.
  destruct (straight_spec _ _ _ Hsc (Hs _ _ Hstmt)) as (-> & -> & _).
  destruct (String.eqb command "END"); [done|].
  pose proof (execute_statement_program p (S f) Hsafe stmt st (Hsafe _ _ Hstmt) Hp)
    as Hp'.
  pose proof (straight_statement_finishes f stmt st (Hs _ _ Hstmt)) as Hfin.
  rewrite <- Hexec in Hp', Hfin.
  destruct (exec stmt st) as [[| e |] st']; simpl in *;
    [apply IH; [done|lia]|done|done].
Qed.

End RunFacts.

(** X22: a program without jumps terminates.  When no stored statement is
    a GOTO, an IF, a RUN, a NEW or a LOAD, a run executes every line at most
    once: with more fuel than there are stored lines, RUN ends normally,
    whatever the statements do and whichever of them fail. *)
Theorem straight_program_terminates (fuel : nat) (st : state) :
  wf_program (program st) -> straight_program (program st) ->
  (size (program st) < fuel)%nat ->
  fst (execute_statement (S fuel) "RUN" st) = Done.
Proof.
  intros Hwf Hs Hfuel.
  change (execute_statement (S fuel) "RUN" st)
    with (execute_program_with (execute_statement fuel) fuel None st).
  unfold execute_program_with. destruct (decide (program st = ∅)); [done|].
  destruct fuel as [|f]; [lia|].
  apply RunFacts.run_loop_straight; [done|done|done|].
  rewrite RunFacts.length_sorted_lines. lia.
Qed.

Lemma straight_program_terminates_witness :
  fst (execute_statement 5 "RUN"
         (typed ["10 PRINT 1 / 0"; "20 LET A = 2"; "30 gosub 7"])) = Done.
Proof.
  apply (straight_program_terminates 4).
  - apply typed_wf.
  - intros n code Hl.
    assert (n ∈ sorted_lines
                  (program (typed ["10 PRINT 1 / 0"; "20 LET A = 2"; "30 gosub 7"])))
      as Hin by (apply elem_of_sorted_lines; eauto).
    vm_compute in Hin.
    repeat (apply elem_of_cons in Hin as [->|Hin];
            [vm_compute in Hl; by injection Hl as <-|]).
    by apply elem_of_nil in Hin.
  - vm_compute. lia.
Defined.

(** ** IF on numerals *)

Module IfFacts.
Import Str StrFacts Re LexFacts TextFacts WriteFacts CondFacts.

Lemma match_then_nonspace (c : ascii) (r : string) :
  is_space c = false -> match_then (String c r) = None.
Proof. intros Hc. unfold match_then. simpl. by rewrite Hc. Qed.

Lemma match_then_blank_other (c : ascii) (r : string) :
  is_space c = false -> Ascii.eqb "T"%char (upper_char c) = false ->
  match_then (String " "%char (String c r)) = None.
Proof.
  intros Hc Ht. unfold match_then.
  assert (span is_space (String " "%char (String c r)) = (" ", String c r)) as ->
      by (simpl; by rewrite Hc).
  assert (starts_with "THEN" (upper (String c r)) = false) as ->
      by (cbn [upper starts_with]; by rewrite Ht).
  reflexivity.
Qed.

Lemma match_if_go_app (a : string) :
  forall pre s, quiet_then a s ->
    match_if_go pre (a +:+ s) = match_if_go (pre +:+ a) s.
Proof.
  induction a as [|c r IH]; intros pre s Hq.
  - by rewrite append_nil_l, append_nil_r.
  - destruct Hq as (Hm & Hn & Hq). rewrite append_cons.
    destruct s as [|d s'].
    + rewrite append_nil_r in *.
      change (match_if_go pre (String c r))
        with (match match_then (String c r) with
              | Some target => Some (pre, target)
              | None => if is_newline c then None
                        else match_if_go (pre +:+ String c "") r
              end).
      rewrite Hm, Hn. rewrite <- (append_nil_r r) at 1.
      rewrite IH by done. rewrite append_assoc. reflexivity.
    + change (match_if_go pre (String c (r +:+ String d s')))
        with (match match_then (String c (r +:+ String d s')) with
              | Some target => Some (pre, target)
              | None => if is_newline c then None
                        else match_if_go (pre +:+ String c "") (r +:+ String d s')
              end).
      rewrite Hm, Hn, IH by done. rewrite append_assoc. reflexivity.
Qed.

Lemma quiet_then_app (a b s : string) :
  quiet_then a (b +:+ s) -> quiet_then b s -> quiet_then (a +:+ b) s.
Proof.
  induction a as [|c r IH]; intros Ha Hb; [by rewrite append_nil_l|].
  destruct Ha as (Hm & Hn & Ha). rewrite append_cons. simpl.
  rewrite append_assoc. split; [done|]. split; [done|]. by apply IH.
Qed.

Lemma quiet_then_plain (a s : string) :
  all_chars plain a = true -> quiet_then a s.
Proof.
  induction a as [|c r IH]; [done|]. simpl.
  intros [Hc Hr]%andb_true_iff. destruct (plain_spec c Hc) as (Hs & _).
  split; [by apply match_then_nonspace|]. split; [|by apply IH].
  pose proof (plain_not_newline c Hc) as Hn. unfold not_newline in Hn.
  by apply negb_true_iff in Hn.
Qed.

Lemma digit_head (c : ascii) :
  is_digit c = true ->
  is_space c = false /\ Ascii.eqb "T"%char (upper_char c) = false.
Proof.
  destruct c as [[] [] [] [] [] [] [] []]; intros H; vm_compute in H;
    try discriminate H; by vm_compute.
Qed.

Lemma of_Z_head (n : Z) :
  exists c r, of_Z n = String c r /\ is_space c = false
              /\ Ascii.eqb "T"%char (upper_char c) = false.
Proof.
  destruct (Z.lt_ge_cases n 0) as [Hneg|Hpos].
  - rewrite of_Z_negative by done. by eexists _, _.
  - destruct (of_Z_spec n Hpos) as (_ & Hd & Hh).
    destruct (of_Z n) as [|c r]; [done|]. exists c, r. split; [done|].
    simpl in Hd. apply andb_true_iff in Hd as [Hc _]. by apply digit_head.
Qed.

Lemma quiet_then_blank_numeral (n : Z) (s : string) :
  quiet_then " " (of_Z n +:+ s).
Proof.
  destruct (of_Z_head n) as (c & r & -> & Hc & Ht). simpl.
  rewrite append_cons. split; [by apply match_then_blank_other|done].
Qed.

Lemma quiet_then_blank_op (op s : string) :
  In op ops -> quiet_then " " (op +:+ s).
Proof.
  unfold ops. simpl.
  intros [<-|[<-|[<-|[<-|[<-|[<-|[]]]]]]]; by vm_compute.
Qed.

Lemma op_plain (op : string) : In op ops -> all_chars plain op = true.
Proof.
  unfold ops. simpl. intros [<-|[<-|[<-|[<-|[<-|[<-|[]]]]]]]; reflexivity.
Qed.

Lemma quiet_then_relation (a b : Z) (op s : string) :
  In op ops -> quiet_then (relation_text a op b) s.
Proof.
  intros Hop. unfold relation_text.
  apply quiet_then_app.
  { apply quiet_then_plain, of_Z_plain. }
  apply quiet_then_app.
  { rewrite append_assoc. by apply quiet_then_blank_op. }
  apply quiet_then_app.
  { apply quiet_then_plain. by apply op_plain. }
  apply quiet_then_app.
  { apply quiet_then_blank_numeral. }
  apply quiet_then_plain, of_Z_plain.
Qed.

Lemma span_head_nonspace (s : string) :
  head_nonspace s = true -> span is_space s = ("", s).
Proof.
  destruct s as [|c r]; [done|]. simpl. intros H.
  apply negb_true_iff in H. by rewrite H.
Qed.

Lemma of_Z_not_newline (n : Z) : all_chars not_newline (of_Z n) = true.
Proof.
  apply (all_chars_impl plain); [apply plain_not_newline|apply of_Z_plain].
Qed.

Lemma match_then_numeral (n : Z) :
  match_then (" THEN " +:+ of_Z n) = Some (of_Z n).
Proof.
  destruct (of_Z_plain n) as [_ Hh]. unfold match_then.
  assert (span is_space (" THEN " +:+ of_Z n) = (" ", "THEN " +:+ of_Z n)) as ->
      by reflexivity.
  assert (starts_with "THEN" (upper ("THEN " +:+ of_Z n)) = true) as ->
      by reflexivity.
  assert (span is_space (drop 4 ("THEN " +:+ of_Z n)) = (" ", of_Z n)) as ->.
  { change (drop 4 ("THEN " +:+ of_Z n)) with (String " "%char (of_Z n)).
    cbn [span]. change (is_space " "%char) with true. cbv iota.
    by rewrite (span_head_nonspace _ Hh). }
  cbv beta iota. cbn [is_empty negb].
  destruct (of_Z n) as [|c r] eqn:E; [done|]. rewrite <- E.
  by rewrite (take_while_all _ _ (of_Z_not_newline n)).
Qed.

Lemma match_if_relation (a b n : Z) (op : string) :
  In op ops ->
  match_if (relation_text a op b +:+ " THEN " +:+ of_Z n)
  = Some (relation_text a op b, of_Z n).
Proof.
  intros Hop.
  assert (match_if (relation_text a op b +:+ " THEN " +:+ of_Z n)
          = match_if_go "" (relation_text a op b +:+ " THEN " +:+ of_Z n)) as ->.
  { unfold relation_text. destruct (of_Z_head a) as (c & r & -> & Hc & _).
    rewrite !append_cons.
    change (match_if_go "" (String c ?x))
      with (match match_then (String c x) with
            | Some target => Some ("", target)
            | None => if is_newline c then None
                      else match_if_go ("" +:+ String c "") x
            end).
    rewrite match_then_nonspace by done. reflexivity. }
  rewrite match_if_go_app by (by apply quiet_then_relation).
  rewrite append_nil_l.
  destruct (" THEN " +:+ of_Z n) as [|d s'] eqn:E; [done|].
  change (match_if_go (relation_text a op b) (String d s'))
    with (match match_then (String d s') with
          | Some target => Some (relation_text a op b, target)
          | None => if is_newline d then None
                    else match_if_go (relation_text a op b +:+ String d "") s'
          end).
  by rewrite <- E, match_then_numeral.
Qed.

End IfFacts.

(** X23: IF compares and jumps.  In a run, a stored [IF a op b THEN n] on
    integers, with any of the six relational operators, jumps to line [n]
    exactly when the relation holds between [a] and [b]: it then continues
    at the index of [n], or reports that line [n] is not in the program and
    ends the run; when the relation does not hold the run goes on with the
    next line.  The state is not changed by the IF itself. *)
Theorem if_compares_and_jumps (exec : string -> state -> outcome) (m : nat)
        (lines : list Z) (pc_idx : nat) (st : state) (line_num a b n : Z)
        (op : string) :
  In op ops ->
  lines !! pc_idx = Some line_num ->
  program st !! line_num = Some (if_text a op b n) ->
  run_loop exec (S m) lines pc_idx st
  = if relation op a b
    then match index_of n lines with
         | Some idx => run_loop exec m lines idx st
         | None => (Done, print (not_found_in_program n) st)
         end
    else run_loop exec m lines (S pc_idx) st.
Proof.
  intros Hop Hl Hp.
  assert (split_command (if_text a op b n)
          = Some ("IF", relation_text a op b +:+ " THEN " +:+ Str.of_Z n)) as Hsc.
  { unfold if_text.
    change ("IF " +:+ relation_text a op b +:+ " THEN " +:+ Str.of_Z n)
      with ("IF" +:+ String " "%char
                       (relation_text a op b +:+ " THEN " +:+ Str.of_Z n)).
    rewrite WriteFacts.split_command_word; [done|done|done| |].
    - unfold relation_text. do 2 apply CondFacts.head_nonspace_app.
      apply LexFacts.of_Z_plain.
    - by repeat (apply CondFacts.rstrip_app_stripped; [|]);
        try apply CondFacts.of_Z_stripped. }
  rewrite (run_loop_step _ _ _ _ _ _ _ _ _ Hl Hp Hsc).
  cbn [String.eqb Ascii.eqb Bool.eqb].
  rewrite IfFacts.match_if_relation, CondFacts.eval_condition_text by done.
  destruct (relation op a b); [|done].
  unfold jump. by rewrite TextFacts.eval_numeral.
Qed.

Lemma if_compares_and_jumps_witness :
  let st := typed ["10 IF 1 < 2 THEN 30"; "20 PRINT 0"; "30 PRINT 1";
                   "40 IF 2 <= 1 THEN 10"; "50 IF 3 <> 4 THEN 7"] in
  output (snd (execute_statement 9 "RUN" st))
  = [Line "1"; Line "Line 7 not found in program."].
Proof.
  intros st.
  assert (In "<"%string ops) as Hop by (do 4 right; left; reflexivity).
  pose proof (if_compares_and_jumps (execute_statement 8) 7
                (sorted_lines (program st)) 0 st 10 1 2 30 "<" Hop eq_refl eq_refl)
    as Hrun.
  change (execute_statement 9 "RUN" st)
    with (run_loop (execute_statement 8) 8 (sorted_lines (program st)) 0 st).
  rewrite Hrun. reflexivity.
Defined.
